(** * Learning-session controller of the Tutor front end

    A shallow embedding of the client-side session controller:
    - [frontend/src/services/aiQuizGenerator.ts]           (module [AIQuizGenerator]),
    - [frontend/src/components/learning/LearningSession.tsx] (module [LearningSession]),
    - the second component of
      [frontend/src/components/learning/LearningSessionSimple.tsx]
      (module [LearningSessionSimple], its quiz overlays in [QuizOverlay]),
    - [frontend/src/components/learning/QuizDisplay.tsx]   (module [QuizDisplay]),
    - the interceptors of [frontend/src/services/api.ts]   (module [Api]),
      and the two components with their calls going through them
      (modules [Page] and [SimplePage]),
    - the authentication provider [AuthContext] and the login page
      (modules [AuthContext] and [LoginPage]).

    Conventions of the embedding.
    - A React component is a record of its [useState] cells; a handler is a
      computation in a state-and-exception monad.  A handler is a closure
      over the values of the render it was created in, so it first takes a
      snapshot ([snapshot]) and reads only from it; every [setX v] overwrites
      one cell, and a functional update [setX (prev => ...)] reads the cell
      as it is when the update is applied.
    - An [await] of an external call is a value of type [result]: the
      promise is fulfilled ([Ok]) or rejected ([Throw]).  Handlers run to
      completion; events queued while a promise is pending are not modelled.
    - JavaScript numbers are IEEE-754 binary64.  The counters hold integers
      and are kept as [Z]; [+ 1] on them is the addition of [Z] as long as
      the sum stays within 2^53, beyond which binary64 no longer counts in
      steps of one.  The properties that state the value of a count assume
      that bound ([Statement.countsExactly]).  Numbers that are not integers
      ([accuracy_rate], [difficulty]) are binary64 values ([spec_float] at
      precision 53).
    - A JavaScript string is a sequence of UTF-16 code units; a [string]
      here is a sequence of 8-bit characters, each read as the code unit of
      the same number, which covers text whose code units lie below 256.
    - A call to the back end is an [await] of its outcome as the handler
      sees it ([World]).  The calls go through the axios instance of
      [api.ts], whose response interceptor acts on the browser before the
      handler sees a rejection; modules [Page] and [SimplePage] thread the
      browser through the handlers that make such calls.
    - A lookup [obj[key]] in an object literal also finds the members
      inherited from [Object.prototype]; [AIQuizGenerator] models the own
      keys of its two tables, and statements about generated options carry
      the hypothesis that the subject is no such name
      ([JSObject.inherited]).
    - [console.error]/[console.warn] append to a trace kept beside the
      component state. *)

From Stdlib Require Import ZArith Ascii String List Bool Lia.
From Stdlib Require Import DecimalString DecimalPos DecimalZ Finite.
From Stdlib Require Import Floats.SpecFloat.

Import ListNotations.
Local Open Scope string_scope.
Local Open Scope Z_scope.

(** ** JavaScript values shared by the three source files *)

Module JS.

(** binary64 numbers *)
Definition number := spec_float.
Definition prec : Z := 53.
Definition emax : Z := 1024.

Definition ofZ (z : Z) : number := binary_normalize prec emax z 0 false.
Definition div (x y : number) : number := SFdiv prec emax x y.
Definition mul (x y : number) : number := SFmul prec emax x y.

(** the literal [0.5] *)
Definition half : number := div (ofZ 1) (ofZ 2).

(** [!x] on a number: 0, -0 and NaN are falsy *)
Definition falsyNumber (x : number) : bool :=
  match x with
  | S754_zero _ | S754_nan => true
  | _ => false
  end.

(** [!s] on a string: only the empty string is falsy *)
Definition falsyString (s : string) : bool := String.eqb s "".

(** [a === b] on two strings *)
Definition strictEq (a b : string) : bool := String.eqb a b.

(** Outcome of an awaited promise or of a call that may throw. *)
Inductive result (A : Type) : Type :=
| Ok (a : A)
| Throw (e : string).
Arguments Ok {A} a.
Arguments Throw {A} e.

(** [arr.findIndex(p)]: the first index whose element satisfies [p], -1
    when there is none. *)
Fixpoint findIndexFrom {A : Type} (p : A -> bool) (l : list A) (i : Z) : Z :=
  match l with
  | [] => -1
  | x :: l' => if p x then i else findIndexFrom p l' (i + 1)
  end.
Definition findIndex {A : Type} (p : A -> bool) (l : list A) : Z :=
  findIndexFrom p l 0.

(** [arr[i]] for a number [i] that holds an integer: [undefined] (here
    [None]) outside the array. *)
Definition index {A : Type} (l : list A) (i : Z) : option A :=
  if i <? 0 then None else nth_error l (Z.to_nat i).

(** [arr.length] *)
Definition len {A : Type} (l : list A) : Z := Z.of_nat (length l).

(** [a || d] for an optional string *)
Definition orString (a : option string) (d : string) : string :=
  match a with
  | Some v => if falsyString v then d else v
  | None => d
  end.

(** [a || d] for an optional integer *)
Definition orZ (a : option Z) (d : Z) : Z :=
  match a with
  | Some v => if v =? 0 then d else v
  | None => d
  end.

(** [a || d] for an optional number *)
Definition orNumber (a : option number) (d : number) : number :=
  match a with
  | Some v => if falsyNumber v then d else v
  | None => d
  end.

(** [a || d] for an optional array (an array is truthy) *)
Definition orList {A : Type} (a : option (list A)) (d : list A) : list A :=
  match a with
  | Some v => v
  | None => d
  end.

End JS.
Export JS.

(** ** [aiQuizGenerator.ts] *)

Module AIQuizGenerator.

(** [Question['options']]: an object with the four keys A, B, C, D. *)
Record Options : Type := mkOptions {
  optA : string;
  optB : string;
  optC : string;
  optD : string
}.

Record Question : Type := mkQuestion {
  id : string;
  question : string;
  options : Options;
  correct_answer : string;
  explanation : string;
  subject : option string;
  difficulty : option number
}.

Record QuizGenerationRequest : Type := mkRequest {
  req_subject : string;
  req_topic : string;
  req_difficulty : number;
  req_numQuestions : Z
}.

(** What the JavaScript runtime contributes to one call of [generateQuiz].
    [floorRandom4] is [Math.floor(Math.random() * 4)], which is one of
    0, 1, 2, 3 because [Math.random()] lies in [0, 1).  No statement of the
    [try] block throws on a well-typed request; [throwsAt] lets an
    iteration raise an exception all the same, so that the [catch] clause
    is exercised. *)
Inductive pick : Type := P0 | P1 | P2 | P3.

Record Runtime : Type := mkRuntime {
  dateNow : Z -> Z;
  floorRandom4 : Z -> pick;
  throwsAt : Z -> bool
}.

(** [`${n}`] for a number holding an integer *)
Definition showZ (n : Z) : string :=
  DecimalString.NilZero.string_of_int (Z.to_int n).

(** [['A', 'B', 'C', 'D'][k]] *)
Definition letterOf (k : pick) : string :=
  match k with P0 => "A" | P1 => "B" | P2 => "C" | P3 => "D" end.

(** Own keys of the [questionTemplates] object literal.  For a subject that
    names a member of [Object.prototype] ("constructor", "toString", ...) the
    lookup of the code finds that member instead, and the question text it
    reads from it is [undefined]; such subjects are outside this table. *)
Definition questionTemplates (topic subject : string) : option (list string) :=
  if String.eqb subject "Mathematics" then
    Some [ "What is the result of this " ++ topic ++ " problem?";
           "Which formula is used for " ++ topic ++ "?";
           "How do you solve this " ++ topic ++ " equation?" ]
  else if String.eqb subject "Science" then
    Some [ "What is the main principle of " ++ topic ++ "?";
           "Which process describes " ++ topic ++ "?";
           "What happens during " ++ topic ++ "?" ]
  else if String.eqb subject "History" then
    Some [ "When did the " ++ topic ++ " occur?";
           "Who was involved in " ++ topic ++ "?";
           "What was the cause of " ++ topic ++ "?" ]
  else if String.eqb subject "English" then
    Some [ "What is the meaning of this " ++ topic ++ " concept?";
           "Which technique is used in " ++ topic ++ "?";
           "How does " ++ topic ++ " affect the text?" ]
  else None.

(** [questionNumber] is [i + 1] for a loop index [i >= 0], so the index
    [questionNumber % templates.length] lies inside the array. *)
Definition generateQuestionText (subject topic : string) (questionNumber : Z) : string :=
  let templates :=
    match questionTemplates topic subject with
    | Some t => t
    | None => [ "What is important about " ++ topic ++ "?";
                "How does " ++ topic ++ " work?";
                "What are the key features of " ++ topic ++ "?" ]
    end in
  nth (Z.to_nat (Z.rem questionNumber (len templates))) templates "".

(** Own keys of the [optionSets] object literal.  For a subject that names a
    member of [Object.prototype] the code finds the inherited member, which
    is truthy, and [generateOptions] returns [undefined]; the conversion in
    [createNewSession] and [startSession] then throws on [q.options.A].
    Such subjects are outside this table. *)
Definition optionSets (subject : string) : option (list Options) :=
  if String.eqb subject "Mathematics" then
    Some [ mkOptions "x = 5" "x = 10" "x = 15" "x = 20";
           mkOptions "Pythagorean theorem" "Quadratic formula" "Chain rule" "Distance formula" ]
  else if String.eqb subject "Science" then
    Some [ mkOptions "Photosynthesis" "Respiration" "Digestion" "Circulation";
           mkOptions "Newton's First Law" "Newton's Second Law" "Newton's Third Law" "Law of Gravity" ]
  else if String.eqb subject "History" then
    Some [ mkOptions "1776" "1789" "1812" "1865";
           mkOptions "George Washington" "Thomas Jefferson" "Abraham Lincoln" "Benjamin Franklin" ]
  else if String.eqb subject "English" then
    Some [ mkOptions "Metaphor" "Simile" "Alliteration" "Personification";
           mkOptions "First person" "Second person" "Third person limited" "Third person omniscient" ]
  else None.

Definition defaultOptions : Options :=
  mkOptions "Option A" "Option B" "Option C" "Option D".

Definition generateOptions (subject topic : string) (questionNumber : Z) : Options :=
  let sets :=
    match optionSets subject with
    | Some s => s
    | None => [ defaultOptions ]
    end in
  nth (Z.to_nat (Z.rem questionNumber (len sets))) sets defaultOptions.

Definition getFallbackQuestions (request : QuizGenerationRequest) : list Question :=
  [ {| id := "fallback_1";
       question := "What is a fundamental concept in " ++ req_topic request ++ "?";
       options := mkOptions "Basic principle" "Advanced theory" "Complex formula" "Simple rule";
       correct_answer := "A";
       explanation := "This is a basic question about " ++ req_topic request
                      ++ " in " ++ req_subject request ++ ".";
       subject := Some (req_subject request);
       difficulty := Some (req_difficulty request) |} ].

(** The object built by iteration [i] of the loop. *)
Definition makeQuestion (rt : Runtime) (request : QuizGenerationRequest) (i : Z) : Question :=
  {| id := "q_" ++ showZ (dateNow rt i) ++ "_" ++ showZ i;
     question := generateQuestionText (req_subject request) (req_topic request) (i + 1);
     options := generateOptions (req_subject request) (req_topic request) (i + 1);
     correct_answer := letterOf (floorRandom4 rt i);
     explanation := "This question tests your understanding of " ++ req_topic request
                    ++ " in " ++ req_subject request ++ ".";
     subject := Some (req_subject request);
     difficulty := Some (req_difficulty request) |}.

(** [for (let i = 0; i < request.numQuestions; i++) { ...; questions.push(question) }]
    started at index [i] with [questions] collected so far; [fuel] bounds
    the number of iterations left. *)
Fixpoint quizLoop (rt : Runtime) (request : QuizGenerationRequest)
         (fuel : nat) (i : Z) (questions : list Question) : result (list Question) :=
  match fuel with
  | O => Ok questions
  | S fuel' =>
      if i <? req_numQuestions request then
        if throwsAt rt i then Throw "exception in generateQuiz"
        else quizLoop rt request fuel' (i + 1) (questions ++ [makeQuestion rt request i])
      else Ok questions
  end.

(** The body of the [try] block. *)
Definition tryBody (rt : Runtime) (request : QuizGenerationRequest) : result (list Question) :=
  quizLoop rt request (Z.to_nat (req_numQuestions request)) 0 [].

(** The outcome of the promise returned by [generateQuiz].  The
    [console.error] of the [catch] clause is not recorded. *)
Definition generateQuiz (rt : Runtime) (request : QuizGenerationRequest) : result (list Question) :=
  match tryBody rt request with
  | Ok questions => Ok questions
  | Throw error => Ok (getFallbackQuestions request)
  end.

End AIQuizGenerator.

(** ** [LearningSession.tsx]: data and component state *)

Module LearningSession.

Module AI := AIQuizGenerator.

Record Question : Type := mkQuestion {
  qid : string;
  question : string;
  options : list string;
  correct_answer : string;
  explanation : string;
  difficulty : number
}.

Record LearningSessionData : Type := mkSession {
  sid : Z;
  session_type : string;
  subject_area : string;
  topic : string;
  status : string;
  questions_attempted : Z;
  questions_correct : Z;
  accuracy_rate : number;
  duration_minutes : Z;
  started_at : string
}.

(** The object held by the [newSessionData] cell (the creation dialog). *)
Record NewSessionData : Type := mkNewSessionData {
  new_subject_area : string;
  new_topic : string;
  new_session_type : string
}.

(** The [useState] cells of the component, and the console trace. *)
Record State : Type := mkState {
  sessions : list LearningSessionData;
  activeSession : option LearningSessionData;
  currentQuestion : option Question;
  currentQuestions : list Question;
  selectedAnswer : string;
  showResults : bool;
  isCorrect : bool;
  explanationText : string;
  loading : bool;
  error : string;
  successMessage : string;
  createDialogOpen : bool;
  newSessionData : NewSessionData;
  console : list string
}.

(** *** State setters *)

Definition updSessions (f : list LearningSessionData -> list LearningSessionData) (s : State) : State :=
  mkState (f (sessions s)) (activeSession s) (currentQuestion s) (currentQuestions s)
          (selectedAnswer s) (showResults s) (isCorrect s) (explanationText s) (loading s)
          (error s) (successMessage s) (createDialogOpen s) (newSessionData s) (console s).
Definition setActiveSession (v : option LearningSessionData) (s : State) : State :=
  mkState (sessions s) v (currentQuestion s) (currentQuestions s)
          (selectedAnswer s) (showResults s) (isCorrect s) (explanationText s) (loading s)
          (error s) (successMessage s) (createDialogOpen s) (newSessionData s) (console s).
Definition setCurrentQuestion (v : option Question) (s : State) : State :=
  mkState (sessions s) (activeSession s) v (currentQuestions s)
          (selectedAnswer s) (showResults s) (isCorrect s) (explanationText s) (loading s)
          (error s) (successMessage s) (createDialogOpen s) (newSessionData s) (console s).
Definition setCurrentQuestions (v : list Question) (s : State) : State :=
  mkState (sessions s) (activeSession s) (currentQuestion s) v
          (selectedAnswer s) (showResults s) (isCorrect s) (explanationText s) (loading s)
          (error s) (successMessage s) (createDialogOpen s) (newSessionData s) (console s).
Definition setSelectedAnswer (v : string) (s : State) : State :=
  mkState (sessions s) (activeSession s) (currentQuestion s) (currentQuestions s)
          v (showResults s) (isCorrect s) (explanationText s) (loading s)
          (error s) (successMessage s) (createDialogOpen s) (newSessionData s) (console s).
Definition setShowResults (v : bool) (s : State) : State :=
  mkState (sessions s) (activeSession s) (currentQuestion s) (currentQuestions s)
          (selectedAnswer s) v (isCorrect s) (explanationText s) (loading s)
          (error s) (successMessage s) (createDialogOpen s) (newSessionData s) (console s).
Definition setIsCorrect (v : bool) (s : State) : State :=
  mkState (sessions s) (activeSession s) (currentQuestion s) (currentQuestions s)
          (selectedAnswer s) (showResults s) v (explanationText s) (loading s)
          (error s) (successMessage s) (createDialogOpen s) (newSessionData s) (console s).
Definition setExplanation (v : string) (s : State) : State :=
  mkState (sessions s) (activeSession s) (currentQuestion s) (currentQuestions s)
          (selectedAnswer s) (showResults s) (isCorrect s) v (loading s)
          (error s) (successMessage s) (createDialogOpen s) (newSessionData s) (console s).
Definition setLoading (v : bool) (s : State) : State :=
  mkState (sessions s) (activeSession s) (currentQuestion s) (currentQuestions s)
          (selectedAnswer s) (showResults s) (isCorrect s) (explanationText s) v
          (error s) (successMessage s) (createDialogOpen s) (newSessionData s) (console s).
Definition setError (v : string) (s : State) : State :=
  mkState (sessions s) (activeSession s) (currentQuestion s) (currentQuestions s)
          (selectedAnswer s) (showResults s) (isCorrect s) (explanationText s) (loading s)
          v (successMessage s) (createDialogOpen s) (newSessionData s) (console s).
Definition setSuccessMessage (v : string) (s : State) : State :=
  mkState (sessions s) (activeSession s) (currentQuestion s) (currentQuestions s)
          (selectedAnswer s) (showResults s) (isCorrect s) (explanationText s) (loading s)
          (error s) v (createDialogOpen s) (newSessionData s) (console s).
Definition setCreateDialogOpen (v : bool) (s : State) : State :=
  mkState (sessions s) (activeSession s) (currentQuestion s) (currentQuestions s)
          (selectedAnswer s) (showResults s) (isCorrect s) (explanationText s) (loading s)
          (error s) (successMessage s) v (newSessionData s) (console s).
Definition updNewSessionData (f : NewSessionData -> NewSessionData) (s : State) : State :=
  mkState (sessions s) (activeSession s) (currentQuestion s) (currentQuestions s)
          (selectedAnswer s) (showResults s) (isCorrect s) (explanationText s) (loading s)
          (error s) (successMessage s) (createDialogOpen s) (f (newSessionData s)) (console s).
Definition consoleLog (line : string) (s : State) : State :=
  mkState (sessions s) (activeSession s) (currentQuestion s) (currentQuestions s)
          (selectedAnswer s) (showResults s) (isCorrect s) (explanationText s) (loading s)
          (error s) (successMessage s) (createDialogOpen s) (newSessionData s)
          (console s ++ [line]).

(** *** The handler monad: component state threaded through code that may
    throw.  A state update made before an exception stays made. *)

Definition M (A : Type) : Type := State -> result A * State.

Definition ret {A : Type} (a : A) : M A := fun s => (Ok a, s).

Definition bind {A B : Type} (m : M A) (k : A -> M B) : M B :=
  fun s => match m s with
           | (Ok a, s') => k a s'
           | (Throw e, s') => (Throw e, s')
           end.

(** [try { m } catch (e) { h e }] *)
Definition tryCatch {A : Type} (m : M A) (h : string -> M A) : M A :=
  fun s => match m s with
           | (Ok a, s') => (Ok a, s')
           | (Throw e, s') => h e s'
           end.

(** [try { m } finally { f }] *)
Definition tryFinally {A : Type} (m : M A) (f : M unit) : M A :=
  fun s => match m s with
           | (r, s') => match f s' with
                        | (Ok _, s'') => (r, s'')
                        | (Throw e, s'') => (Throw e, s'')
                        end
           end.

(** the values of the render the handler closes over *)
Definition snapshot : M State := fun s => (Ok s, s).

(** a [setX] call *)
Definition set (f : State -> State) : M unit := fun s => (Ok tt, f s).

(** [await p] for a promise with outcome [r] *)
Definition await {A : Type} (r : result A) : M A := fun s => (r, s).

(** [throw new Error(e)], or an exception raised by the runtime *)
Definition throw {A : Type} (e : string) : M A := fun s => (Throw e, s).

Declare Scope handler_scope.
Delimit Scope handler_scope with handler.
Notation "'let!' x ':=' m 'in' k" := (bind m (fun x => k))
  (at level 10, x name, m at level 100, k at level 200) : handler_scope.
Notation "'run!' m 'in' k" := (bind m (fun _ => k))
  (at level 10, m at level 100, k at level 200) : handler_scope.
Local Open Scope handler_scope.

(** The state a handler leaves behind, whether its promise is fulfilled or
    rejected. *)
Definition after {A : Type} (m : M A) (s : State) : State := snd (m s).

(** *** The world outside the component *)

Record CreateSessionRequest : Type := mkCreateSessionRequest {
  content_id : Z;
  csr_session_type : string
}.

Record Interaction : Type := mkInteraction {
  question_id : string;
  answer : string;
  is_correct : bool;
  time_spent : Z
}.

(** Outcomes of the calls a handler awaits, as functions of the arguments
    it passes, and the clock.  [createSession] and [logInteraction] are the
    calls of [learningAPI] as the handler sees them: fulfilled, or rejected
    with an error.  What the axios instance does to the browser before it
    hands a rejection over is not in this record; see [Page]. *)
Record World : Type := mkWorld {
  generateQuiz : AI.QuizGenerationRequest -> result (list AI.Question);
  createSession : CreateSessionRequest -> result unit;
  logInteraction : Z -> Interaction -> result unit;
  dateNow : Z;
  isoNow : string
}.

(** ** Handlers *)

(** [aiQuestions.map(q => ({ ... }))]: the conversion to the local
    [Question] format, in [createNewSession] and [startSession]. *)
Definition convertQuestion (q : AI.Question) : Question :=
  {| qid := AI.id q;
     question := AI.question q;
     options := [ AI.optA (AI.options q); AI.optB (AI.options q);
                  AI.optC (AI.options q); AI.optD (AI.options q) ];
     correct_answer := AI.correct_answer q;
     explanation := AI.explanation q;
     difficulty := orNumber (AI.difficulty q) half |}.

Definition quizRequestFor (subject topic : string) : AI.QuizGenerationRequest :=
  AI.mkRequest subject topic half 4.

(** [session: any], an element of the answer of [learningAPI.getSessions()];
    a field read through [|| default] may be missing. *)
Record RawSession : Type := mkRawSession {
  raw_id : Z;
  raw_session_type : string;
  raw_subject_area : option string;
  raw_topic : option string;
  raw_status : string;
  raw_questions_attempted : option Z;
  raw_questions_correct : option Z;
  raw_accuracy_rate : option number;
  raw_duration_minutes : option Z;
  raw_started_at : string
}.

(** [response.data]: an array of sessions, a single session, or nothing. *)
Inductive SessionsData : Type :=
| ManySessions (l : list RawSession)
| OneSession (x : RawSession)
| NoData.

Definition normalizeSession (session : RawSession) : LearningSessionData :=
  {| sid := raw_id session;
     session_type := raw_session_type session;
     subject_area := orString (raw_subject_area session) "General";
     topic := orString (raw_topic session) "Mixed Topics";
     status := raw_status session;
     questions_attempted := orZ (raw_questions_attempted session) 0;
     questions_correct := orZ (raw_questions_correct session) 0;
     accuracy_rate := orNumber (raw_accuracy_rate session) (ofZ 0);
     duration_minutes := orZ (raw_duration_minutes session) 0;
     started_at := raw_started_at session |}.

(** The demo session of the [catch] clause of [fetchSessions]. *)
Definition demoSession (startedAt : string) : LearningSessionData :=
  {| sid := 1;
     session_type := "practice";
     subject_area := "General Knowledge";
     topic := "Mixed Topics";
     status := "active";
     questions_attempted := 0;
     questions_correct := 0;
     accuracy_rate := ofZ 0;
     duration_minutes := 0;
     started_at := startedAt |}.

(** [fetchSessions], run once when the component is mounted; [response] is
    the outcome of [learningAPI.getSessions()] and [isoNow] the value of
    [new Date().toISOString()]. *)
Definition fetchSessions (response : result SessionsData) (isoNow : string) : M unit :=
  tryFinally
    (tryCatch
       (run! set (setLoading true) in
        let! data := await response in
        match data with
        | ManySessions l => set (updSessions (fun _ => map normalizeSession l))
        | OneSession session => set (updSessions (fun _ => [ normalizeSession session ]))
        | NoData => throw "TypeError: Cannot read properties of undefined"
        end)
       (fun err =>
          run! set (consoleLog ("Error fetching sessions, using demo data: " ++ err)) in
          set (updSessions (fun _ => [ demoSession isoNow ]))))
    (set (setLoading false)).

Definition createNewSession (w : World) : M unit :=
  let! r := snapshot in
  tryFinally
    (tryCatch
       (run! set (setLoading true) in
        let quizRequest := quizRequestFor (new_subject_area (newSessionData r))
                                          (new_topic (newSessionData r)) in
        let! aiQuestions := await (generateQuiz w quizRequest) in
        let questions := map convertQuestion aiQuestions in
        run! await (createSession w (mkCreateSessionRequest 1 (new_session_type (newSessionData r)))) in
        let newSession :=
          {| sid := dateNow w;
             session_type := new_session_type (newSessionData r);
             subject_area := new_subject_area (newSessionData r);
             topic := new_topic (newSessionData r);
             status := "active";
             questions_attempted := 0;
             questions_correct := 0;
             accuracy_rate := ofZ 0;
             duration_minutes := 0;
             started_at := isoNow w |} in
        run! set (updSessions (fun prev => newSession :: prev)) in
        run! set (setActiveSession (Some newSession)) in
        run! set (setCurrentQuestions questions) in
        run! (if 0 <? len questions
              then set (setCurrentQuestion (index questions 0))
              else ret tt) in
        run! set (setCreateDialogOpen false) in
        run! set (updNewSessionData (fun _ => mkNewSessionData "" "" "practice")) in
        set (setSuccessMessage ("AI-powered quiz created for " ++ new_topic (newSessionData r) ++ "!")))
       (fun err => set (setError "Failed to create AI-powered learning session")))
    (set (setLoading false)).

(** [(c / a) * 100] in binary64 *)
Definition accuracyOf (c a : Z) : number := mul (div (ofZ c) (ofZ a)) (ofZ 100).

(** The two additions are those of [Z]: they are the binary64 additions of
    the code as long as the counters stay within 2^53. *)
Definition handleAnswerSubmit (w : World) : M unit :=
  let! r := snapshot in
  match currentQuestion r, activeSession r with
  | Some cq, Some act =>
      if falsyString (selectedAnswer r) then ret tt else
      let isCorrect := strictEq (selectedAnswer r) (correct_answer cq) in
      run! set (setIsCorrect isCorrect) in
      run! set (setShowResults true) in
      run! set (setExplanation (explanation cq)) in
      let updatedSession :=
        {| sid := sid act;
           session_type := session_type act;
           subject_area := subject_area act;
           topic := topic act;
           status := status act;
           questions_attempted := questions_attempted act + 1;
           questions_correct := questions_correct act + (if isCorrect then 1 else 0);
           accuracy_rate := accuracyOf (questions_correct act + (if isCorrect then 1 else 0))
                                       (questions_attempted act + 1);
           duration_minutes := duration_minutes act;
           started_at := started_at act |} in
      run! set (setActiveSession (Some updatedSession)) in
      run! set (updSessions (map (fun session =>
                  if sid session =? sid act then updatedSession else session))) in
      tryCatch
        (await (logInteraction w (sid act)
                  (mkInteraction (qid cq) (selectedAnswer r) isCorrect 30)))
        (fun error => set (consoleLog ("Error logging interaction: " ++ error)))
  | _, _ => ret tt
  end.

Definition handleNextQuestion : M unit :=
  let! r := snapshot in
  match activeSession r with
  | None => ret tt
  | Some _ =>
      if len (currentQuestions r) =? 0 then ret tt else
      let currentIndex :=
        findIndex (fun q => match currentQuestion r with
                            | Some cq => strictEq (qid q) (qid cq)
                            | None => false
                            end) (currentQuestions r) in
      if currentIndex <? len (currentQuestions r) - 1 then
        run! set (setCurrentQuestion (index (currentQuestions r) (currentIndex + 1))) in
        run! set (setSelectedAnswer "") in
        run! set (setShowResults false) in
        set (setExplanation "")
      else
        run! set (setCurrentQuestion None) in
        run! set (setActiveSession None) in
        run! set (setCurrentQuestions []) in
        set (setSuccessMessage "Session completed! Great job!")
  end.

(** [startSession(session)] runs [generateQuestionsForSession()]. *)
Definition startSession (w : World) (session : LearningSessionData) : M unit :=
  tryFinally
    (tryCatch
       (run! set (setLoading true) in
        let quizRequest := quizRequestFor (subject_area session) (topic session) in
        let! aiQuestions := await (generateQuiz w quizRequest) in
        let questions := map convertQuestion aiQuestions in
        run! set (setCurrentQuestions questions) in
        run! set (setActiveSession (Some session)) in
        run! set (setCurrentQuestion (index questions 0)) in
        run! set (setSelectedAnswer "") in
        run! set (setShowResults false) in
        set (setExplanation ""))
       (fun error =>
          run! set (consoleLog ("Error generating questions for session: " ++ error)) in
          set (setError "Failed to generate quiz questions")))
    (set (setLoading false)).

Definition withStatus (st : string) (a : LearningSessionData) : LearningSessionData :=
  {| sid := sid a;
     session_type := session_type a;
     subject_area := subject_area a;
     topic := topic a;
     status := st;
     questions_attempted := questions_attempted a;
     questions_correct := questions_correct a;
     accuracy_rate := accuracy_rate a;
     duration_minutes := duration_minutes a;
     started_at := started_at a |}.

(** Defined in the component, bound to no control of the view. *)
Definition completeSession : M unit :=
  let! r := snapshot in
  match activeSession r with
  | None => ret tt
  | Some act =>
      tryCatch
        (let updatedSession := withStatus "completed" act in
         run! set (updSessions (map (fun s => if sid s =? sid updatedSession
                                              then updatedSession else s))) in
         run! set (setActiveSession None) in
         run! set (setCurrentQuestion None) in
         set (setSuccessMessage "Learning session completed successfully!"))
        (fun err => set (setError "Failed to complete session"))
  end.

Definition pauseSession : M unit :=
  let! r := snapshot in
  match activeSession r with
  | None => ret tt
  | Some act =>
      tryCatch
        (let updatedSession := withStatus "paused" act in
         run! set (updSessions (map (fun s => if sid s =? sid updatedSession
                                              then updatedSession else s))) in
         run! set (setActiveSession None) in
         run! set (setCurrentQuestion None) in
         set (setSuccessMessage "Session paused successfully!"))
        (fun err => set (setError "Failed to pause session"))
  end.

(** ** The view: which control is rendered in which state

    While [loading && sessions.length === 0] the component returns a spinner
    and nothing else.  Otherwise the JSX renders the session view when
    [activeSession && currentQuestion], and the session list otherwise.  In
    the session view the answer form (radio group, Submit, Pause) is rendered
    when [!showResults] and the result card (Next Question / Complete
    Session, both bound to [handleNextQuestion]) when [showResults].  The
    dialog and the two snackbars are rendered beside either view.  An event
    on a control that is not rendered, or is disabled, cannot be
    dispatched. *)

Definition isSome {A : Type} (o : option A) : bool :=
  match o with Some _ => true | None => false end.

Definition sessionView (s : State) : bool :=
  isSome (activeSession s) && isSome (currentQuestion s).

Inductive Event : Type :=
| SelectAnswer (k : nat)        (* the radio of option [k] of the current question *)
| ClickSubmit                   (* Submit Answer *)
| ClickPause                    (* Pause Session *)
| ClickNext                     (* Next Question / Complete Session *)
| ClickResume (k : nat)         (* Continue / Resume on the card of session [k] *)
| ClickNewSession               (* Start New Session / Create Your First Session *)
| TypeSubject (v : string)      (* the Subject Area text field *)
| TypeTopic (v : string)        (* the Topic text field *)
| ChooseType (v : string)       (* the Session Type select *)
| ClickCancel                   (* Cancel in the dialog *)
| ClickCreate                   (* Start Session in the dialog *)
| CloseSuccess                  (* the success snackbar *)
| CloseError.                   (* the error snackbar *)

Definition resumable (session : LearningSessionData) : bool :=
  strictEq (status session) "active" || strictEq (status session) "paused".

Definition sessionTypeItems : list string := [ "practice"; "quiz"; "review"; "lesson" ].

(** [loading && sessions.length === 0] *)
Definition spinner (s : State) : bool :=
  loading s && (len (sessions s) =? 0).

(** Is the control of the event rendered and enabled, once the component
    renders more than the spinner? *)
Definition control (ev : Event) (s : State) : bool :=
  match ev with
  | SelectAnswer k =>
      sessionView s && negb (showResults s) &&
      match currentQuestion s with
      | Some cq => isSome (nth_error (options cq) k)
      | None => false
      end
  | ClickSubmit => sessionView s && negb (showResults s) && negb (falsyString (selectedAnswer s))
  | ClickPause => sessionView s && negb (showResults s)
  | ClickNext => sessionView s && showResults s
  | ClickResume k =>
      negb (sessionView s) &&
      match nth_error (sessions s) k with
      | Some session => resumable session
      | None => false
      end
  | ClickNewSession => negb (sessionView s)
  | TypeSubject _ | TypeTopic _ | ClickCancel => createDialogOpen s
  | ChooseType v => createDialogOpen s && existsb (strictEq v) sessionTypeItems
  | ClickCreate =>
      createDialogOpen s
      && negb (falsyString (new_subject_area (newSessionData s)))
      && negb (falsyString (new_topic (newSessionData s)))
  | CloseSuccess => negb (falsyString (successMessage s))
  | CloseError => negb (falsyString (error s))
  end.

Definition enabled (ev : Event) (s : State) : bool :=
  negb (spinner s) && control ev s.

(** The handler bound to the control. *)
Definition handler (w : World) (ev : Event) : M unit :=
  match ev with
  | SelectAnswer k =>
      let! r := snapshot in
      match currentQuestion r with
      | Some cq => match nth_error (options cq) k with
                   | Some option => set (setSelectedAnswer option)
                   | None => ret tt
                   end
      | None => ret tt
      end
  | ClickSubmit => handleAnswerSubmit w
  | ClickPause => pauseSession
  | ClickNext => handleNextQuestion
  | ClickResume k =>
      let! r := snapshot in
      match nth_error (sessions r) k with
      | Some session => startSession w session
      | None => ret tt
      end
  | ClickNewSession => set (setCreateDialogOpen true)
  | TypeSubject v =>
      set (updNewSessionData (fun prev => mkNewSessionData v (new_topic prev) (new_session_type prev)))
  | TypeTopic v =>
      set (updNewSessionData (fun prev => mkNewSessionData (new_subject_area prev) v (new_session_type prev)))
  | ChooseType v =>
      set (updNewSessionData (fun prev => mkNewSessionData (new_subject_area prev) (new_topic prev) v))
  | ClickCancel => set (setCreateDialogOpen false)
  | ClickCreate => createNewSession w
  | CloseSuccess => set (setSuccessMessage "")
  | CloseError => set (setError "")
  end.

(** One user event in a world: ignored unless its control is there.  The
    event runs the handler of its control and nothing else.  (While a
    snackbar is open, a click outside it also fires the [onClose] of the
    snackbar, which blanks [successMessage] or [error]; in a trace that is
    an event [CloseSuccess] or [CloseError] of its own, next to the click.
    No handler reads the two messages.) *)
Definition dispatch (w : World) (ev : Event) (s : State) : State :=
  if enabled ev s then after (handler w ev) s else s.

(** A session of user events, each met by its own world. *)
Fixpoint dispatchAll (trace : list (World * Event)) (s : State) : State :=
  match trace with
  | [] => s
  | (w, ev) :: trace' => dispatchAll trace' (dispatch w ev s)
  end.

(** The cells as [useState] initialises them. *)
Definition initialState : State :=
  {| sessions := [];
     activeSession := None;
     currentQuestion := None;
     currentQuestions := [];
     selectedAnswer := "";
     showResults := false;
     isCorrect := false;
     explanationText := "";
     loading := false;
     error := "";
     successMessage := "";
     createDialogOpen := false;
     newSessionData := mkNewSessionData "" "" "practice";
     console := [] |}.

End LearningSession.

(** ** [LearningSessionSimple.tsx], second component: the handlers
    [createNewSession], [handleAnswerSubmit], [handleNextQuestion] and
    [pauseSession].

    The cells [showQuizResults] and [quizResults] and the session fields
    [questions], [total_questions] and [time_limit_minutes] are read and
    written by none of these handlers and are left out.  The arguments of
    the calls to the back end are not kept: a call is its outcome. *)

Module LearningSessionSimple.

Record Question : Type := mkQuestion {
  qid : string;
  question : string;
  options : list string;
  correct_answer : string;
  explanation : string;
  difficulty : number
}.

(** An element of [examples]: an object with string keys. *)
Definition Example : Type := list (string * string).

Record LessonContent : Type := mkLessonContent {
  title : string;
  full_content : option string;
  introduction : string;
  key_concepts : list string;
  examples : list Example
}.

Record LearningSessionData : Type := mkSession {
  sid : string;
  session_type : string;
  subject_area : string;
  topic : string;
  status : string;
  content : option LessonContent;
  duration_estimate : option Z;
  questions_attempted : option Z;
  questions_correct : option Z;
  accuracy_rate : option number;
  duration_minutes : option Z;
  started_at : option string;
  difficulty_level : number;
  created_at : string
}.

Record NewSessionData : Type := mkNewSessionData {
  new_subject_area : string;
  new_topic : string;
  new_session_type : string
}.

(** The object held by [activeQuizAttempt]; of its fields the handlers
    read [id] only. *)
Record QuizAttempt : Type := mkQuizAttempt {
  attempt_id : option string;
  attempt_questions : list Question
}.

Record State : Type := mkState {
  sessions : list LearningSessionData;
  activeSession : option LearningSessionData;
  currentQuestion : option Question;
  currentQuestions : list Question;
  selectedAnswer : string;
  showResults : bool;
  isCorrect : bool;
  explanationText : string;
  loading : bool;
  error : string;
  successMessage : string;
  activeQuizAttempt : option QuizAttempt;
  questionStartTime : option Z;
  createDialogOpen : bool;
  newSessionData : NewSessionData;
  console : list string
}.

Definition updSessions (f : list LearningSessionData -> list LearningSessionData) (s : State) : State :=
  mkState (f (sessions s)) (activeSession s) (currentQuestion s) (currentQuestions s)
          (selectedAnswer s) (showResults s) (isCorrect s) (explanationText s) (loading s)
          (error s) (successMessage s) (activeQuizAttempt s) (questionStartTime s)
          (createDialogOpen s) (newSessionData s) (console s).
Definition setActiveSession (v : option LearningSessionData) (s : State) : State :=
  mkState (sessions s) v (currentQuestion s) (currentQuestions s)
          (selectedAnswer s) (showResults s) (isCorrect s) (explanationText s) (loading s)
          (error s) (successMessage s) (activeQuizAttempt s) (questionStartTime s)
          (createDialogOpen s) (newSessionData s) (console s).
Definition setCurrentQuestion (v : option Question) (s : State) : State :=
  mkState (sessions s) (activeSession s) v (currentQuestions s)
          (selectedAnswer s) (showResults s) (isCorrect s) (explanationText s) (loading s)
          (error s) (successMessage s) (activeQuizAttempt s) (questionStartTime s)
          (createDialogOpen s) (newSessionData s) (console s).
Definition setCurrentQuestions (v : list Question) (s : State) : State :=
  mkState (sessions s) (activeSession s) (currentQuestion s) v
          (selectedAnswer s) (showResults s) (isCorrect s) (explanationText s) (loading s)
          (error s) (successMessage s) (activeQuizAttempt s) (questionStartTime s)
          (createDialogOpen s) (newSessionData s) (console s).
Definition setSelectedAnswer (v : string) (s : State) : State :=
  mkState (sessions s) (activeSession s) (currentQuestion s) (currentQuestions s)
          v (showResults s) (isCorrect s) (explanationText s) (loading s)
          (error s) (successMessage s) (activeQuizAttempt s) (questionStartTime s)
          (createDialogOpen s) (newSessionData s) (console s).
Definition setShowResults (v : bool) (s : State) : State :=
  mkState (sessions s) (activeSession s) (currentQuestion s) (currentQuestions s)
          (selectedAnswer s) v (isCorrect s) (explanationText s) (loading s)
          (error s) (successMessage s) (activeQuizAttempt s) (questionStartTime s)
          (createDialogOpen s) (newSessionData s) (console s).
Definition setIsCorrect (v : bool) (s : State) : State :=
  mkState (sessions s) (activeSession s) (currentQuestion s) (currentQuestions s)
          (selectedAnswer s) (showResults s) v (explanationText s) (loading s)
          (error s) (successMessage s) (activeQuizAttempt s) (questionStartTime s)
          (createDialogOpen s) (newSessionData s) (console s).
Definition setExplanation (v : string) (s : State) : State :=
  mkState (sessions s) (activeSession s) (currentQuestion s) (currentQuestions s)
          (selectedAnswer s) (showResults s) (isCorrect s) v (loading s)
          (error s) (successMessage s) (activeQuizAttempt s) (questionStartTime s)
          (createDialogOpen s) (newSessionData s) (console s).
Definition setLoading (v : bool) (s : State) : State :=
  mkState (sessions s) (activeSession s) (currentQuestion s) (currentQuestions s)
          (selectedAnswer s) (showResults s) (isCorrect s) (explanationText s) v
          (error s) (successMessage s) (activeQuizAttempt s) (questionStartTime s)
          (createDialogOpen s) (newSessionData s) (console s).
Definition setError (v : string) (s : State) : State :=
  mkState (sessions s) (activeSession s) (currentQuestion s) (currentQuestions s)
          (selectedAnswer s) (showResults s) (isCorrect s) (explanationText s) (loading s)
          v (successMessage s) (activeQuizAttempt s) (questionStartTime s)
          (createDialogOpen s) (newSessionData s) (console s).
Definition setSuccessMessage (v : string) (s : State) : State :=
  mkState (sessions s) (activeSession s) (currentQuestion s) (currentQuestions s)
          (selectedAnswer s) (showResults s) (isCorrect s) (explanationText s) (loading s)
          (error s) v (activeQuizAttempt s) (questionStartTime s)
          (createDialogOpen s) (newSessionData s) (console s).
Definition setActiveQuizAttempt (v : option QuizAttempt) (s : State) : State :=
  mkState (sessions s) (activeSession s) (currentQuestion s) (currentQuestions s)
          (selectedAnswer s) (showResults s) (isCorrect s) (explanationText s) (loading s)
          (error s) (successMessage s) v (questionStartTime s)
          (createDialogOpen s) (newSessionData s) (console s).
Definition setQuestionStartTime (v : option Z) (s : State) : State :=
  mkState (sessions s) (activeSession s) (currentQuestion s) (currentQuestions s)
          (selectedAnswer s) (showResults s) (isCorrect s) (explanationText s) (loading s)
          (error s) (successMessage s) (activeQuizAttempt s) v
          (createDialogOpen s) (newSessionData s) (console s).
Definition setCreateDialogOpen (v : bool) (s : State) : State :=
  mkState (sessions s) (activeSession s) (currentQuestion s) (currentQuestions s)
          (selectedAnswer s) (showResults s) (isCorrect s) (explanationText s) (loading s)
          (error s) (successMessage s) (activeQuizAttempt s) (questionStartTime s)
          v (newSessionData s) (console s).
Definition setNewSessionData (v : NewSessionData) (s : State) : State :=
  mkState (sessions s) (activeSession s) (currentQuestion s) (currentQuestions s)
          (selectedAnswer s) (showResults s) (isCorrect s) (explanationText s) (loading s)
          (error s) (successMessage s) (activeQuizAttempt s) (questionStartTime s)
          (createDialogOpen s) v (console s).
Definition consoleLog (line : string) (s : State) : State :=
  mkState (sessions s) (activeSession s) (currentQuestion s) (currentQuestions s)
          (selectedAnswer s) (showResults s) (isCorrect s) (explanationText s) (loading s)
          (error s) (successMessage s) (activeQuizAttempt s) (questionStartTime s)
          (createDialogOpen s) (newSessionData s) (console s ++ [line]).

(** The handler monad of this component. *)

Definition M (A : Type) : Type := State -> result A * State.

Definition ret {A : Type} (a : A) : M A := fun s => (Ok a, s).

Definition bind {A B : Type} (m : M A) (k : A -> M B) : M B :=
  fun s => match m s with
           | (Ok a, s') => k a s'
           | (Throw e, s') => (Throw e, s')
           end.

Definition tryCatch {A : Type} (m : M A) (h : string -> M A) : M A :=
  fun s => match m s with
           | (Ok a, s') => (Ok a, s')
           | (Throw e, s') => h e s'
           end.

Definition tryFinally {A : Type} (m : M A) (f : M unit) : M A :=
  fun s => match m s with
           | (r, s') => match f s' with
                        | (Ok _, s'') => (r, s'')
                        | (Throw e, s'') => (Throw e, s'')
                        end
           end.

Definition snapshot : M State := fun s => (Ok s, s).
Definition set (f : State -> State) : M unit := fun s => (Ok tt, f s).
Definition await {A : Type} (r : result A) : M A := fun s => (r, s).
Definition throw {A : Type} (e : string) : M A := fun s => (Throw e, s).
Definition after {A : Type} (m : M A) (s : State) : State := snd (m s).

Declare Scope simple_scope.
Delimit Scope simple_scope with simple.
Notation "'let!' x ':=' m 'in' k" := (bind m (fun x => k))
  (at level 10, x name, m at level 100, k at level 200) : simple_scope.
Notation "'run!' m 'in' k" := (bind m (fun _ => k))
  (at level 10, m at level 100, k at level 200) : simple_scope.
Local Open Scope simple_scope.

(** *** Responses of the back end *)

(** [lesson.content]: a string or an object. *)
Record ContentObject : Type := mkContentObject {
  co_full_content : option string;
  co_introduction : option string;
  co_key_concepts : option (list string);
  co_examples : option (list Example)
}.

Inductive RawContent : Type :=
| ContentString (text : string)
| ContentObj (o : ContentObject).

Record RawLesson : Type := mkRawLesson {
  lesson_id : option string;
  lesson_title : option string;
  lesson_content : option RawContent;
  lesson_key_concepts : option (list string);
  lesson_estimated_duration : option Z
}.

(** [lessonResponse.data] *)
Record LessonData : Type := mkLessonData {
  lesson : option RawLesson
}.

(** An element [q: any] of the generated question list. *)
Record RawQuestion : Type := mkRawQuestion {
  raw_question : string;
  raw_options : option (list string);
  raw_option_a : string;
  raw_option_b : string;
  raw_option_c : string;
  raw_option_d : string;
  raw_correct_answer : string;
  raw_explanation : option string;
  raw_difficulty_level : option number
}.

Record QuizPayload : Type := mkQuizPayload {
  payload_questions : option (list RawQuestion)
}.

(** [quizResponse.data] *)
Record QuizData : Type := mkQuizData {
  quiz : option QuizPayload;
  data_questions : option (list RawQuestion)
}.

(** Outcomes of the awaited calls as the handlers see them, the clock, and
    the built-in [parseInt] ([None] for NaN).  All five calls go through the
    axios instance of [api.ts]; what its response interceptor does to the
    browser on a rejection is not in this record, which is about the cells
    of the component; see [SimplePage]. *)
Record World : Type := mkWorld {
  generateLesson : result LessonData;
  generateQuiz : result QuizData;
  createSession : result (option string);   (* [sessionResponse.data.id] *)
  submitQuiz : result unit;
  logInteraction : result unit;
  parseInt : string -> option Z;
  dateNow : Z;
  isoNow : string
}.

Definition showZ (n : Z) : string :=
  DecimalString.NilZero.string_of_int (Z.to_int n).

(** [quizData.quiz?.questions || quizData.questions || []] *)
Definition questionsDataOf (quizData : QuizData) : list RawQuestion :=
  match quiz quizData with
  | Some p =>
      match payload_questions p with
      | Some qs => qs
      | None => orList (data_questions quizData) []
      end
  | None => orList (data_questions quizData) []
  end.

(** [questionsData.map((q, index) => ({ ... }))] from index [index] on *)
Fixpoint convertQuestionsFrom (index : Z) (questionsData : list RawQuestion) : list Question :=
  match questionsData with
  | [] => []
  | q :: rest =>
      {| qid := "q_" ++ showZ index;
         question := raw_question q;
         options := orList (raw_options q)
                      [ raw_option_a q; raw_option_b q; raw_option_c q; raw_option_d q ];
         correct_answer := raw_correct_answer q;
         explanation := orString (raw_explanation q) "No explanation available.";
         difficulty := orNumber (raw_difficulty_level q) half |}
      :: convertQuestionsFrom (index + 1) rest
  end.

Definition convertQuestions (questionsData : list RawQuestion) : list Question :=
  convertQuestionsFrom 0 questionsData.

Definition welcomeText (topic : string) : string :=
  "Welcome to this comprehensive lesson on " ++ topic ++ ".".

Definition defaultKeyConcepts : list string :=
  [ "Foundation principles"; "Practical applications"; "Problem-solving strategies" ].

Definition defaultExamples (topic : string) : list Example :=
  [ [ ("Basic Application", "How " ++ topic ++ " applies in real-world scenarios") ];
    [ ("Advanced Implementation", "Complex applications of " ++ topic) ] ].

(** The [content] field of a new lesson session.  [substring(0, 300)] counts
    code units, which are the characters of the [string] here. *)
Definition lessonContentOf (d : NewSessionData) (lessonData : LessonData) : LessonContent :=
  let fallbackTitle := new_topic d ++ " - " ++ new_subject_area d in
  let fallback :=
    {| title := fallbackTitle;
       full_content := Some (welcomeText (new_topic d));
       introduction := welcomeText (new_topic d);
       key_concepts := defaultKeyConcepts;
       examples := defaultExamples (new_topic d) |} in
  match lesson lessonData with
  | None => fallback
  | Some l =>
      match lesson_content l with
      | None => fallback
      | Some (ContentString text) =>
          if falsyString text then fallback else
          {| title := orString (lesson_title l) fallbackTitle;
             full_content := Some text;
             introduction := substring 0 300 text ++ "...";
             key_concepts := orList (lesson_key_concepts l) defaultKeyConcepts;
             examples := defaultExamples (new_topic d) |}
      | Some (ContentObj o) =>
          {| title := orString (lesson_title l) fallbackTitle;
             full_content :=
               Some (orString (co_full_content o)
                       (orString (co_introduction o) (welcomeText (new_topic d))));
             introduction := orString (co_introduction o) (welcomeText (new_topic d));
             key_concepts :=
               match lesson_key_concepts l with
               | Some k => k
               | None => orList (co_key_concepts o) defaultKeyConcepts
               end;
             examples := orList (co_examples o) (defaultExamples (new_topic d)) |}
      end
  end.

Definition createNewSession (w : World) : M unit :=
  let! r := snapshot in
  let d := newSessionData r in
  tryFinally
    (tryCatch
       (run! set (setLoading true) in
        let! newSession :=
          (if strictEq (new_session_type d) "lesson" then
             let! lessonData := await (generateLesson w) in
             let newSession :=
               {| sid := orString (match lesson lessonData with
                                   | Some l => lesson_id l
                                   | None => None
                                   end) (showZ (dateNow w));
                  session_type := "lesson";
                  subject_area := new_subject_area d;
                  topic := new_topic d;
                  status := "active";
                  content := Some (lessonContentOf d lessonData);
                  duration_estimate :=
                    Some (orZ (match lesson lessonData with
                               | Some l => lesson_estimated_duration l
                               | None => None
                               end) 20);
                  questions_attempted := Some 0;
                  questions_correct := Some 0;
                  accuracy_rate := Some (ofZ 0);
                  duration_minutes := Some 0;
                  started_at := Some (isoNow w);
                  difficulty_level := half;
                  created_at := isoNow w |} in
             run! set (setSuccessMessage ("AI-powered lesson created for " ++ new_topic d ++ "!")) in
             ret newSession
           else
             let! quizData := await (generateQuiz w) in
             let questionsData := questionsDataOf quizData in
             if len questionsData =? 0 then throw "No questions generated" else
             let questions := convertQuestions questionsData in
             let! sessionId :=
               tryCatch
                 (let! responseId := await (createSession w) in
                  ret (orString responseId (showZ (dateNow w))))
                 (fun sessionError =>
                    run! set (consoleLog ("Learning session creation failed, continuing with quiz: "
                                          ++ sessionError)) in
                    ret (showZ (dateNow w))) in
             let newSession :=
               {| sid := sessionId;
                  session_type := new_session_type d;
                  subject_area := new_subject_area d;
                  topic := new_topic d;
                  status := "active";
                  content := None;
                  duration_estimate := None;
                  questions_attempted := Some 0;
                  questions_correct := Some 0;
                  accuracy_rate := Some (ofZ 0);
                  duration_minutes := Some 0;
                  started_at := Some (isoNow w);
                  difficulty_level := half;
                  created_at := isoNow w |} in
             run! set (setCurrentQuestions questions) in
             run! (if 0 <? len questions
                   then run! set (setCurrentQuestion (index questions 0)) in
                        set (setQuestionStartTime (Some (dateNow w)))
                   else ret tt) in
             run! set (setSuccessMessage ("AI-powered quiz created for " ++ new_topic d ++ "!")) in
             ret newSession) in
        run! set (updSessions (fun prev => newSession :: prev)) in
        run! set (setActiveSession (Some newSession)) in
        run! set (setCreateDialogOpen false) in
        set (setNewSessionData (mkNewSessionData "" "" "practice")))
       (fun err =>
          run! set (consoleLog ("Error creating session: " ++ err)) in
          set (setError "Failed to create AI-powered learning session")))
    (set (setLoading false)).

(** [(x || 0)] on an optional counter *)
Definition counter (x : option Z) : Z := orZ x 0.

Definition accuracyOf (c a : Z) : number := mul (div (ofZ c) (ofZ a)) (ofZ 100).

(** [activeQuizAttempt && activeQuizAttempt.id] *)
Definition hasAttemptId (a : option QuizAttempt) : bool :=
  match a with
  | Some q => match attempt_id q with
              | Some i => negb (falsyString i)
              | None => false
              end
  | None => false
  end.

(** [activeSession.id && parseInt(activeSession.id)] *)
Definition hasNumericId (w : World) (act : LearningSessionData) : bool :=
  negb (falsyString (sid act)) &&
  match parseInt w (sid act) with
  | Some n => negb (n =? 0)
  | None => false
  end.

Definition handleAnswerSubmit (w : World) : M unit :=
  let! r := snapshot in
  match currentQuestion r, activeSession r with
  | Some cq, Some act =>
      if falsyString (selectedAnswer r) then ret tt else
      let isCorrect := strictEq (selectedAnswer r) (correct_answer cq) in
      run! set (setIsCorrect isCorrect) in
      run! set (setShowResults true) in
      run! set (setExplanation (explanation cq)) in
      let updatedSession :=
        {| sid := sid act;
           session_type := session_type act;
           subject_area := subject_area act;
           topic := topic act;
           status := status act;
           content := content act;
           duration_estimate := duration_estimate act;
           questions_attempted := Some (counter (questions_attempted act) + 1);
           questions_correct :=
             Some (counter (questions_correct act) + (if isCorrect then 1 else 0));
           accuracy_rate :=
             Some (accuracyOf (counter (questions_correct act) + (if isCorrect then 1 else 0))
                              (counter (questions_attempted act) + 1));
           duration_minutes := duration_minutes act;
           started_at := started_at act;
           difficulty_level := difficulty_level act;
           created_at := created_at act |} in
      run! set (setActiveSession (Some updatedSession)) in
      run! set (updSessions (map (fun session =>
                  if strictEq (sid session) (sid act) then updatedSession else session))) in
      tryCatch
        (run! (if hasAttemptId (activeQuizAttempt r) then
                 tryCatch (await (submitQuiz w))
                   (fun quizError =>
                      set (consoleLog ("Quiz submission failed, continuing: " ++ quizError)))
               else ret tt) in
         if hasNumericId w act then
           tryCatch (await (logInteraction w))
             (fun interactionError =>
                set (consoleLog ("Interaction logging failed, continuing: " ++ interactionError)))
         else ret tt)
        (fun error => set (consoleLog ("Error in answer submission: " ++ error)))
  | _, _ => ret tt
  end.

Definition handleNextQuestion (w : World) : M unit :=
  let! r := snapshot in
  match activeSession r with
  | None => ret tt
  | Some _ =>
      if len (currentQuestions r) =? 0 then ret tt else
      let currentIndex :=
        findIndex (fun q => match currentQuestion r with
                            | Some cq => strictEq (qid q) (qid cq)
                            | None => false
                            end) (currentQuestions r) in
      if currentIndex <? len (currentQuestions r) - 1 then
        run! set (setCurrentQuestion (index (currentQuestions r) (currentIndex + 1))) in
        run! set (setSelectedAnswer "") in
        run! set (setShowResults false) in
        run! set (setExplanation "") in
        set (setQuestionStartTime (Some (dateNow w)))
      else
        run! (if hasAttemptId (activeQuizAttempt r) then
                tryCatch (await (submitQuiz w))
                  (fun error =>
                     set (consoleLog ("Error completing quiz attempt: " ++ error)))
              else ret tt) in
        run! set (setCurrentQuestion None) in
        run! set (setActiveSession None) in
        run! set (setCurrentQuestions []) in
        run! set (setActiveQuizAttempt None) in
        set (setSuccessMessage "Session completed! Great job!")
  end.

Definition withStatus (st : string) (a : LearningSessionData) : LearningSessionData :=
  {| sid := sid a;
     session_type := session_type a;
     subject_area := subject_area a;
     topic := topic a;
     status := st;
     content := content a;
     duration_estimate := duration_estimate a;
     questions_attempted := questions_attempted a;
     questions_correct := questions_correct a;
     accuracy_rate := accuracy_rate a;
     duration_minutes := duration_minutes a;
     started_at := started_at a;
     difficulty_level := difficulty_level a;
     created_at := created_at a |}.

Definition pauseSession : M unit :=
  let! r := snapshot in
  match activeSession r with
  | None => ret tt
  | Some act =>
      tryCatch
        (let updatedSession := withStatus "paused" act in
         run! set (updSessions (map (fun s => if strictEq (sid s) (sid updatedSession)
                                              then updatedSession else s))) in
         run! set (setActiveSession None) in
         run! set (setCurrentQuestion None) in
         run! set (setActiveQuizAttempt None) in
         set (setSuccessMessage "Session paused successfully!"))
        (fun err => set (setError "Failed to pause session"))
  end.

(** While [loading && sessions.length === 0] the component returns a
    spinner.  Otherwise the view renders the answer form of a quiz (radio
    group, Submit, Pause) when [activeSession] is set, its type is not
    ['lesson'] and [!showResults]; Submit is disabled while
    [!selectedAnswer].  The result card with Next Question / Complete
    Session takes its place when [showResults].  (For a session of type
    ['quiz'] with questions the component also lays the [QuizDisplay]
    overlay, a component with a state of its own, over this view; it is not
    modelled.) *)
Definition spinner (s : State) : bool :=
  loading s && (len (sessions s) =? 0).

Definition quizView (s : State) : bool :=
  negb (spinner s) &&
  match activeSession s with
  | Some act => negb (strictEq (session_type act) "lesson")
  | None => false
  end.

Definition submitEnabled (s : State) : bool :=
  quizView s && negb (showResults s) && negb (falsyString (selectedAnswer s)).

Definition nextEnabled (s : State) : bool :=
  quizView s && showResults s.

(** A click on Submit Answer / on Next Question or Complete Session. *)
Definition clickSubmit (w : World) (s : State) : State :=
  if submitEnabled s then after (handleAnswerSubmit w) s else s.

Definition clickNext (w : World) (s : State) : State :=
  if nextEnabled s then after (handleNextQuestion w) s else s.

End LearningSessionSimple.

(** ** A JavaScript object used as a map from strings to strings *)

Module JSObject.

(** The own properties of an object built by [{...prev, [k]: v}] from [{}].
    Of their order nothing is read. *)
Definition t : Type := list (string * string).

(** The members every such object inherits from [Object.prototype]. *)
Definition prototypeMembers : list string :=
  [ "constructor"; "__defineGetter__"; "__defineSetter__"; "hasOwnProperty";
    "__lookupGetter__"; "__lookupSetter__"; "isPrototypeOf"; "propertyIsEnumerable";
    "toString"; "valueOf"; "__proto__"; "toLocaleString" ].

Definition inherited (k : string) : bool := existsb (String.eqb k) prototypeMembers.

(** What [o[k]] evaluates to. *)
Inductive Value : Type :=
| Own (v : string)      (* the value of an own property *)
| Inherited             (* a member of [Object.prototype]: a function or an object *)
| Undefined.

Fixpoint own (k : string) (o : t) : option string :=
  match o with
  | [] => None
  | (k', v) :: o' => if String.eqb k' k then Some v else own k o'
  end.

(** [o[k]] *)
Definition get (o : t) (k : string) : Value :=
  match own k o with
  | Some v => Own v
  | None => if inherited k then Inherited else Undefined
  end.

(** [{...o, [k]: v}] *)
Fixpoint put (k v : string) (o : t) : t :=
  match o with
  | [] => [ (k, v) ]
  | (k', v') :: o' => if String.eqb k' k then (k', v) :: o' else (k', v') :: put k v o'
  end.

(** [Object.keys(o)] *)
Definition keys (o : t) : list string := map fst o.

(** [!!x]: a string is truthy unless empty, a function or an object always. *)
Definition truthy (x : Value) : bool :=
  match x with
  | Own v => negb (falsyString v)
  | Inherited => true
  | Undefined => false
  end.

End JSObject.

(** ** [QuizDisplay.tsx]

    The component keeps the position in the quiz, the answers chosen so far
    (an object keyed by question id) and the seconds elapsed.  It reports to
    its parent through the callbacks [onComplete] and [onClose]. *)

Module QuizDisplay.

(** [correct_answer: string | number] *)
Inductive Answer : Type :=
| AnswerString (v : string)
| AnswerNumber (n : number).

Record Question : Type := mkQuestion {
  id : string;
  question : string;
  options : list string;
  correct_answer : Answer;
  explanation : string;
  difficulty : option number
}.

(** The argument of [onComplete]. *)
Record Results : Type := mkResults {
  totalQuestions : Z;
  correctAnswers : Z;
  accuracy : number;
  timeSpent : Z
}.

(** What the JavaScript runtime contributes: [n.toString()] for a number,
    and [Math.round(t / 60)] for a count of seconds [t]. *)
Record Runtime : Type := mkRuntime {
  numberToString : number -> string;
  roundedMinutes : Z -> Z
}.

(** The [useState] cells; [seconds] is the cell [timeSpent]. *)
Record State : Type := mkState {
  currentQuestionIndex : Z;
  selectedAnswers : JSObject.t;
  seconds : Z
}.

Definition initialState : State :=
  {| currentQuestionIndex := 0; selectedAnswers := []; seconds := 0 |}.

(** A call of one of the two callbacks. *)
Inductive Output : Type :=
| OnComplete (results : Results)
| OnClose.

(** [questions[currentQuestionIndex]] *)
Definition currentQuestion (questions : list Question) (s : State) : option Question :=
  index questions (currentQuestionIndex s).

(** The callback of [setInterval]. *)
Definition tick (s : State) : State :=
  {| currentQuestionIndex := currentQuestionIndex s;
     selectedAnswers := selectedAnswers s;
     seconds := seconds s + 1 |}.

(** Reading [currentQuestion.id] throws when no question is on display. *)
Definition handleAnswerSelect (questions : list Question) (answer : string) (s : State)
  : result State :=
  match currentQuestion questions s with
  | Some cq =>
      Ok {| currentQuestionIndex := currentQuestionIndex s;
            selectedAnswers := JSObject.put (id cq) answer (selectedAnswers s);
            seconds := seconds s |}
  | None => Throw "TypeError: Cannot read properties of undefined (reading 'id')"
  end.

(** [q.correct_answer.toString()] *)
Definition toString (rt : Runtime) (a : Answer) : string :=
  match a with
  | AnswerString v => v
  | AnswerNumber n => numberToString rt n
  end.

(** [selectedAnswers[q.id] === q.correct_answer.toString()] *)
Definition answeredCorrectly (rt : Runtime) (answers : JSObject.t) (q : Question) : bool :=
  match JSObject.get answers (id q) with
  | JSObject.Own v => strictEq v (toString rt (correct_answer q))
  | JSObject.Inherited | JSObject.Undefined => false
  end.

(** The object passed to [onComplete]. *)
Definition resultsOf (rt : Runtime) (questions : list Question) (s : State) : Results :=
  let correctAnswers := len (filter (answeredCorrectly rt (selectedAnswers s)) questions) in
  {| totalQuestions := len questions;
     correctAnswers := correctAnswers;
     accuracy := mul (div (ofZ correctAnswers) (ofZ (len questions))) (ofZ 100);
     timeSpent := roundedMinutes rt (seconds s) |}.

Definition handleNextQuestion (rt : Runtime) (questions : list Question) (s : State)
  : State * list Output :=
  if currentQuestionIndex s <? len questions - 1 then
    ({| currentQuestionIndex := currentQuestionIndex s + 1;
        selectedAnswers := selectedAnswers s;
        seconds := seconds s |}, [])
  else
    (s, [ OnComplete (resultsOf rt questions s) ]).

Definition handlePreviousQuestion (s : State) : State :=
  if 0 <? currentQuestionIndex s then
    {| currentQuestionIndex := currentQuestionIndex s - 1;
       selectedAnswers := selectedAnswers s;
       seconds := seconds s |}
  else s.

(** [!difficulty] for [difficulty?: number] *)
Definition noDifficulty (difficulty : option number) : bool :=
  match difficulty with
  | Some d => falsyNumber d
  | None => true
  end.

(** [difficulty < x] for a literal [x = n / 10] *)
Definition below (difficulty : option number) (tenths : Z) : bool :=
  match difficulty with
  | Some d => SFltb d (div (ofZ tenths) (ofZ 10))
  | None => false
  end.

Definition getDifficultyColor (difficulty : option number) : string :=
  if noDifficulty difficulty then "default"
  else if below difficulty 3 then "success"
  else if below difficulty 7 then "warning"
  else "error".

Definition getDifficultyLabel (difficulty : option number) : string :=
  if noDifficulty difficulty then "Medium"
  else if below difficulty 3 then "Easy"
  else if below difficulty 7 then "Medium"
  else "Hard".

(** *** The view

    Without a question on display the component renders "Loading quiz..."
    and no control.  Otherwise it renders one radio per option of the
    question, Previous ([disabled] at index 0), Next Question / Complete
    Quiz ([disabled] while [!selectedAnswers[currentQuestion.id]]) and the
    close button.  The timer runs in either case.  The model admits a change
    event for every radio, also for one that is checked already. *)

Inductive Event : Type :=
| ChangeAnswer (k : nat)     (* the radio of option [k] *)
| ClickPrevious
| ClickNext
| ClickClose
| Tick.

Definition enabled (questions : list Question) (ev : Event) (s : State) : bool :=
  match ev with
  | Tick => true
  | _ =>
      match currentQuestion questions s with
      | None => false
      | Some cq =>
          match ev with
          | ChangeAnswer k =>
              match nth_error (options cq) k with Some _ => true | None => false end
          | ClickPrevious => negb (currentQuestionIndex s =? 0)
          | ClickNext => JSObject.truthy (JSObject.get (selectedAnswers s) (id cq))
          | ClickClose | Tick => true
          end
      end
  end.

(** The handler bound to the control; an exception leaves the state as it
    is. *)
Definition handler (rt : Runtime) (questions : list Question) (ev : Event) (s : State)
  : State * list Output :=
  match ev with
  | ChangeAnswer k =>
      match currentQuestion questions s with
      | Some cq =>
          match nth_error (options cq) k with
          | Some option =>
              match handleAnswerSelect questions option s with
              | Ok s' => (s', [])
              | Throw _ => (s, [])
              end
          | None => (s, [])
          end
      | None => (s, [])
      end
  | ClickPrevious => (handlePreviousQuestion s, [])
  | ClickNext => handleNextQuestion rt questions s
  | ClickClose => (s, [ OnClose ])
  | Tick => (tick s, [])
  end.

(** One event: ignored unless its control is there. *)
Definition dispatch (rt : Runtime) (questions : list Question) (ev : Event) (s : State)
  : State * list Output :=
  if enabled questions ev s then handler rt questions ev s else (s, []).

(** A sequence of events, with the callbacks called on the way. *)
Fixpoint run (rt : Runtime) (questions : list Question) (trace : list Event) (s : State)
  : State * list Output :=
  match trace with
  | [] => (s, [])
  | ev :: trace' =>
      let (s1, out1) := dispatch rt questions ev s in
      let (s2, out2) := run rt questions trace' s1 in
      (s2, (out1 ++ out2)%list)
  end.

End QuizDisplay.

(** ** [LearningSessionSimple.tsx], second component: the quiz overlays

    The component lays [QuizDisplay] over its view while a session of type
    ['quiz'] with questions runs, and [QuizResults] once [QuizDisplay] has
    reported a result. *)

Module QuizOverlay.

Import LearningSessionSimple.

(** The cells of the component together with [showQuizResults] and
    [quizResults]. *)
Record State : Type := mkState {
  component : LearningSessionSimple.State;
  showQuizResults : bool;
  quizResults : option QuizDisplay.Results
}.

Definition updComponent (f : LearningSessionSimple.State -> LearningSessionSimple.State)
           (s : State) : State :=
  mkState (f (component s)) (showQuizResults s) (quizResults s).
Definition setShowQuizResults (v : bool) (s : State) : State :=
  mkState (component s) v (quizResults s).
Definition setQuizResults (v : option QuizDisplay.Results) (s : State) : State :=
  mkState (component s) (showQuizResults s) v.

Definition handleQuizComplete (results : QuizDisplay.Results) (s : State) : State :=
  updComponent (setActiveQuizAttempt None)
    (updComponent (setCurrentQuestion None)
       (updComponent (setCurrentQuestions [])
          (updComponent (setActiveSession None)
             (setShowQuizResults true
                (setQuizResults (Some results) s))))).

(** [setActiveSession(activeQuizAttempt)] puts the attempt object in the
    cell of the session; [asSession] is that object read as a session. *)
Definition handleQuizRetake (asSession : QuizAttempt -> LearningSessionData) (s : State) : State :=
  let s1 := setQuizResults None (setShowQuizResults false s) in
  match activeQuizAttempt (component s) with
  | Some attempt =>
      updComponent (setActiveSession (Some (asSession attempt)))
        (updComponent (setCurrentQuestion (index (attempt_questions attempt) 0))
           (updComponent (setCurrentQuestions (attempt_questions attempt)) s1))
  | None => s1
  end.

Definition handleQuizClose (s : State) : State :=
  updComponent (setActiveQuizAttempt None)
    (updComponent (setCurrentQuestion None)
       (updComponent (setCurrentQuestions [])
          (updComponent (setActiveSession None)
             (setQuizResults None
                (setShowQuizResults false s))))).

(** [activeSession && activeSession.session_type === 'quiz' &&
    currentQuestions.length > 0]: the [QuizDisplay] overlay is rendered. *)
Definition quizDisplayed (s : State) : bool :=
  match activeSession (component s) with
  | Some act => strictEq (session_type act) "quiz" && (0 <? len (currentQuestions (component s)))
  | None => false
  end.

(** [showQuizResults && quizResults]: the [QuizResults] overlay is
    rendered. *)
Definition resultsDisplayed (s : State) : bool :=
  showQuizResults s &&
  match quizResults s with Some _ => true | None => false end.

(** The [questions] passed to [QuizDisplay]. *)
Definition quizQuestion (q : Question) : QuizDisplay.Question :=
  {| QuizDisplay.id := qid q;
     QuizDisplay.question := question q;
     QuizDisplay.options := options q;
     QuizDisplay.correct_answer := QuizDisplay.AnswerString (correct_answer q);
     QuizDisplay.explanation := explanation q;
     QuizDisplay.difficulty := Some (difficulty q) |}.

Definition quizQuestions (s : State) : list QuizDisplay.Question :=
  map quizQuestion (currentQuestions (component s)).

(** [activeQuizAttempt?.id || 'quiz_1'] *)
Definition quizId (s : State) : string :=
  match activeQuizAttempt (component s) with
  | Some attempt => orString (attempt_id attempt) "quiz_1"
  | None => "quiz_1"
  end.

(** The callbacks [onComplete={handleQuizComplete}] and
    [onClose={handleQuizClose}]. *)
Definition callback (out : QuizDisplay.Output) (s : State) : State :=
  match out with
  | QuizDisplay.OnComplete results => handleQuizComplete results s
  | QuizDisplay.OnClose => handleQuizClose s
  end.

(** The user works on the overlay until it calls back; with the session
    cleared by the callback the overlay is gone. *)
Definition quiz (rt : QuizDisplay.Runtime) (trace : list QuizDisplay.Event) (s : State) : State :=
  if quizDisplayed s then
    match snd (QuizDisplay.run rt (quizQuestions s) trace QuizDisplay.initialState) with
    | out :: _ => callback out s
    | [] => s
    end
  else s.

End QuizOverlay.

(** ** [api.ts]: the axios instance and its two interceptors *)

Module Api.

(** What the module reads and writes in the browser: the entry ['token'] of
    [localStorage] and [window.location.href]. *)
Record Browser : Type := mkBrowser {
  storedToken : option string;
  location : string
}.

(** [localStorage.setItem('token', v)] stores the string made of [v];
    [undefined] becomes ["undefined"]. *)
Definition setItem (v : option string) (b : Browser) : Browser :=
  {| storedToken := Some (match v with Some t => t | None => "undefined" end);
     location := location b |}.

(** [localStorage.removeItem('token')] *)
Definition removeItem (b : Browser) : Browser :=
  {| storedToken := None; location := location b |}.

(** What a request is rejected with, and any other exception: the status of
    the response, if there is a response ([error.response?.status]), its
    [data.detail], and [message]. *)
Record Error : Type := mkError {
  status : option Z;
  detail : option string;
  message : option string
}.

(** Outcome of a promise. *)
Inductive Response (A : Type) : Type :=
| Fulfilled (data : A)
| Rejected (error : Error).
Arguments Fulfilled {A} data.
Arguments Rejected {A} error.

(** The request interceptor: the [Authorization] header it sets, if any. *)
Definition authorization (b : Browser) : option string :=
  match storedToken b with
  | Some token => if falsyString token then None else Some ("Bearer " ++ token)
  | None => None
  end.

(** The response interceptor on a rejection; the rejection is passed on. *)
Definition onRejected (error : Error) (b : Browser) : Browser :=
  match status error with
  | Some code =>
      if code =? 401 then {| storedToken := None; location := "/login" |} else b
  | None => b
  end.

(** One request through the instance.  [server] is the answer to the request
    as a function of the [Authorization] header it arrives with. *)
Definition request {A : Type} (server : option string -> Response A) (b : Browser)
  : Response A * Browser :=
  match server (authorization b) with
  | Fulfilled data => (Fulfilled data, b)
  | Rejected error => (Rejected error, onRejected error b)
  end.

End Api.

(** ** [LearningSession.tsx] behind the axios instance

    [learningAPI.createSession] and [learningAPI.logInteraction] are requests
    through the instance of [api.ts]: the request interceptor adds the token
    of [localStorage], and a rejection passes the response interceptor before
    the [catch] clause of the handler receives it.  Here the back end answers
    a request as a function of its [Authorization] header, and the browser is
    threaded through the handler beside the cells of the component.  The quiz
    comes from [aiQuizGenerator], which sends no request. *)

Module Page.

Module LS := LearningSession.
Module AI := AIQuizGenerator.

Record Backend : Type := mkBackend {
  runtime : AI.Runtime;
  createSessionEndpoint : LS.CreateSessionRequest -> option string -> Api.Response unit;
  logInteractionEndpoint : Z -> LS.Interaction -> option string -> Api.Response unit;
  dateNow : Z;
  isoNow : string
}.

(** The cells of the component and the browser it runs in. *)
Record State : Type := mkState {
  component : LS.State;
  browser : Api.Browser
}.

Definition M (A : Type) : Type := State -> result A * State.

Definition ret {A : Type} (a : A) : M A := fun p => (Ok a, p).

Definition bind {A B : Type} (m : M A) (k : A -> M B) : M B :=
  fun p => match m p with
           | (Ok a, p') => k a p'
           | (Throw e, p') => (Throw e, p')
           end.

Definition tryCatch {A : Type} (m : M A) (h : string -> M A) : M A :=
  fun p => match m p with
           | (Ok a, p') => (Ok a, p')
           | (Throw e, p') => h e p'
           end.

Definition tryFinally {A : Type} (m : M A) (f : M unit) : M A :=
  fun p => match m p with
           | (r, p') => match f p' with
                        | (Ok _, p'') => (r, p'')
                        | (Throw e, p'') => (Throw e, p'')
                        end
           end.

(** A step of the handler on the cells of the component. *)
Definition cell {A : Type} (m : LS.M A) : M A :=
  fun p => match m (component p) with
           | (r, s) => (r, mkState s (browser p))
           end.

(** The text of an error, as the console shows it. *)
Definition textOf (e : Api.Error) : string :=
  match Api.message e with
  | Some m => m
  | None => ""
  end.

(** The outcome of a request as the awaiting handler sees it. *)
Definition seen {A : Type} (r : Api.Response A) : result A :=
  match r with
  | Api.Fulfilled data => Ok data
  | Api.Rejected e => Throw (textOf e)
  end.

(** [await learningAPI.…]: a request through the instance of [api.ts]. *)
Definition call {A : Type} (server : option string -> Api.Response A) : M A :=
  fun p => match Api.request server (browser p) with
           | (r, b) => (seen r, mkState (component p) b)
           end.

Declare Scope page_scope.
Delimit Scope page_scope with page.
Notation "'let!' x ':=' m 'in' k" := (bind m (fun x => k))
  (at level 10, x name, m at level 100, k at level 200) : page_scope.
Notation "'run!' m 'in' k" := (bind m (fun _ => k))
  (at level 10, m at level 100, k at level 200) : page_scope.
Local Open Scope page_scope.

Definition after {A : Type} (m : M A) (p : State) : State := snd (m p).

Definition createNewSession (be : Backend) : M unit :=
  let! r := cell LS.snapshot in
  tryFinally
    (tryCatch
       (run! cell (LS.set (LS.setLoading true)) in
        let quizRequest := LS.quizRequestFor (LS.new_subject_area (LS.newSessionData r))
                                             (LS.new_topic (LS.newSessionData r)) in
        let! aiQuestions := cell (LS.await (AI.generateQuiz (runtime be) quizRequest)) in
        let questions := map LS.convertQuestion aiQuestions in
        run! call (createSessionEndpoint be
                     (LS.mkCreateSessionRequest 1 (LS.new_session_type (LS.newSessionData r)))) in
        let newSession :=
          {| LS.sid := dateNow be;
             LS.session_type := LS.new_session_type (LS.newSessionData r);
             LS.subject_area := LS.new_subject_area (LS.newSessionData r);
             LS.topic := LS.new_topic (LS.newSessionData r);
             LS.status := "active";
             LS.questions_attempted := 0;
             LS.questions_correct := 0;
             LS.accuracy_rate := ofZ 0;
             LS.duration_minutes := 0;
             LS.started_at := isoNow be |} in
        run! cell (LS.set (LS.updSessions (fun prev => newSession :: prev))) in
        run! cell (LS.set (LS.setActiveSession (Some newSession))) in
        run! cell (LS.set (LS.setCurrentQuestions questions)) in
        run! (if 0 <? len questions
              then cell (LS.set (LS.setCurrentQuestion (index questions 0)))
              else ret tt) in
        run! cell (LS.set (LS.setCreateDialogOpen false)) in
        run! cell (LS.set (LS.updNewSessionData (fun _ => LS.mkNewSessionData "" "" "practice"))) in
        cell (LS.set (LS.setSuccessMessage
                        ("AI-powered quiz created for " ++ LS.new_topic (LS.newSessionData r) ++ "!"))))
       (fun err => cell (LS.set (LS.setError "Failed to create AI-powered learning session"))))
    (cell (LS.set (LS.setLoading false))).

Definition handleAnswerSubmit (be : Backend) : M unit :=
  let! r := cell LS.snapshot in
  match LS.currentQuestion r, LS.activeSession r with
  | Some cq, Some act =>
      if falsyString (LS.selectedAnswer r) then ret tt else
      let isCorrect := strictEq (LS.selectedAnswer r) (LS.correct_answer cq) in
      run! cell (LS.set (LS.setIsCorrect isCorrect)) in
      run! cell (LS.set (LS.setShowResults true)) in
      run! cell (LS.set (LS.setExplanation (LS.explanation cq))) in
      let updatedSession :=
        {| LS.sid := LS.sid act;
           LS.session_type := LS.session_type act;
           LS.subject_area := LS.subject_area act;
           LS.topic := LS.topic act;
           LS.status := LS.status act;
           LS.questions_attempted := LS.questions_attempted act + 1;
           LS.questions_correct := LS.questions_correct act + (if isCorrect then 1 else 0);
           LS.accuracy_rate :=
             LS.accuracyOf (LS.questions_correct act + (if isCorrect then 1 else 0))
                           (LS.questions_attempted act + 1);
           LS.duration_minutes := LS.duration_minutes act;
           LS.started_at := LS.started_at act |} in
      run! cell (LS.set (LS.setActiveSession (Some updatedSession))) in
      run! cell (LS.set (LS.updSessions (map (fun session =>
                  if LS.sid session =? LS.sid act then updatedSession else session)))) in
      tryCatch
        (call (logInteractionEndpoint be (LS.sid act)
                 (LS.mkInteraction (LS.qid cq) (LS.selectedAnswer r) isCorrect 30)))
        (fun error => cell (LS.set (LS.consoleLog ("Error logging interaction: " ++ error))))
  | _, _ => ret tt
  end.

(** The calls as a handler of the component sees them when it starts in the
    browser [b]. *)
Definition worldAt (be : Backend) (b : Api.Browser) : LS.World :=
  {| LS.generateQuiz := AI.generateQuiz (runtime be);
     LS.createSession := fun request =>
       seen (createSessionEndpoint be request (Api.authorization b));
     LS.logInteraction := fun sessionId interaction =>
       seen (logInteractionEndpoint be sessionId interaction (Api.authorization b));
     LS.dateNow := dateNow be;
     LS.isoNow := isoNow be |}.

(** A click on Submit Answer. *)
Definition clickSubmit (be : Backend) (p : State) : State :=
  if LS.enabled LS.ClickSubmit (component p) then after (handleAnswerSubmit be) p else p.

End Page.

(** ** The second component behind the axios instance

    The five calls of [createNewSession] and [handleAnswerSubmit] in
    [LearningSessionSimple.tsx] ([lessonAPI.generateLesson],
    [quizAPI.generateQuiz], [learningAPI.createSession], [quizAPI.submitQuiz]
    and [learningAPI.logInteraction]) are requests through the instance of
    [api.ts].  As in [LearningSessionSimple.World], the arguments of a call
    are not kept; the back end answers as a function of the [Authorization]
    header. *)

Module SimplePage.

Module LSS := LearningSessionSimple.

Record Backend : Type := mkBackend {
  generateLessonEndpoint : option string -> Api.Response LSS.LessonData;
  generateQuizEndpoint : option string -> Api.Response LSS.QuizData;
  createSessionEndpoint : option string -> Api.Response (option string);
  submitQuizEndpoint : option string -> Api.Response unit;
  logInteractionEndpoint : option string -> Api.Response unit;
  parseInt : string -> option Z;
  dateNow : Z;
  isoNow : string
}.

(** The cells of the component and the browser it runs in. *)
Record State : Type := mkState {
  component : LSS.State;
  browser : Api.Browser
}.

Definition M (A : Type) : Type := State -> result A * State.

Definition ret {A : Type} (a : A) : M A := fun p => (Ok a, p).

Definition bind {A B : Type} (m : M A) (k : A -> M B) : M B :=
  fun p => match m p with
           | (Ok a, p') => k a p'
           | (Throw e, p') => (Throw e, p')
           end.

Definition tryCatch {A : Type} (m : M A) (h : string -> M A) : M A :=
  fun p => match m p with
           | (Ok a, p') => (Ok a, p')
           | (Throw e, p') => h e p'
           end.

Definition tryFinally {A : Type} (m : M A) (f : M unit) : M A :=
  fun p => match m p with
           | (r, p') => match f p' with
                        | (Ok _, p'') => (r, p'')
                        | (Throw e, p'') => (Throw e, p'')
                        end
           end.

Definition throw {A : Type} (e : string) : M A := fun p => (Throw e, p).

(** A step of the handler on the cells of the component. *)
Definition cell {A : Type} (m : LSS.M A) : M A :=
  fun p => match m (component p) with
           | (r, s) => (r, mkState s (browser p))
           end.

(** [await …API.…]: a request through the instance of [api.ts]. *)
Definition call {A : Type} (server : option string -> Api.Response A) : M A :=
  fun p => match Api.request server (browser p) with
           | (r, b) => (Page.seen r, mkState (component p) b)
           end.

Declare Scope simple_page_scope.
Delimit Scope simple_page_scope with simple_page.
Notation "'let!' x ':=' m 'in' k" := (bind m (fun x => k))
  (at level 10, x name, m at level 100, k at level 200) : simple_page_scope.
Notation "'run!' m 'in' k" := (bind m (fun _ => k))
  (at level 10, m at level 100, k at level 200) : simple_page_scope.
Local Open Scope simple_page_scope.

Definition after {A : Type} (m : M A) (p : State) : State := snd (m p).

Definition createNewSession (be : Backend) : M unit :=
  let! r := cell LSS.snapshot in
  let d := LSS.newSessionData r in
  tryFinally
    (tryCatch
       (run! cell (LSS.set (LSS.setLoading true)) in
        let! newSession :=
          (if strictEq (LSS.new_session_type d) "lesson" then
             let! lessonData := call (generateLessonEndpoint be) in
             let newSession :=
               {| LSS.sid := orString (match LSS.lesson lessonData with
                                       | Some l => LSS.lesson_id l
                                       | None => None
                                       end) (LSS.showZ (dateNow be));
                  LSS.session_type := "lesson";
                  LSS.subject_area := LSS.new_subject_area d;
                  LSS.topic := LSS.new_topic d;
                  LSS.status := "active";
                  LSS.content := Some (LSS.lessonContentOf d lessonData);
                  LSS.duration_estimate :=
                    Some (orZ (match LSS.lesson lessonData with
                               | Some l => LSS.lesson_estimated_duration l
                               | None => None
                               end) 20);
                  LSS.questions_attempted := Some 0;
                  LSS.questions_correct := Some 0;
                  LSS.accuracy_rate := Some (ofZ 0);
                  LSS.duration_minutes := Some 0;
                  LSS.started_at := Some (isoNow be);
                  LSS.difficulty_level := half;
                  LSS.created_at := isoNow be |} in
             run! cell (LSS.set (LSS.setSuccessMessage
                                   ("AI-powered lesson created for " ++ LSS.new_topic d ++ "!"))) in
             ret newSession
           else
             let! quizData := call (generateQuizEndpoint be) in
             let questionsData := LSS.questionsDataOf quizData in
             if len questionsData =? 0 then throw "No questions generated" else
             let questions := LSS.convertQuestions questionsData in
             let! sessionId :=
               tryCatch
                 (let! responseId := call (createSessionEndpoint be) in
                  ret (orString responseId (LSS.showZ (dateNow be))))
                 (fun sessionError =>
                    run! cell (LSS.set (LSS.consoleLog
                                 ("Learning session creation failed, continuing with quiz: "
                                  ++ sessionError))) in
                    ret (LSS.showZ (dateNow be))) in
             let newSession :=
               {| LSS.sid := sessionId;
                  LSS.session_type := LSS.new_session_type d;
                  LSS.subject_area := LSS.new_subject_area d;
                  LSS.topic := LSS.new_topic d;
                  LSS.status := "active";
                  LSS.content := None;
                  LSS.duration_estimate := None;
                  LSS.questions_attempted := Some 0;
                  LSS.questions_correct := Some 0;
                  LSS.accuracy_rate := Some (ofZ 0);
                  LSS.duration_minutes := Some 0;
                  LSS.started_at := Some (isoNow be);
                  LSS.difficulty_level := half;
                  LSS.created_at := isoNow be |} in
             run! cell (LSS.set (LSS.setCurrentQuestions questions)) in
             run! (if 0 <? len questions
                   then run! cell (LSS.set (LSS.setCurrentQuestion (index questions 0))) in
                        cell (LSS.set (LSS.setQuestionStartTime (Some (dateNow be))))
                   else ret tt) in
             run! cell (LSS.set (LSS.setSuccessMessage
                                   ("AI-powered quiz created for " ++ LSS.new_topic d ++ "!"))) in
             ret newSession) in
        run! cell (LSS.set (LSS.updSessions (fun prev => newSession :: prev))) in
        run! cell (LSS.set (LSS.setActiveSession (Some newSession))) in
        run! cell (LSS.set (LSS.setCreateDialogOpen false)) in
        cell (LSS.set (LSS.setNewSessionData (LSS.mkNewSessionData "" "" "practice"))))
       (fun err =>
          run! cell (LSS.set (LSS.consoleLog ("Error creating session: " ++ err))) in
          cell (LSS.set (LSS.setError "Failed to create AI-powered learning session"))))
    (cell (LSS.set (LSS.setLoading false))).

(** [activeSession.id && parseInt(activeSession.id)] *)
Definition hasNumericId (be : Backend) (act : LSS.LearningSessionData) : bool :=
  negb (falsyString (LSS.sid act)) &&
  match parseInt be (LSS.sid act) with
  | Some n => negb (n =? 0)
  | None => false
  end.

Definition handleAnswerSubmit (be : Backend) : M unit :=
  let! r := cell LSS.snapshot in
  match LSS.currentQuestion r, LSS.activeSession r with
  | Some cq, Some act =>
      if falsyString (LSS.selectedAnswer r) then ret tt else
      let isCorrect := strictEq (LSS.selectedAnswer r) (LSS.correct_answer cq) in
      run! cell (LSS.set (LSS.setIsCorrect isCorrect)) in
      run! cell (LSS.set (LSS.setShowResults true)) in
      run! cell (LSS.set (LSS.setExplanation (LSS.explanation cq))) in
      let updatedSession :=
        {| LSS.sid := LSS.sid act;
           LSS.session_type := LSS.session_type act;
           LSS.subject_area := LSS.subject_area act;
           LSS.topic := LSS.topic act;
           LSS.status := LSS.status act;
           LSS.content := LSS.content act;
           LSS.duration_estimate := LSS.duration_estimate act;
           LSS.questions_attempted := Some (LSS.counter (LSS.questions_attempted act) + 1);
           LSS.questions_correct :=
             Some (LSS.counter (LSS.questions_correct act) + (if isCorrect then 1 else 0));
           LSS.accuracy_rate :=
             Some (LSS.accuracyOf
                     (LSS.counter (LSS.questions_correct act) + (if isCorrect then 1 else 0))
                     (LSS.counter (LSS.questions_attempted act) + 1));
           LSS.duration_minutes := LSS.duration_minutes act;
           LSS.started_at := LSS.started_at act;
           LSS.difficulty_level := LSS.difficulty_level act;
           LSS.created_at := LSS.created_at act |} in
      run! cell (LSS.set (LSS.setActiveSession (Some updatedSession))) in
      run! cell (LSS.set (LSS.updSessions (map (fun session =>
                  if strictEq (LSS.sid session) (LSS.sid act) then updatedSession else session)))) in
      tryCatch
        (run! (if LSS.hasAttemptId (LSS.activeQuizAttempt r) then
                 tryCatch (call (submitQuizEndpoint be))
                   (fun quizError =>
                      cell (LSS.set (LSS.consoleLog
                                       ("Quiz submission failed, continuing: " ++ quizError))))
               else ret tt) in
         if hasNumericId be act then
           tryCatch (call (logInteractionEndpoint be))
             (fun interactionError =>
                cell (LSS.set (LSS.consoleLog
                                 ("Interaction logging failed, continuing: " ++ interactionError))))
         else ret tt)
        (fun error => cell (LSS.set (LSS.consoleLog ("Error in answer submission: " ++ error))))
  | _, _ => ret tt
  end.

(** The calls as a handler of the component sees them: the first request of
    the handler goes out from the browser [b], a second one from the browser
    [b'] the first one leaves. *)
Definition worldAt (be : Backend) (b b' : Api.Browser) : LSS.World :=
  {| LSS.generateLesson := Page.seen (generateLessonEndpoint be (Api.authorization b));
     LSS.generateQuiz := Page.seen (generateQuizEndpoint be (Api.authorization b));
     LSS.createSession := Page.seen (createSessionEndpoint be (Api.authorization b'));
     LSS.submitQuiz := Page.seen (submitQuizEndpoint be (Api.authorization b));
     LSS.logInteraction := Page.seen (logInteractionEndpoint be (Api.authorization b'));
     LSS.parseInt := parseInt be;
     LSS.dateNow := dateNow be;
     LSS.isoNow := isoNow be |}.

(** The browser after the response interceptor has seen a 401. *)
Definition signedOut : Api.Browser := {| Api.storedToken := None; Api.location := "/login" |}.

End SimplePage.

(** ** [AuthContext.tsx]

    [login], [register], [logout] and [initAuth], each run from its first
    statement to its last.  ([initAuth] is an effect that runs again whenever
    the [token] cell changes; that interleaving is not modelled.) *)

Module AuthContext.

Import Api.

Record User : Type := mkUser {
  id : Z;
  email : string;
  username : string;
  first_name : option string;
  last_name : option string;
  is_active : bool
}.

(** [response.data] of [/auth/login] and [/auth/register]: an object, with
    or without the member [access_token], or no object at all ([null] or
    [undefined], as for an empty body). *)
Inductive TokenData : Type :=
| mkTokenData (access_token : option string)
| nullData.

(** [userData: any], the argument of [register] *)
Record RegistrationData : Type := mkRegistrationData {
  reg_email : string;
  reg_username : string;
  reg_password : string;
  reg_first_name : option string;
  reg_last_name : option string
}.

(** The back end: the answer to each call as a function of its arguments and
    of the [Authorization] header. *)
Record World : Type := mkWorld {
  loginEndpoint : string -> string -> option string -> Response TokenData;
  registerEndpoint : RegistrationData -> option string -> Response TokenData;
  currentUserEndpoint : option string -> Response User
}.

(** Built-in string functions that depend on the Unicode tables of the
    runtime. *)
Record Runtime : Type := mkRuntime {
  toLowerCase : string -> string;
  toUpperCase : string -> string;
  trim : string -> string
}.

(** The cells of the provider, the browser and the console. *)
Record State : Type := mkState {
  user : option User;
  token : option string;
  loading : bool;
  browser : Browser;
  console : list string
}.

Definition setUser (v : option User) (s : State) : State :=
  mkState v (token s) (loading s) (browser s) (console s).
Definition setToken (v : option string) (s : State) : State :=
  mkState (user s) v (loading s) (browser s) (console s).
Definition setLoading (v : bool) (s : State) : State :=
  mkState (user s) (token s) v (browser s) (console s).
Definition updBrowser (f : Browser -> Browser) (s : State) : State :=
  mkState (user s) (token s) (loading s) (f (browser s)) (console s).
Definition consoleError (line : string) (s : State) : State :=
  mkState (user s) (token s) (loading s) (browser s) (console s ++ [line]).

(** The cells as [useState] initialises them in a browser [b]. *)
Definition initialState (b : Browser) : State :=
  {| user := None; token := storedToken b; loading := true; browser := b; console := [] |}.

(** The monad of the asynchronous functions of the provider. *)
Definition M (A : Type) : Type := State -> Response A * State.

Definition ret {A : Type} (a : A) : M A := fun s => (Fulfilled a, s).

Definition bind {A B : Type} (m : M A) (k : A -> M B) : M B :=
  fun s => match m s with
           | (Fulfilled a, s') => k a s'
           | (Rejected e, s') => (Rejected e, s')
           end.

Definition tryCatch {A : Type} (m : M A) (h : Error -> M A) : M A :=
  fun s => match m s with
           | (Fulfilled a, s') => (Fulfilled a, s')
           | (Rejected e, s') => h e s'
           end.

Definition set (f : State -> State) : M unit := fun s => (Fulfilled tt, f s).

(** [await authAPI.…]: a request through the instance of [api.ts] *)
Definition call {A : Type} (server : option string -> Response A) : M A :=
  fun s => match request server (browser s) with
           | (r, b) => (r, updBrowser (fun _ => b) s)
           end.

Declare Scope auth_scope.
Delimit Scope auth_scope with auth.
Notation "'let!' x ':=' m 'in' k" := (bind m (fun x => k))
  (at level 10, x name, m at level 100, k at level 200) : auth_scope.
Notation "'run!' m 'in' k" := (bind m (fun _ => k))
  (at level 10, m at level 100, k at level 200) : auth_scope.
Local Open Scope auth_scope.

(** [const { access_token } = response.data]: a [TypeError] when there is
    nothing to take the member from. *)
Definition accessTokenOf (data : TokenData) : M (option string) :=
  match data with
  | mkTokenData access_token => ret access_token
  | nullData =>
      fun s => (Rejected (mkError None None
                            (Some "Cannot destructure property 'access_token' of 'response.data'")),
                s)
  end.

(** [email.split('@')[0]] *)
Fixpoint beforeAt (v : string) : string :=
  match v with
  | EmptyString => EmptyString
  | String c v' => if Ascii.eqb c "@"%char then EmptyString else String c (beforeAt v')
  end.

(** [v.replace(/\d+/g, '')] *)
Fixpoint withoutDigits (v : string) : string :=
  match v with
  | EmptyString => EmptyString
  | String c v' =>
      if (48 <=? Z.of_nat (nat_of_ascii c)) && (Z.of_nat (nat_of_ascii c) <=? 57)
      then withoutDigits v'
      else String c (withoutDigits v')
  end.

(** [v.charAt(0).toUpperCase() + v.slice(1)] *)
Definition capitalized (rt : Runtime) (v : string) : string :=
  match v with
  | EmptyString => toUpperCase rt EmptyString ++ EmptyString
  | String c v' => toUpperCase rt (String c EmptyString) ++ v'
  end.

(** The user [login] makes up when [/auth/me] fails. *)
Definition fallbackUser (rt : Runtime) (loginEmail : string) : User :=
  let emailPart := beforeAt loginEmail in
  let cleanUsername := toLowerCase rt (withoutDigits emailPart) in
  let displayName := capitalized rt cleanUsername in
  {| id := 1;
     email := loginEmail;
     username := emailPart;
     first_name := Some (if falsyString displayName then "User" else displayName);
     last_name := Some "";
     is_active := true |}.

Definition login (rt : Runtime) (w : World) (loginEmail password : string) : M bool :=
  tryCatch
    (let! data := call (loginEndpoint w loginEmail password) in
     let! access_token := accessTokenOf data in
     run! set (updBrowser (setItem access_token)) in
     run! set (setToken access_token) in
     run! tryCatch
            (let! userData := call (currentUserEndpoint w) in
             set (setUser (Some userData)))
            (fun userError =>
               run! set (consoleError "Failed to get user data after login, using fallback:") in
               set (setUser (Some (fallbackUser rt loginEmail)))) in
     ret true)
    (fun error =>
       run! set (consoleError "Login failed:") in
       ret false).

Definition register (w : World) (userData : RegistrationData) : M bool :=
  tryCatch
    (let! data := call (registerEndpoint w userData) in
     let! access_token := accessTokenOf data in
     run! set (updBrowser (setItem access_token)) in
     run! set (setToken access_token) in
     run! tryCatch
            (let! current := call (currentUserEndpoint w) in
             set (setUser (Some current)))
            (fun userError =>
               run! set (consoleError
                           "Failed to get user data after registration, using registration data:") in
               set (setUser (Some {| id := 1;
                                     email := reg_email userData;
                                     username := reg_username userData;
                                     first_name := reg_first_name userData;
                                     last_name := reg_last_name userData;
                                     is_active := true |}))) in
     ret true)
    (fun error =>
       run! set (consoleError "Registration failed:") in
       ret false).

Definition logout (s : State) : State :=
  setUser None (setToken None (updBrowser removeItem s)).

(** [if (token)] on the cell *)
Definition hasToken (s : State) : bool :=
  match token s with
  | Some t => negb (falsyString t)
  | None => false
  end.

Definition initAuth (w : World) : M unit :=
  fun s =>
    (run! (if hasToken s then
             tryCatch
               (let! current := call (currentUserEndpoint w) in
                set (setUser (Some current)))
               (fun error =>
                  run! set (consoleError
                              "Failed to get current user on init, removing invalid token:") in
                  run! set (updBrowser removeItem) in
                  set (setToken None))
           else ret tt) in
     set (setLoading false)) s.

End AuthContext.

(** ** [LoginPage.tsx] *)

Module LoginPage.

Import Api.

(** The cells of the page, the route [navigate] was called with, the console
    and the provider the page uses. *)
Record State : Type := mkState {
  email : string;
  password : string;
  error : string;
  loading : bool;
  navigatedTo : option string;
  console : list string;
  auth : AuthContext.State
}.

Definition setError (v : string) (s : State) : State :=
  mkState (email s) (password s) v (loading s) (navigatedTo s) (console s) (auth s).
Definition setLoading (v : bool) (s : State) : State :=
  mkState (email s) (password s) (error s) v (navigatedTo s) (console s) (auth s).
Definition navigate (route : string) (s : State) : State :=
  mkState (email s) (password s) (error s) (loading s) (Some route) (console s) (auth s).
Definition consoleError (line : string) (s : State) : State :=
  mkState (email s) (password s) (error s) (loading s) (navigatedTo s)
          (console s ++ [line]) (auth s).

Definition M (A : Type) : Type := State -> Response A * State.

Definition ret {A : Type} (a : A) : M A := fun s => (Fulfilled a, s).

Definition bind {A B : Type} (m : M A) (k : A -> M B) : M B :=
  fun s => match m s with
           | (Fulfilled a, s') => k a s'
           | (Rejected e, s') => (Rejected e, s')
           end.

Definition tryCatch {A : Type} (m : M A) (h : Error -> M A) : M A :=
  fun s => match m s with
           | (Fulfilled a, s') => (Fulfilled a, s')
           | (Rejected e, s') => h e s'
           end.

Definition tryFinally {A : Type} (m : M A) (f : M unit) : M A :=
  fun s => match m s with
           | (r, s') => match f s' with
                        | (Fulfilled _, s'') => (r, s'')
                        | (Rejected e, s'') => (Rejected e, s'')
                        end
           end.

Definition set (f : State -> State) : M unit := fun s => (Fulfilled tt, f s).

(** A function of the provider called from the page. *)
Definition useAuth {A : Type} (m : AuthContext.M A) : M A :=
  fun s => match m (auth s) with
           | (r, a) => (r, mkState (email s) (password s) (error s) (loading s)
                                   (navigatedTo s) (console s) a)
           end.

Declare Scope login_scope.
Delimit Scope login_scope with login.
Notation "'let!' x ':=' m 'in' k" := (bind m (fun x => k))
  (at level 10, x name, m at level 100, k at level 200) : login_scope.
Notation "'run!' m 'in' k" := (bind m (fun _ => k))
  (at level 10, m at level 100, k at level 200) : login_scope.
Local Open Scope login_scope.

(** [v.includes(needle)] *)
Definition includes (needle v : string) : bool :=
  match String.index 0 needle v with
  | Some _ => true
  | None => false
  end.

(** What the [catch] clause of [handleSubmit] shows for an exception. *)
Definition messageFor (err : Error) : string :=
  match detail err with
  | Some d =>
      if falsyString d then
        match message err with
        | Some m => if includes "Network Error" m
                    then "Unable to connect to server. Please check your internet connection."
                    else "Login failed. Please try again later."
        | None => "Login failed. Please try again later."
        end
      else d
  | None =>
      match message err with
      | Some m => if includes "Network Error" m
                  then "Unable to connect to server. Please check your internet connection."
                  else "Login failed. Please try again later."
      | None => "Login failed. Please try again later."
      end
  end.

Definition handleSubmit (rt : AuthContext.Runtime) (w : AuthContext.World) : M unit :=
  fun r =>
    (run! set (setError "") in
     if falsyString (AuthContext.trim rt (email r)) then
       set (setError "Email is required")
     else if negb (includes "@" (email r)) then
       set (setError "Please enter a valid email address")
     else if falsyString (password r) then
       set (setError "Password is required")
     else
       run! set (setLoading true) in
       tryFinally
         (tryCatch
            (let! success := useAuth (AuthContext.login rt w (AuthContext.trim rt (email r))
                                                        (password r)) in
             if success then set (navigate "/dashboard")
             else set (setError
                         "Invalid email or password. Please check your credentials and try again."))
            (fun err =>
               run! set (consoleError "Login error:") in
               set (setError (messageFor err))))
         (set (setLoading false))) r.

End LoginPage.

(** ** The claims of the specification, in its own words *)

Module Spec.

(** "[accuracy_rate == (questions_attempted == 0) ? 0 :
    (questions_correct / questions_attempted) * 100]" *)
Definition accuracy_rate (questions_correct questions_attempted : Z) : number :=
  if questions_attempted =? 0 then ofZ 0
  else mul (div (ofZ questions_correct) (ofZ questions_attempted)) (ofZ 100).

End Spec.

(** ** Scenarios *)

Module Scenario.

Import LearningSession.

(** A runtime in which nothing throws: the clock stands still and the random
    letter cycles through C, D, A, B. *)
Definition runtime : AI.Runtime :=
  {| AI.dateNow := fun _ => 1762041600000;
     AI.floorRandom4 := fun i =>
       match Z.rem i 4 with
       | 0 => AI.P2
       | 1 => AI.P3
       | 2 => AI.P0
       | _ => AI.P1
       end;
     AI.throwsAt := fun _ => false |}.

(** The world of the running application: the quiz comes from
    [aiQuizGenerator], the back end answers every call. *)
Definition world : World :=
  {| generateQuiz := AI.generateQuiz runtime;
     createSession := fun _ => Ok tt;
     logInteraction := fun _ _ => Ok tt;
     dateNow := 1762041600000;
     isoNow := "2025-11-02T00:00:00.000Z" |}.

(** The same world with another outcome of [aiQuizGenerator.generateQuiz]. *)
Definition withGenerator (r : result (list AI.Question)) (w : World) : World :=
  {| generateQuiz := fun _ => r;
     createSession := createSession w;
     logInteraction := logInteraction w;
     dateNow := dateNow w;
     isoNow := isoNow w |}.

(** The demo session [fetchSessions] falls back to. *)
Definition demoSession : LearningSessionData :=
  LearningSession.demoSession "2025-11-02T00:00:00.000Z".

(** The component after mounting, [fetchSessions] having failed. *)
Definition mounted : State :=
  after (fetchSessions (Throw "Network Error") "2025-11-02T00:00:00.000Z") initialState.

(** The user opens the dialog, asks for a Mathematics quiz on Algebra and
    starts it. *)
Definition openQuiz : list (World * Event) :=
  [ (world, ClickNewSession);
    (world, TypeSubject "Mathematics");
    (world, TypeTopic "Algebra");
    (world, ChooseType "quiz");
    (world, ClickCreate) ].

(** The user picks option [k], submits and moves on. *)
Definition answer (k : nat) : list (World * Event) :=
  [ (world, SelectAnswer k); (world, ClickSubmit); (world, ClickNext) ].

(** A new quiz in which the first question awaits its answer. *)
Definition started : State := dispatchAll openQuiz mounted.

(** Two of the four questions answered, the third one on display. *)
Definition twoAnswered : State := dispatchAll (answer 0 ++ answer 1) started.

(** All four questions answered and Complete Session clicked. *)
Definition finished : State :=
  dispatchAll (answer 0 ++ answer 1 ++ answer 2 ++ answer 3) started.

(** The position of the question on display, as the view shows it
    ([currentQuestions.findIndex(q => q.id === currentQuestion?.id)]). *)
Definition currentIndex (s : State) : Z :=
  findIndex (fun q => match currentQuestion s with
                      | Some cq => strictEq (qid q) (qid cq)
                      | None => false
                      end) (currentQuestions s).

(** The question about Paris of [getQuestionsForTopic]. *)
Definition parisQuestion : Question :=
  {| qid := "1";
     question := "What is the capital of France?";
     options := [ "London"; "Berlin"; "Paris"; "Madrid" ];
     correct_answer := "Paris";
     explanation := "Paris is the capital and most populous city of France.";
     difficulty := div (ofZ 3) (ofZ 10) |}.

Definition twoPlusTwoQuestion : Question :=
  {| qid := "2";
     question := "What is 2 + 2?";
     options := [ "3"; "4"; "5"; "6" ];
     correct_answer := "4";
     explanation := "Two plus two equals four in basic arithmetic.";
     difficulty := div (ofZ 1) (ofZ 10) |}.

(** The demo session running over these two questions, with [answer]
    selected for the first one. *)
Definition parisState (answer : string) : State :=
  setSelectedAnswer answer
    (setCurrentQuestion (Some parisQuestion)
       (setCurrentQuestions [ parisQuestion; twoPlusTwoQuestion ]
          (setActiveSession (Some demoSession) mounted))).

(** A minute later the generator draws other letters. *)
Definition laterRuntime : AI.Runtime :=
  {| AI.dateNow := fun _ => 1762041660000;
     AI.floorRandom4 := fun _ => AI.P1;
     AI.throwsAt := fun _ => false |}.

Definition laterWorld : World :=
  {| generateQuiz := AI.generateQuiz laterRuntime;
     createSession := fun _ => Ok tt;
     logInteraction := fun _ _ => Ok tt;
     dateNow := 1762041660000;
     isoNow := "2025-11-02T00:01:00.000Z" |}.

(** The first question answered, its result on display. *)
Definition showingResult : State :=
  dispatchAll [ (world, SelectAnswer 0); (world, ClickSubmit) ] started.

(** Two questions answered, the session paused, then resumed from its card
    (the first of the list) a minute later. *)
Definition pausedAndResumed : State :=
  dispatchAll [ (world, ClickPause); (laterWorld, ClickResume 0%nat) ] twoAnswered.

(** The four questions [rt] generates for the Algebra quiz. *)
Definition generated (rt : AI.Runtime) : list AI.Question :=
  match AI.generateQuiz rt (AI.mkRequest "Mathematics" "Algebra" half 4) with
  | Ok qs => qs
  | Throw _ => []
  end.

(** The [k]-th question of the Algebra quiz of [world]. *)
Definition questionAt (k : nat) : Question :=
  nth k (map convertQuestion (generated runtime)) parisQuestion.

(** The Algebra session after [attempted] wrong answers. *)
Definition newSessionAfter (attempted : Z) : LearningSessionData :=
  {| sid := 1762041600000;
     session_type := "quiz";
     subject_area := "Mathematics";
     topic := "Algebra";
     status := "active";
     questions_attempted := attempted;
     questions_correct := 0;
     accuracy_rate := ofZ 0;
     duration_minutes := 0;
     started_at := "2025-11-02T00:00:00.000Z" |}.

(** The dialog filled in for the Algebra quiz, Start Session not yet
    clicked. *)
Definition dialogFilled : State :=
  dispatchAll [ (world, ClickNewSession);
                (world, TypeSubject "Mathematics");
                (world, TypeTopic "Algebra");
                (world, ChooseType "quiz") ] mounted.

(** The running Algebra quiz is paused and a second Algebra quiz is created
    while the clock still shows the same millisecond. *)
Definition createdTwice : State :=
  dispatchAll [ (world, ClickPause);
                (world, ClickNewSession);
                (world, TypeSubject "Mathematics");
                (world, TypeTopic "Algebra");
                (world, ClickCreate) ] started.

(** Three questions answered, the session paused and resumed, and two
    questions of the new list answered. *)
Definition overrun : State :=
  dispatchAll (answer 0 ++ answer 1 ++ answer 2
               ++ [ (world, ClickPause); (laterWorld, ClickResume 0%nat) ]
               ++ [ (laterWorld, SelectAnswer 0%nat); (laterWorld, ClickSubmit);
                    (laterWorld, ClickNext) ]
               ++ [ (laterWorld, SelectAnswer 0%nat); (laterWorld, ClickSubmit) ])
              started.

(** The quiz of two questions: "Paris" for the first one, "3" for the
    second one, each submitted and followed by Next. *)
Definition twoQuestionsAnswered : State :=
  dispatchAll [ (world, SelectAnswer 2%nat); (world, ClickSubmit); (world, ClickNext);
                (world, SelectAnswer 0%nat); (world, ClickSubmit); (world, ClickNext) ]
              (parisState "").

(** A session as the back end delivers it: three attempts, two of them
    correct, no accuracy given. *)
Definition fetchedSession : RawSession :=
  {| raw_id := 7;
     raw_session_type := "practice";
     raw_subject_area := Some "History";
     raw_topic := None;
     raw_status := "paused";
     raw_questions_attempted := Some 3;
     raw_questions_correct := Some 2;
     raw_accuracy_rate := None;
     raw_duration_minutes := None;
     raw_started_at := "2025-11-01T09:30:00.000Z" |}.

(** The Algebra quiz with the third option of its first question selected,
    Submit Answer not yet clicked. *)
Definition optionSelected : State := dispatch world (SelectAnswer 2%nat) started.

(** A browser that holds a token and shows the learning page. *)
Definition signedIn : Api.Browser := Api.mkBrowser (Some "tok123") "/learning".

(** The answer of a back end that no longer accepts the token, and the
    error of a request that reaches no back end. *)
Definition expired : Api.Error :=
  {| Api.status := Some 401;
     Api.detail := Some "Could not validate credentials";
     Api.message := Some "Request failed with status code 401" |}.

Definition unreachable : Api.Error :=
  {| Api.status := None; Api.detail := None; Api.message := Some "Network Error" |}.

(** The back end of [world] behind the axios instance; it answers a new
    session with [created] and an interaction with [logged]. *)
Definition backend (created logged : Api.Response unit) : Page.Backend :=
  {| Page.runtime := runtime;
     Page.createSessionEndpoint := fun _ _ => created;
     Page.logInteractionEndpoint := fun _ _ _ => logged;
     Page.dateNow := 1762041600000;
     Page.isoNow := "2025-11-02T00:00:00.000Z" |}.

(** The second component of [LearningSessionSimple.tsx]. *)
Module Simple.

Import LearningSessionSimple.

Definition initialState : State :=
  {| sessions := [];
     activeSession := None;
     currentQuestion := None;
     currentQuestions := [];
     selectedAnswer := "";
     showResults := false;
     isCorrect := false;
     explanationText := "";
     loading := false;
     error := "";
     successMessage := "";
     activeQuizAttempt := None;
     questionStartTime := None;
     createDialogOpen := false;
     newSessionData := mkNewSessionData "" "" "practice";
     console := [] |}.

(** The demo session [fetchSessions] falls back to. *)
Definition demoSession : LearningSessionData :=
  {| sid := "1";
     session_type := "practice";
     subject_area := "General Knowledge";
     topic := "Mixed Topics";
     status := "active";
     content := None;
     duration_estimate := None;
     questions_attempted := Some 0;
     questions_correct := Some 0;
     accuracy_rate := Some (ofZ 0);
     duration_minutes := Some 0;
     started_at := Some "2025-11-02T00:00:00.000Z";
     difficulty_level := half;
     created_at := "2025-11-02T00:00:00.000Z" |}.

(** The dialog filled in for a practice session on Algebra. *)
Definition mounted : State :=
  setNewSessionData (mkNewSessionData "Mathematics" "Algebra" "practice")
    (setCreateDialogOpen true
       (updSessions (fun _ => [ demoSession ]) initialState)).

Definition rawParis : RawQuestion :=
  {| raw_question := "What is the capital of France?";
     raw_options := Some [ "London"; "Berlin"; "Paris"; "Madrid" ];
     raw_option_a := "";
     raw_option_b := "";
     raw_option_c := "";
     raw_option_d := "";
     raw_correct_answer := "Paris";
     raw_explanation := None;
     raw_difficulty_level := None |}.

(** [parseInt] on a string of ASCII characters whose digits make up a
    number below 2^53: white space is skipped, a sign is read, then the
    digits up to the first other character, in base 16 after "0x" or "0X"
    and in base 10 otherwise; no digit gives NaN. *)
Definition digitOf (radix : Z) (c : ascii) : option Z :=
  let n := Z.of_nat (nat_of_ascii c) in
  let d := if (48 <=? n) && (n <=? 57) then n - 48
           else if (97 <=? n) && (n <=? 122) then n - 87
           else if (65 <=? n) && (n <=? 90) then n - 55
           else radix in
  if d <? radix then Some d else None.

Fixpoint digitsFrom (radix : Z) (acc : option Z) (v : string) : option Z :=
  match v with
  | EmptyString => acc
  | String c v' =>
      match digitOf radix c with
      | Some d =>
          digitsFrom radix (Some (radix * match acc with Some a => a | None => 0 end + d)) v'
      | None => acc
      end
  end.

Definition unsignedFrom (v : string) : option Z :=
  match v with
  | String "0" (String "x" v') | String "0" (String "X" v') => digitsFrom 16 None v'
  | _ => digitsFrom 10 None v
  end.

Definition isWhiteSpace (c : ascii) : bool :=
  let n := Z.of_nat (nat_of_ascii c) in
  ((9 <=? n) && (n <=? 13)) || (n =? 32).

Fixpoint skipWhiteSpace (v : string) : string :=
  match v with
  | String c v' => if isWhiteSpace c then skipWhiteSpace v' else v
  | EmptyString => EmptyString
  end.

Definition parseIntDemo (v : string) : option Z :=
  match skipWhiteSpace v with
  | String "-" v' => option_map Z.opp (unsignedFrom v')
  | String "+" v' => unsignedFrom v'
  | v' => unsignedFrom v'
  end.

(** The back end answers with the questions [questions] and gives the new
    session the id [newId]. *)
Definition world (questions : list RawQuestion) (newId : string) : World :=
  {| generateLesson := Ok (mkLessonData None);
     generateQuiz := Ok (mkQuizData (Some (mkQuizPayload (Some questions))) None);
     createSession := Ok (Some newId);
     submitQuiz := Ok tt;
     logInteraction := Ok tt;
     parseInt := parseIntDemo;
     dateNow := 1762041600000;
     isoNow := "2025-11-02T00:00:00.000Z" |}.

(** A practice session of one question, "Paris" selected and submitted. *)
Definition showingResult : State :=
  after (handleAnswerSubmit (world [ rawParis ] "2"))
    (setSelectedAnswer "Paris" (after (createNewSession (world [ rawParis ] "2")) mounted)).

(** A practice session of one question with "Paris" selected: the Submit
    Answer button is enabled. *)
Definition optionSelected : State :=
  setSelectedAnswer "Paris" (after (createNewSession (world [ rawParis ] "2")) mounted).

(** A back end behind the axios instance that serves the one question and
    answers the three other requests of a quiz with [created], [submitted]
    and [logged], whatever the [Authorization] header. *)
Definition backend (created : Api.Response (option string)) (submitted logged : Api.Response unit)
  : SimplePage.Backend :=
  {| SimplePage.generateLessonEndpoint := fun _ => Api.Fulfilled (mkLessonData None);
     SimplePage.generateQuizEndpoint :=
       fun _ => Api.Fulfilled (mkQuizData None (Some [ rawParis ]));
     SimplePage.createSessionEndpoint := fun _ => created;
     SimplePage.submitQuizEndpoint := fun _ => submitted;
     SimplePage.logInteractionEndpoint := fun _ => logged;
     SimplePage.parseInt := parseIntDemo;
     SimplePage.dateNow := 1762041600000;
     SimplePage.isoNow := "2025-11-02T00:00:00.000Z" |}.

End Simple.

End Scenario.

(** ** Definitions used in the statements *)

Module Statement.

Import LearningSession.

(** The cells of a state, without the console trace. *)
Definition cells (s : State) : State :=
  mkState (sessions s) (activeSession s) (currentQuestion s) (currentQuestions s)
          (selectedAnswer s) (showResults s) (isCorrect s) (explanationText s) (loading s)
          (error s) (successMessage s) (createDialogOpen s) (newSessionData s) [].

(** What [handleAnswerSubmit] computes before it awaits the logging call. *)
Definition scored (act : LearningSessionData) (cq : Question) (s : State) : State :=
  let correct := strictEq (selectedAnswer s) (correct_answer cq) in
  let updatedSession :=
    {| sid := sid act;
       session_type := session_type act;
       subject_area := subject_area act;
       topic := topic act;
       status := status act;
       questions_attempted := questions_attempted act + 1;
       questions_correct := questions_correct act + (if correct then 1 else 0);
       accuracy_rate := accuracyOf (questions_correct act + (if correct then 1 else 0))
                                   (questions_attempted act + 1);
       duration_minutes := duration_minutes act;
       started_at := started_at act |} in
  updSessions (map (fun session => if sid session =? sid act then updatedSession else session))
    (setActiveSession (Some updatedSession)
       (setExplanation (explanation cq)
          (setShowResults true
             (setIsCorrect correct s)))).

(** The request [createNewSession] sends to the generator. *)
Definition requestOf (s : State) : AI.QuizGenerationRequest :=
  quizRequestFor (new_subject_area (newSessionData s)) (new_topic (newSessionData s)).

(** The session object [createNewSession] builds. *)
Definition newSessionOf (w : World) (s : State) : LearningSessionData :=
  {| sid := dateNow w;
     session_type := new_session_type (newSessionData s);
     subject_area := new_subject_area (newSessionData s);
     topic := new_topic (newSessionData s);
     status := "active";
     questions_attempted := 0;
     questions_correct := 0;
     accuracy_rate := ofZ 0;
     duration_minutes := 0;
     started_at := isoNow w |}.

(** The state [createNewSession] leaves when the generator answers [ai] and
    the back end accepts the session. *)
Definition created (w : World) (ai : list AI.Question) (s : State) : State :=
  let questions := map convertQuestion ai in
  setLoading false
    (setSuccessMessage ("AI-powered quiz created for " ++ new_topic (newSessionData s) ++ "!")
       (updNewSessionData (fun _ => mkNewSessionData "" "" "practice")
          (setCreateDialogOpen false
             ((if 0 <? len questions
               then setCurrentQuestion (index questions 0)
               else fun s0 => s0)
                (setCurrentQuestions questions
                   (setActiveSession (Some (newSessionOf w s))
                      (updSessions (fun prev => newSessionOf w s :: prev)
                         (setLoading true s)))))))).

(** The state [createNewSession] leaves when an awaited call rejects. *)
Definition creationFailed (s : State) : State :=
  setLoading false (setError "Failed to create AI-powered learning session" (setLoading true s)).

(** The first session of the collection with a given id. *)
Definition findSession (i : Z) (l : list LearningSessionData) : option LearningSessionData :=
  find (fun x => sid x =? i) l.

(** The state [pauseSession] leaves for the running session [act]. *)
Definition paused (act : LearningSessionData) (s : State) : State :=
  setSuccessMessage "Session paused successfully!"
    (setCurrentQuestion None
       (setActiveSession None
          (updSessions (map (fun x => if sid x =? sid act then withStatus "paused" act else x))
             s))).

(** The state [startSession session] leaves when the generator answers [ai]. *)
Definition resumed (session : LearningSessionData) (ai : list AI.Question) (s : State) : State :=
  let questions := map convertQuestion ai in
  setLoading false
    (setExplanation ""
       (setShowResults false
          (setSelectedAnswer ""
             (setCurrentQuestion (index questions 0)
                (setActiveSession (Some session)
                   (setCurrentQuestions questions
                      (setLoading true s))))))).

(** In the second component: content generation fails for the session type
    chosen in the dialog, by a rejected call or, for a quiz, by an empty
    list of questions. *)
Definition simpleGenerationFails
           (w : LearningSessionSimple.World) (s : LearningSessionSimple.State) : Prop :=
  if strictEq (LearningSessionSimple.new_session_type (LearningSessionSimple.newSessionData s))
              "lesson"
  then exists e, LearningSessionSimple.generateLesson w = Throw e
  else (exists e, LearningSessionSimple.generateQuiz w = Throw e) \/
       (exists d, LearningSessionSimple.generateQuiz w = Ok d /\
                  LearningSessionSimple.questionsDataOf d = []).

(** In the second component: the id of a new quiz session. *)
Definition simpleQuizId (w : LearningSessionSimple.World) : string :=
  match LearningSessionSimple.createSession w with
  | Ok responseId =>
      orString responseId
        (LearningSessionSimple.showZ (LearningSessionSimple.dateNow w))
  | Throw _ => LearningSessionSimple.showZ (LearningSessionSimple.dateNow w)
  end.

(** Does a string hold an underscore? *)
Fixpoint hasUnderscore (v : string) : bool :=
  match v with
  | EmptyString => false
  | String c v' => Ascii.eqb c "_"%char || hasUnderscore v'
  end.

(** What follows the last underscore of a string (the string itself when it
    has none). *)
Fixpoint lastSegment (v : string) : string :=
  match v with
  | EmptyString => EmptyString
  | String c v' =>
      if hasUnderscore v' then lastSegment v'
      else if Ascii.eqb c "_"%char then v' else String c v'
  end.

(** A world whose generator never delivers two questions with the same id. *)
Definition distinctIds (w : World) : Prop :=
  forall r qs, generateQuiz w r = Ok qs -> NoDup (map AI.id qs).

Definition isResume (ev : Event) : bool :=
  match ev with
  | ClickResume _ => true
  | _ => false
  end.

(** [0 <= questions_correct <= questions_attempted] *)
Definition countersOk (x : LearningSessionData) : Prop :=
  0 <= questions_correct x <= questions_attempted x.

(** The invariant of the progression through one list of questions: the ids
    of the list are distinct, the dialog is open over the session list only,
    a question is on display only while a session runs, and the attempts
    counted do not exceed the position of the question on display, plus one
    once its result is shown. *)
Definition progressInv (s : State) : Prop :=
  NoDup (map qid (currentQuestions s)) /\
  (createDialogOpen s = true -> sessionView s = false) /\
  match activeSession s with
  | None => currentQuestion s = None
  | Some act =>
      countersOk act /\
      match currentQuestion s with
      | Some cq =>
          exists i : nat,
            nth_error (currentQuestions s) i = Some cq /\
            questions_attempted act <= Z.of_nat i + (if showResults s then 1 else 0)
      | None => questions_attempted act <= len (currentQuestions s)
      end
  end.

(** The sessions the back end delivers have counters in order. *)
Definition fetchedCountersOk (response : result SessionsData) : Prop :=
  match response with
  | Ok (ManySessions l) => Forall (fun x => countersOk (normalizeSession x)) l
  | Ok (OneSession x) => countersOk (normalizeSession x)
  | Ok NoData | Throw _ => True
  end.

(** Every session of the collection, and the running one, has counters with
    [0 <= questions_correct <= questions_attempted]. *)
Definition allCountersOk (s : State) : Prop :=
  Forall countersOk (sessions s) /\
  forall act, activeSession s = Some act -> countersOk act.

(** binary64 counts in steps of one up to 2^53 and no further.  With this
    bound on both counters of [x], [n] more additions of 1 (of 0 or 1 for
    [questions_correct]) are, in the code, the additions of [Z]. *)
Definition countsExactly (n : Z) (x : LearningSessionData) : Prop :=
  Z.abs (questions_attempted x) + n <= 2 ^ 53 /\
  Z.abs (questions_correct x) + n <= 2 ^ 53.

(** No snackbar is open, so that a click is the event of its control and
    nothing else. *)
Definition noSnackbar (s : State) : Prop :=
  successMessage s = "" /\ error s = "".

(** A world whose quizzes come from [aiQuizGenerator], as those of the
    component do, in some runtime. *)
Definition usesAiQuizGenerator (w : World) : Prop :=
  exists rt, forall r, generateQuiz w r = AI.generateQuiz rt r.

(** The state [startSession] leaves when the generator rejects. *)
Definition resumeFailed (e : string) (s : State) : State :=
  setLoading false
    (setError "Failed to generate quiz questions"
       (consoleLog ("Error generating questions for session: " ++ e)
          (setLoading true s))).

End Statement.

(** ** Definitions used in the further statements *)

Module Further.

Import LearningSession.

(** The values the loop index of [generateQuiz] takes for [n] questions:
    0, 1, ..., n - 1. *)
Definition loopIndexes (n : Z) : list Z := map Z.of_nat (seq 0 (Z.to_nat n)).

(** The user selects [a], submits it and moves on. *)
Definition answerOne (w : World) (a : string) (s : State) : State :=
  after handleNextQuestion (after (handleAnswerSubmit w) (setSelectedAnswer a s)).

(** The same for a list of answers, one after the other. *)
Fixpoint answerAll (w : World) (answers : list string) (s : State) : State :=
  match answers with
  | [] => s
  | a :: rest => answerAll w rest (answerOne w a s)
  end.

(** How many of the answers equal the [correct_answer] of the question at
    the same position. *)
Fixpoint matches (answers : list string) (qs : list Question) : Z :=
  match answers, qs with
  | a :: answers', q :: qs' =>
      (if strictEq a (correct_answer q) then 1 else 0) + matches answers' qs'
  | _, _ => 0
  end.

(** The session [act] with [attempted] more attempts, [correct] of them
    correct, and the accuracy of its new counters. *)
Definition tally (act : LearningSessionData) (attempted correct : Z) : LearningSessionData :=
  {| sid := sid act;
     session_type := session_type act;
     subject_area := subject_area act;
     topic := topic act;
     status := status act;
     questions_attempted := questions_attempted act + attempted;
     questions_correct := questions_correct act + correct;
     accuracy_rate := accuracyOf (questions_correct act + correct)
                                 (questions_attempted act + attempted);
     duration_minutes := duration_minutes act;
     started_at := started_at act |}.

(** [f] applied [n] times. *)
Fixpoint repeatedly {A : Type} (n : nat) (f : A -> A) (x : A) : A :=
  match n with
  | O => x
  | S n' => repeatedly n' f (f x)
  end.

(** The ids of the sessions [learningAPI.getSessions()] delivered. *)
Definition fetchedIds (response : result SessionsData) : list Z :=
  match response with
  | Ok (ManySessions l) => map raw_id l
  | Ok (OneSession x) => [ raw_id x ]
  | Ok NoData | Throw _ => [ 1 ]
  end.

(** The cells of the second component, without the console trace. *)
Definition simpleCells (s : LearningSessionSimple.State) : LearningSessionSimple.State :=
  LearningSessionSimple.mkState
    (LearningSessionSimple.sessions s) (LearningSessionSimple.activeSession s)
    (LearningSessionSimple.currentQuestion s) (LearningSessionSimple.currentQuestions s)
    (LearningSessionSimple.selectedAnswer s) (LearningSessionSimple.showResults s)
    (LearningSessionSimple.isCorrect s) (LearningSessionSimple.explanationText s)
    (LearningSessionSimple.loading s) (LearningSessionSimple.error s)
    (LearningSessionSimple.successMessage s) (LearningSessionSimple.activeQuizAttempt s)
    (LearningSessionSimple.questionStartTime s) (LearningSessionSimple.createDialogOpen s)
    (LearningSessionSimple.newSessionData s) [].

(** In the second component: [handleAnswerSubmit] goes past its guard. *)
Definition simpleSubmits (s : LearningSessionSimple.State) : bool :=
  match LearningSessionSimple.currentQuestion s, LearningSessionSimple.activeSession s with
  | Some _, Some _ => negb (falsyString (LearningSessionSimple.selectedAnswer s))
  | _, _ => false
  end.

(** In the second component: the id of the active session reads as a number
    other than 0, so that [handleAnswerSubmit] logs the interaction. *)
Definition simpleLogs (be : SimplePage.Backend) (s : LearningSessionSimple.State) : bool :=
  match LearningSessionSimple.activeSession s with
  | Some act => SimplePage.hasNumericId be act
  | None => false
  end.

(** In [QuizDisplay]: the question counts as answered, as the Next button
    tests it ([selectedAnswers[q.id]] is truthy). *)
Definition answered (answers : JSObject.t) (q : QuizDisplay.Question) : bool :=
  JSObject.truthy (JSObject.get answers (QuizDisplay.id q)).

(** In [QuizDisplay]: the position lies inside the list, and the keys of
    [selectedAnswers] are distinct ids of questions of the list. *)
Definition countersInv (questions : list QuizDisplay.Question) (s : QuizDisplay.State) : Prop :=
  0 <= QuizDisplay.currentQuestionIndex s < len questions /\
  NoDup (JSObject.keys (QuizDisplay.selectedAnswers s)) /\
  incl (JSObject.keys (QuizDisplay.selectedAnswers s)) (map QuizDisplay.id questions).

(** In [QuizDisplay]: every question before the one on display is answered,
    unless it shares its id with a question still to come. *)
Definition passedInv (questions : list QuizDisplay.Question) (s : QuizDisplay.State) : Prop :=
  0 <= QuizDisplay.currentQuestionIndex s /\
  forall (j : nat) qj,
    Z.of_nat j < QuizDisplay.currentQuestionIndex s ->
    nth_error questions j = Some qj ->
    answered (QuizDisplay.selectedAnswers s) qj = true \/
    exists (k : nat) qk,
      QuizDisplay.currentQuestionIndex s <= Z.of_nat k /\
      nth_error questions k = Some qk /\
      QuizDisplay.id qk = QuizDisplay.id qj.

(** A runtime for quizzes whose answers are strings: no number is printed;
    minutes are rounded half up. *)
Definition quizRuntime : QuizDisplay.Runtime :=
  {| QuizDisplay.numberToString := fun _ => "NaN";
     QuizDisplay.roundedMinutes := fun t => (t + 30) / 60 |}.

(** The second component with a quiz session on Algebra created from two
    questions of the back end. *)
Definition rawTwoPlusTwo : LearningSessionSimple.RawQuestion :=
  {| LearningSessionSimple.raw_question := "What is 2 + 2?";
     LearningSessionSimple.raw_options := None;
     LearningSessionSimple.raw_option_a := "3";
     LearningSessionSimple.raw_option_b := "4";
     LearningSessionSimple.raw_option_c := "5";
     LearningSessionSimple.raw_option_d := "6";
     LearningSessionSimple.raw_correct_answer := "4";
     LearningSessionSimple.raw_explanation := Some "Two plus two equals four.";
     LearningSessionSimple.raw_difficulty_level := None |}.

Definition quizStarted : QuizOverlay.State :=
  {| QuizOverlay.component :=
       LearningSessionSimple.after
         (LearningSessionSimple.createNewSession
            (Scenario.Simple.world [ Scenario.Simple.rawParis; rawTwoPlusTwo ] "2"))
         (LearningSessionSimple.setNewSessionData
            (LearningSessionSimple.mkNewSessionData "Mathematics" "Algebra" "quiz")
            Scenario.Simple.mounted);
     QuizOverlay.showQuizResults := false;
     QuizOverlay.quizResults := None |}.

(** The user picks "Paris", moves on, picks "3", goes back, returns and
    completes the quiz while the clock ticks. *)
Definition quizTrace : list QuizDisplay.Event :=
  [ QuizDisplay.Tick; QuizDisplay.ChangeAnswer 2; QuizDisplay.ClickNext;
    QuizDisplay.ChangeAnswer 0; QuizDisplay.ClickPrevious; QuizDisplay.Tick;
    QuizDisplay.ClickNext; QuizDisplay.ClickNext; QuizDisplay.Tick ].

(** In [LoginPage]: the three checks of [handleSubmit] pass. *)
Definition validInput (rt : AuthContext.Runtime) (s : LoginPage.State) : bool :=
  negb (falsyString (AuthContext.trim rt (LoginPage.email s)))
  && LoginPage.includes "@" (LoginPage.email s)
  && negb (falsyString (LoginPage.password s)).

(** In [AuthContext]: the request is fulfilled and its answer has a body to
    take the token from. *)
Definition delivered (r : Api.Response AuthContext.TokenData) : bool :=
  match r with
  | Api.Fulfilled (AuthContext.mkTokenData _) => true
  | Api.Fulfilled AuthContext.nullData => false
  | Api.Rejected _ => false
  end.

(** The string functions of the runtime on ASCII text. *)
Definition asciiUpper (c : ascii) : ascii :=
  let n := nat_of_ascii c in
  if ((97 <=? n) && (n <=? 122))%nat then ascii_of_nat (n - 32) else c.

Definition asciiLower (c : ascii) : ascii :=
  let n := nat_of_ascii c in
  if ((65 <=? n) && (n <=? 90))%nat then ascii_of_nat (n + 32) else c.

Fixpoint mapString (f : ascii -> ascii) (v : string) : string :=
  match v with
  | EmptyString => EmptyString
  | String c v' => String (f c) (mapString f v')
  end.

(** White space among the ASCII characters: tab, line feed, vertical tab,
    form feed, carriage return and space. *)
Definition asciiWhiteSpace (c : ascii) : bool :=
  let n := nat_of_ascii c in
  (((9 <=? n) && (n <=? 13)) || (n =? 32))%nat.

Fixpoint trimStart (v : string) : string :=
  match v with
  | String c v' => if asciiWhiteSpace c then trimStart v' else v
  | EmptyString => EmptyString
  end.

Fixpoint trimEnd (v : string) : string :=
  match v with
  | EmptyString => EmptyString
  | String c v' =>
      match trimEnd v' with
      | EmptyString => if asciiWhiteSpace c then EmptyString else String c EmptyString
      | rest => String c rest
      end
  end.

Definition asciiRuntime : AuthContext.Runtime :=
  {| AuthContext.toLowerCase := mapString asciiLower;
     AuthContext.toUpperCase := mapString asciiUpper;
     AuthContext.trim := fun v => trimEnd (trimStart v) |}.

Definition ada : AuthContext.User :=
  {| AuthContext.id := 7;
     AuthContext.email := "ada@example.org";
     AuthContext.username := "ada";
     AuthContext.first_name := Some "Ada";
     AuthContext.last_name := Some "Lovelace";
     AuthContext.is_active := true |}.

Definition unauthorized : Api.Error :=
  {| Api.status := Some 401;
     Api.detail := Some "Could not validate credentials";
     Api.message := Some "Request failed with status code 401" |}.

Definition networkError : Api.Error :=
  {| Api.status := None; Api.detail := None; Api.message := Some "Network Error" |}.

Definition serverError : Api.Error :=
  {| Api.status := Some 500;
     Api.detail := Some "Internal Server Error";
     Api.message := Some "Request failed with status code 500" |}.

(** A back end that knows one password, hands out one token and answers
    [/auth/me] to that token only; [meDown] makes [/auth/me] unreachable. *)
Definition authWorld (meDown : bool) : AuthContext.World :=
  {| AuthContext.loginEndpoint := fun _ password _ =>
       if String.eqb password "secret"
       then Api.Fulfilled (AuthContext.mkTokenData (Some "tok123"))
       else Api.Rejected unauthorized;
     AuthContext.registerEndpoint := fun _ _ => Api.Rejected networkError;
     AuthContext.currentUserEndpoint := fun header =>
       if meDown then Api.Rejected networkError
       else match header with
            | Some h => if String.eqb h "Bearer tok123" then Api.Fulfilled ada
                        else Api.Rejected unauthorized
            | None => Api.Rejected unauthorized
            end |}.

(** A back end that cannot be reached. *)
Definition offline : AuthContext.World :=
  {| AuthContext.loginEndpoint := fun _ _ _ => Api.Rejected networkError;
     AuthContext.registerEndpoint := fun _ _ => Api.Rejected networkError;
     AuthContext.currentUserEndpoint := fun _ => Api.Rejected networkError |}.

(** The login page in a fresh browser, with an address and a password typed. *)
Definition loginPage (address pass : string) : LoginPage.State :=
  {| LoginPage.email := address;
     LoginPage.password := pass;
     LoginPage.error := "";
     LoginPage.loading := false;
     LoginPage.navigatedTo := None;
     LoginPage.console := [];
     LoginPage.auth := AuthContext.initialState (Api.mkBrowser None "/login") |}.

End Further.

(** * Properties *)

Import LearningSession Statement.
Local Open Scope handler_scope.

(** ** Unfolding the handler monad *)

Ltac run_handler :=
  cbv beta iota zeta delta
    [after bind snapshot set ret tryCatch tryFinally await throw fst snd
     fetchSessions handleAnswerSubmit handleNextQuestion pauseSession completeSession
     startSession createNewSession handler dispatch].

Ltac run_simple :=
  cbv beta iota zeta delta
    [LearningSessionSimple.after LearningSessionSimple.bind LearningSessionSimple.snapshot
     LearningSessionSimple.set LearningSessionSimple.ret LearningSessionSimple.tryCatch
     LearningSessionSimple.tryFinally LearningSessionSimple.await LearningSessionSimple.throw
     LearningSessionSimple.createNewSession fst snd].


(** ** Basic facts about the JavaScript operations *)

Lemma falsyString_false (v : string) : v <> "" -> falsyString v = false.
Proof.
  intros Hne. unfold falsyString. now apply String.eqb_neq.
Qed.

Lemma strictEq_true_iff (a b : string) : strictEq a b = true <-> a = b.
Proof.
  unfold strictEq. apply String.eqb_eq.
Qed.

Lemma enabled_control (ev : Event) (s : State) :
  enabled ev s = true -> control ev s = true.
Proof.
  unfold enabled. intros H. apply andb_true_iff in H. apply H.
Qed.

Lemma enabled_rendered (ev : Event) (s : State) :
  spinner s = false -> enabled ev s = control ev s.
Proof.
  unfold enabled. now intros ->.
Qed.

Lemma handleAnswerSubmit_accepted (w : World) (s : State) act cq :
  activeSession s = Some act ->
  currentQuestion s = Some cq ->
  selectedAnswer s <> "" ->
  handleAnswerSubmit w s =
    match logInteraction w (sid act)
            (mkInteraction (qid cq) (selectedAnswer s)
               (strictEq (selectedAnswer s) (correct_answer cq)) 30) with
    | Ok _ => (Ok tt, scored act cq s)
    | Throw e => (Ok tt, consoleLog ("Error logging interaction: " ++ e) (scored act cq s))
    end.
Proof.
  intros Ha Hq Hsel. run_handler.
  rewrite Ha, Hq, (falsyString_false _ Hsel). cbv beta iota zeta.
  destruct (logInteraction w _ _) as [[]|e]; reflexivity.
Qed.

Lemma handleAnswerSubmit_rejected (w : World) (s : State) :
  activeSession s = None \/ currentQuestion s = None \/ selectedAnswer s = "" ->
  handleAnswerSubmit w s = (Ok tt, s).
Proof.
  intros H. run_handler.
  destruct (currentQuestion s) as [cq|], (activeSession s) as [act|]; try reflexivity.
  destruct H as [H | [H | H]]; try discriminate.
  rewrite H. reflexivity.
Qed.

(** ** Scoring an answer *)

(** C2.  A submission made while a question awaits its answer, with a
    non-empty selection, for a session whose counters are within the range
    in which binary64 counts in steps of one ([questions_attempted] not
    negative): the answer is correct exactly when the selected string equals
    [correct_answer] (so "paris" is wrong for "Paris"), [questions_attempted]
    grows by one, [questions_correct] grows by one exactly when the answer is
    correct, [accuracy_rate] is recomputed from the new counters by the
    formula of the specification, and the result of the same question is on
    display.  With no snackbar open, this is what a click on Submit Answer
    does. *)
Theorem submitAnswer_scores (w : World) (s : State) act cq i :
  activeSession s = Some act ->
  currentQuestion s = Some cq ->
  index (currentQuestions s) i = Some cq ->
  showResults s = false ->
  selectedAnswer s <> "" ->
  0 <= questions_attempted act ->
  countsExactly 1 act ->
  let s' := after (handleAnswerSubmit w) s in
  let correct := strictEq (selectedAnswer s) (correct_answer cq) in
  (spinner s = false -> noSnackbar s -> dispatch w ClickSubmit s = s') /\
  (correct = true <-> selectedAnswer s = correct_answer cq) /\
  (selectedAnswer s = "paris" -> correct_answer cq = "Paris" -> correct = false) /\
  isCorrect s' = correct /\
  (exists act',
      activeSession s' = Some act' /\
      questions_attempted act' = questions_attempted act + 1 /\
      questions_correct act' = questions_correct act + (if correct then 1 else 0) /\
      accuracy_rate act' =
        Spec.accuracy_rate (questions_correct act') (questions_attempted act') /\
      sessions s' = map (fun x => if sid x =? sid act then act' else x) (sessions s)) /\
  showResults s' = true /\
  currentQuestion s' = Some cq /\
  index (currentQuestions s') i = Some cq.
Proof.
  intros Ha Hq Hi Hshow Hsel Hnonneg _ s' correct.
  assert (Hen : control ClickSubmit s = true).
  { unfold control, sessionView. rewrite Ha, Hq, Hshow, (falsyString_false _ Hsel). reflexivity. }
  assert (Hafter : cells s' = cells (scored act cq s)).
  { unfold s', after. rewrite (handleAnswerSubmit_accepted w s act cq Ha Hq Hsel).
    destruct (logInteraction w _ _) as [[]|e]; reflexivity. }
  split.
  { intros Hspin _. unfold dispatch. now rewrite (enabled_rendered _ _ Hspin), Hen. }
  split; [apply strictEq_true_iff|].
  split.
  { intros E1 E2. unfold correct. rewrite E1, E2. reflexivity. }
  split; [exact (f_equal isCorrect Hafter)|].
  split.
  { pose proof (f_equal activeSession Hafter) as Eact.
    pose proof (f_equal sessions Hafter) as Esess.
    simpl in Eact, Esess.
    eexists. split; [exact Eact|]. simpl.
    repeat split; try reflexivity.
    - unfold Spec.accuracy_rate, accuracyOf.
      destruct (questions_attempted act + 1 =? 0) eqn:E; [lia | reflexivity].
    - exact Esess. }
  split; [exact (f_equal showResults Hafter)|].
  split.
  { pose proof (f_equal currentQuestion Hafter) as E. simpl in E. now rewrite E. }
  pose proof (f_equal currentQuestions Hafter) as E. simpl in E. now rewrite E.
Qed.

(** The Paris question with "paris" selected: counted as attempted, not as
    correct. *)
Lemma submitAnswer_scores_witness :
  isCorrect (after (handleAnswerSubmit Scenario.world) (Scenario.parisState "paris")) = false /\
  isCorrect (after (handleAnswerSubmit Scenario.world) (Scenario.parisState "Paris")) = true.
Proof.
  assert (Hcount : countsExactly 1 Scenario.demoSession).
  { unfold countsExactly. simpl. split; apply Z.leb_le; reflexivity. }
  split.
  - pose proof (submitAnswer_scores Scenario.world (Scenario.parisState "paris")
                  Scenario.demoSession Scenario.parisQuestion 0
                  eq_refl eq_refl eq_refl eq_refl ltac:(discriminate) ltac:(simpl; lia)
                  Hcount) as H.
    cbv zeta in H. destruct H as (_ & _ & Hparis & Hcorrect & _).
    rewrite Hcorrect. apply Hparis; reflexivity.
  - pose proof (submitAnswer_scores Scenario.world (Scenario.parisState "Paris")
                  Scenario.demoSession Scenario.parisQuestion 0
                  eq_refl eq_refl eq_refl eq_refl ltac:(discriminate) ltac:(simpl; lia)
                  Hcount) as H.
    cbv zeta in H. destruct H as (_ & Hiff & _ & Hcorrect & _).
    rewrite Hcorrect. apply Hiff. reflexivity.
Defined.

(** ** A failing logging call *)

Ltac run_page :=
  cbv beta iota zeta delta
    [Page.after Page.bind Page.ret Page.tryCatch Page.tryFinally Page.cell Page.call Page.seen
     Page.handleAnswerSubmit Page.createNewSession Page.component Page.browser
     Api.request snapshot set await fst snd].

(** The submit handler behind the axios instance: the cells are those of the
    transition, with a console line when the logging request is rejected,
    and the browser is what the response interceptor makes of it. *)
Lemma page_handleAnswerSubmit_accepted (be : Page.Backend) (p : Page.State) act cq :
  let s := Page.component p in
  activeSession s = Some act ->
  currentQuestion s = Some cq ->
  selectedAnswer s <> "" ->
  Page.handleAnswerSubmit be p =
    match Page.logInteractionEndpoint be (sid act)
            (mkInteraction (qid cq) (selectedAnswer s)
               (strictEq (selectedAnswer s) (correct_answer cq)) 30)
            (Api.authorization (Page.browser p)) with
    | Api.Fulfilled _ => (Ok tt, Page.mkState (scored act cq s) (Page.browser p))
    | Api.Rejected e =>
        (Ok tt,
         Page.mkState
           (consoleLog ("Error logging interaction: " ++ Page.textOf e) (scored act cq s))
           (Api.onRejected e (Page.browser p)))
    end.
Proof.
  destruct p as [s b]. cbv zeta. cbn [Page.component Page.browser].
  intros Ha Hq Hsel. run_page.
  rewrite Ha, Hq, (falsyString_false _ Hsel). cbv beta iota zeta.
  destruct (Page.logInteractionEndpoint be _ _ _) as [[]|e]; reflexivity.
Qed.

Lemma page_handleAnswerSubmit_rejected (be : Page.Backend) (p : Page.State) :
  let s := Page.component p in
  activeSession s = None \/ currentQuestion s = None \/ selectedAnswer s = "" ->
  Page.handleAnswerSubmit be p = (Ok tt, p).
Proof.
  destruct p as [s b]. cbv zeta. cbn [Page.component]. intros H. run_page.
  destruct (currentQuestion s) as [cq|], (activeSession s) as [act|]; try reflexivity.
  destruct H as [H | [H | H]]; try discriminate.
  rewrite H. reflexivity.
Qed.

(** On the cells of the component the handler behind the instance is the
    handler of the component, in the world whose calls are answered through
    the instance. *)
Lemma page_handleAnswerSubmit_component (be : Page.Backend) (p : Page.State) :
  let out := Page.handleAnswerSubmit be p in
  let seen := handleAnswerSubmit (Page.worldAt be (Page.browser p)) (Page.component p) in
  fst out = fst seen /\ Page.component (snd out) = snd seen.
Proof.
  cbv zeta.
  destruct (activeSession (Page.component p)) as [act|] eqn:Ha.
  2:{ rewrite page_handleAnswerSubmit_rejected, handleAnswerSubmit_rejected by now left.
      split; reflexivity. }
  destruct (currentQuestion (Page.component p)) as [cq|] eqn:Hq.
  2:{ rewrite page_handleAnswerSubmit_rejected, handleAnswerSubmit_rejected by (right; now left).
      split; reflexivity. }
  destruct (String.eqb (selectedAnswer (Page.component p)) "") eqn:Hsel.
  { apply String.eqb_eq in Hsel.
    rewrite page_handleAnswerSubmit_rejected, handleAnswerSubmit_rejected by (right; now right).
    split; reflexivity. }
  apply String.eqb_neq in Hsel.
  rewrite (page_handleAnswerSubmit_accepted be p act cq Ha Hq Hsel).
  rewrite (handleAnswerSubmit_accepted _ _ act cq Ha Hq Hsel).
  cbn [Page.worldAt logInteraction].
  destruct (Page.logInteractionEndpoint be _ _ _) as [[]|e]; split; reflexivity.
Qed.

(** A logging request answered with 401 while the first question of the
    Algebra quiz is submitted in a signed-in browser: the attempt is counted
    and the handler writes its console line, but the response interceptor
    has removed the token and sent the window to [/login]. *)
Lemma unauthorized_logging_ends_the_visit :
  let be := Scenario.backend (Api.Fulfilled tt) (Api.Rejected Scenario.expired) in
  let p := Page.mkState Scenario.optionSelected Scenario.signedIn in
  let p' := Page.clickSubmit be p in
  enabled ClickSubmit (Page.component p) = true /\
  Api.storedToken (Page.browser p) = Some "tok123" /\
  Api.location (Page.browser p) = "/learning" /\
  option_map questions_attempted (activeSession (Page.component p')) = Some 1 /\
  error (Page.component p') = "" /\
  Api.storedToken (Page.browser p') = None /\
  Api.location (Page.browser p') = "/login".
Proof.
  vm_compute. repeat split.
Qed.

(** C7, as the code has it.  When the request of [learningAPI.logInteraction]
    is rejected after a submission, the handler still completes normally,
    nothing reaches the [error] cell, the handler writes one line to the
    console, every cell of the component is what the transition computed
    (and what it is when logging succeeds), and the counters, within the
    range in which binary64 counts, carry the values of the transition.  The
    browser is what the response interceptor of the instance leaves: as it
    was, unless the rejection is a 401, on which the token is removed and
    the window is sent to [/login]. *)
Theorem logging_failure_is_swallowed
        (be : Page.Backend) (p : Page.State) (err : Api.Error) act cq :
  let s := Page.component p in
  let correct := strictEq (selectedAnswer s) (correct_answer cq) in
  activeSession s = Some act ->
  currentQuestion s = Some cq ->
  selectedAnswer s <> "" ->
  countsExactly 1 act ->
  Page.logInteractionEndpoint be (sid act)
    (mkInteraction (qid cq) (selectedAnswer s) correct 30)
    (Api.authorization (Page.browser p)) = Api.Rejected err ->
  let failing := Page.handleAnswerSubmit be p in
  let s' := Page.component (snd failing) in
  fst failing = Ok tt /\
  cells s' = cells (scored act cq s) /\
  (forall working : Page.Backend,
     Page.logInteractionEndpoint working (sid act)
       (mkInteraction (qid cq) (selectedAnswer s) correct 30)
       (Api.authorization (Page.browser p)) = Api.Fulfilled tt ->
     cells s' = cells (Page.component (snd (Page.handleAnswerSubmit working p)))) /\
  error s' = error s /\
  console s' = (console s ++ [ ("Error logging interaction: " ++ Page.textOf err)%string ])%list /\
  (exists act',
     activeSession s' = Some act' /\
     questions_attempted act' = questions_attempted act + 1 /\
     questions_correct act' = questions_correct act + (if correct then 1 else 0)) /\
  Page.browser (snd failing) = Api.onRejected err (Page.browser p) /\
  (Api.status err <> Some 401 -> Page.browser (snd failing) = Page.browser p) /\
  (Api.status err = Some 401 ->
   Api.storedToken (Page.browser (snd failing)) = None /\
   Api.location (Page.browser (snd failing)) = "/login").
Proof.
  cbv zeta. intros Ha Hq Hsel _ Hlog.
  rewrite (page_handleAnswerSubmit_accepted be p act cq Ha Hq Hsel), Hlog.
  cbn [fst snd Page.component Page.browser].
  split; [reflexivity|]. split; [reflexivity|]. split.
  { intros working Hworking.
    rewrite (page_handleAnswerSubmit_accepted working p act cq Ha Hq Hsel), Hworking.
    reflexivity. }
  split; [reflexivity|]. split; [reflexivity|]. split.
  { eexists. split; [reflexivity|]. simpl. split; reflexivity. }
  split; [reflexivity|]. unfold Api.onRejected. split.
  - intros Hne. destruct (Api.status err) as [code|]; [|reflexivity].
    destruct (code =? 401) eqn:E; [|reflexivity].
    apply Z.eqb_eq in E. subst code. now contradiction Hne.
  - intros ->. split; reflexivity.
Qed.

(** The third option of the first Algebra question, submitted while the back
    end cannot be reached: one attempt, no error shown, the browser as it
    was. *)
Lemma logging_failure_is_swallowed_witness :
  let be := Scenario.backend (Api.Fulfilled tt) (Api.Rejected Scenario.unreachable) in
  let p := Page.mkState Scenario.optionSelected Scenario.signedIn in
  let out := Page.handleAnswerSubmit be p in
  error (Page.component (snd out)) = "" /\
  option_map questions_attempted (activeSession (Page.component (snd out))) = Some 1 /\
  Page.browser (snd out) = Scenario.signedIn.
Proof.
  cbv zeta.
  assert (Hcount : countsExactly 1 (Scenario.newSessionAfter 0)).
  { unfold countsExactly. simpl. split; apply Z.leb_le; reflexivity. }
  pose proof (logging_failure_is_swallowed
                (Scenario.backend (Api.Fulfilled tt) (Api.Rejected Scenario.unreachable))
                (Page.mkState Scenario.optionSelected Scenario.signedIn)
                Scenario.unreachable (Scenario.newSessionAfter 0) (Scenario.questionAt 0)
                ltac:(vm_compute; reflexivity) ltac:(vm_compute; reflexivity)
                ltac:(vm_compute; discriminate) Hcount ltac:(reflexivity)) as H.
  cbv zeta in H.
  destruct H as (_ & _ & _ & Herr & _ & (act' & Hact & Hqa & _) & _ & Hbrowser & _).
  rewrite Herr, Hact, (Hbrowser ltac:(discriminate)). simpl. rewrite Hqa. repeat split.
Defined.

(** ** The quiz generator *)

Section Generator.

Variable rt : AI.Runtime.
Variable request : AI.QuizGenerationRequest.

Let n := AI.req_numQuestions request.

(** Fuel beyond the number of iterations left changes nothing: the loop has
    ended by its own test. *)
Lemma quizLoop_fuel (fuel fuel' : nat) (i : Z) (acc : list AI.Question) :
  n - i <= Z.of_nat fuel ->
  n - i <= Z.of_nat fuel' ->
  AI.quizLoop rt request fuel i acc = AI.quizLoop rt request fuel' i acc.
Proof.
  revert fuel' i acc.
  induction fuel as [|fuel IH]; intros fuel' i acc Hf Hf'.
  - destruct fuel' as [|fuel']; [reflexivity|]. simpl.
    destruct (i <? AI.req_numQuestions request) eqn:E; [|reflexivity].
    apply Z.ltb_lt in E. unfold n in *. lia.
  - simpl. destruct (i <? AI.req_numQuestions request) eqn:E.
    + apply Z.ltb_lt in E.
      destruct fuel' as [|fuel']; [unfold n in *; lia|]. simpl.
      apply Z.ltb_lt in E. rewrite E.
      destruct (AI.throwsAt rt i); [reflexivity|].
      apply IH; lia.
    + destruct fuel' as [|fuel']; [reflexivity|]. simpl. now rewrite E.
Qed.

(** A loop that ends normally has pushed one question per iteration. *)
Lemma quizLoop_length (fuel : nat) (i : Z) (acc qs : list AI.Question) :
  i <= n ->
  Z.of_nat fuel = n - i ->
  AI.quizLoop rt request fuel i acc = Ok qs ->
  len qs = len acc + (n - i).
Proof.
  revert i acc.
  induction fuel as [|fuel IH]; intros i acc Hi Hf Hrun; simpl in Hrun.
  - injection Hrun as <-. lia.
  - destruct (i <? AI.req_numQuestions request) eqn:E.
    + destruct (AI.throwsAt rt i); [discriminate|].
      apply IH in Hrun; [|unfold n in *; lia ..].
      rewrite Hrun. unfold len. rewrite length_app. simpl. lia.
    + apply Z.ltb_ge in E. unfold n in *. lia.
Qed.

(** Every question of the result was already collected or is built by
    [makeQuestion]. *)
Lemma quizLoop_In (fuel : nat) (i : Z) (acc qs : list AI.Question) (q : AI.Question) :
  AI.quizLoop rt request fuel i acc = Ok qs ->
  In q qs ->
  In q acc \/ exists j, q = AI.makeQuestion rt request j.
Proof.
  revert i acc.
  induction fuel as [|fuel IH]; intros i acc Hrun Hin; simpl in Hrun.
  - injection Hrun as <-. now left.
  - destruct (i <? AI.req_numQuestions request).
    + destruct (AI.throwsAt rt i); [discriminate|].
      destruct (IH _ _ Hrun Hin) as [Hacc | Hmk]; [|now right].
      apply in_app_or in Hacc. destruct Hacc as [Hacc | [<- | []]].
      * now left.
      * right. now exists i.
    + injection Hrun as <-. now left.
Qed.

Lemma generateQuiz_fulfilled :
  exists qs, AI.generateQuiz rt request = Ok qs.
Proof.
  unfold AI.generateQuiz. destruct (AI.tryBody rt request); eauto.
Qed.

Lemma generateQuiz_length (qs : list AI.Question) :
  0 <= n ->
  AI.generateQuiz rt request = Ok qs ->
  len qs = n \/ (exists e, AI.tryBody rt request = Throw e) /\ len qs = 1.
Proof.
  intros Hn. unfold AI.generateQuiz.
  destruct (AI.tryBody rt request) as [qs'|e] eqn:Hbody; intros [= <-].
  - left. unfold AI.tryBody in Hbody.
    apply quizLoop_length in Hbody; fold n; try lia.
    rewrite Hbody. unfold len. simpl. lia.
  - right. split; [eauto | reflexivity].
Qed.

End Generator.

(** No option text of the generator is one of the letters A to D. *)
Lemma generateOptions_no_letter (subject topic : string) (questionNumber : Z) (k : AI.pick) :
  let o := AI.generateOptions subject topic questionNumber in
  forallb (fun text => negb (strictEq text (AI.letterOf k)))
          [ AI.optA o; AI.optB o; AI.optC o; AI.optD o ] = true.
Proof.
  unfold AI.generateOptions, AI.optionSets.
  repeat match goal with
         | |- context [String.eqb subject ?c] => destruct (String.eqb subject c)
         end;
    match goal with
    | |- context [Z.to_nat ?z] => destruct (Z.to_nat z) as [|[|[|m]]]
    end; destruct k; reflexivity.
Qed.

(** For no question of a generated quiz is any of the rendered options equal
    to its [correct_answer]. *)
Lemma generated_quiz_has_no_correct_option
      (rt : AI.Runtime) (request : AI.QuizGenerationRequest)
      (qs : list AI.Question) (q : AI.Question) (text : string) :
  AI.generateQuiz rt request = Ok qs ->
  In q qs ->
  In text (options (convertQuestion q)) ->
  strictEq text (correct_answer (convertQuestion q)) = false.
Proof.
  unfold AI.generateQuiz.
  destruct (AI.tryBody rt request) as [qs'|e] eqn:Hbody; intros [= <-] Hq Htext.
  - unfold AI.tryBody in Hbody.
    destruct (quizLoop_In rt request _ _ _ _ q Hbody Hq) as [[] | [j ->]].
    pose proof (generateOptions_no_letter (AI.req_subject request) (AI.req_topic request)
                  (j + 1) (AI.floorRandom4 rt j)) as Hno.
    cbv zeta in Hno. rewrite forallb_forall in Hno.
    apply negb_true_iff. apply Hno. exact Htext.
  - destruct Hq as [<- | []]. simpl in Htext.
    destruct Htext as [<- | [<- | [<- | [<- | []]]]]; reflexivity.
Qed.

(** ** Creating a session *)

Lemma createNewSession_created (w : World) (s : State) (ai : list AI.Question) :
  generateQuiz w (requestOf s) = Ok ai ->
  createSession w (mkCreateSessionRequest 1 (new_session_type (newSessionData s))) = Ok tt ->
  createNewSession w s = (Ok tt, created w ai s).
Proof.
  intros Hgen Hcreate. run_handler. unfold requestOf in Hgen.
  rewrite Hgen. cbv beta iota zeta. rewrite Hcreate. cbv beta iota zeta.
  unfold created. cbv zeta.
  destruct (0 <? len (map convertQuestion ai)); reflexivity.
Qed.

Lemma createNewSession_generation_failed (w : World) (s : State) (e : string) :
  generateQuiz w (requestOf s) = Throw e ->
  createNewSession w s = (Ok tt, creationFailed s).
Proof.
  intros Hgen. run_handler. unfold requestOf in Hgen.
  rewrite Hgen. reflexivity.
Qed.

Lemma createNewSession_backend_failed (w : World) (s : State) (ai : list AI.Question) (e : string) :
  generateQuiz w (requestOf s) = Ok ai ->
  createSession w (mkCreateSessionRequest 1 (new_session_type (newSessionData s))) = Throw e ->
  createNewSession w s = (Ok tt, creationFailed s).
Proof.
  intros Hgen Hcreate. run_handler. unfold requestOf in Hgen.
  rewrite Hgen. cbv beta iota zeta. rewrite Hcreate. reflexivity.
Qed.

(** The generator of the component always delivers a quiz to
    [createNewSession]: four questions, or the fallback question. *)
Lemma real_generator_answers (w : World) (s : State) :
  usesAiQuizGenerator w ->
  exists ai, generateQuiz w (requestOf s) = Ok ai /\ ai <> [].
Proof.
  intros [rt Hgen].
  destruct (generateQuiz_fulfilled rt (requestOf s)) as [ai Hai].
  exists ai. rewrite Hgen. split; [exact Hai|].
  destruct (generateQuiz_length rt (requestOf s) ai ltac:(simpl; lia) Hai)
    as [Hlen | [_ Hlen]]; intros ->; unfold len in Hlen; simpl in Hlen; lia.
Qed.



(** ** The letter of the generator against the text of the options *)

(** C3.  The first question of the Algebra quiz: the generator designates the
    letter C, the option with key C reads "Chain rule" and is the third
    radio.  Selecting it and submitting is scored as incorrect, the
    comparison being between "Chain rule" and "C": neither side is
    converted. *)
Theorem designated_option_is_scored_wrong :
  (exists q rest,
      AI.generateQuiz Scenario.runtime (AI.mkRequest "Mathematics" "Algebra" half 4)
        = Ok (q :: rest) /\
      AI.correct_answer q = "C" /\
      AI.optC (AI.options q) = "Chain rule" /\
      currentQuestion Scenario.started = Some (convertQuestion q)) /\
  let s' := dispatchAll [ (Scenario.world, SelectAnswer 2); (Scenario.world, ClickSubmit) ]
                        Scenario.started in
  selectedAnswer s' = "Chain rule" /\
  showResults s' = true /\
  isCorrect s' = false /\
  option_map questions_attempted (activeSession s') = Some 1 /\
  option_map questions_correct (activeSession s') = Some 0.
Proof.
  split.
  - eexists. eexists. split; [vm_compute; reflexivity|].
    repeat split.
  - vm_compute. repeat split.
Qed.

(** ** Submitting twice *)

(** In the second component too, Submit Answer is rendered only while no
    result is on display. *)
Lemma simple_clickSubmit_hidden (w : LearningSessionSimple.World) (s : LearningSessionSimple.State) :
  LearningSessionSimple.showResults s = true ->
  LearningSessionSimple.clickSubmit w s = s.
Proof.
  intros Hshow. unfold LearningSessionSimple.clickSubmit, LearningSessionSimple.submitEnabled.
  rewrite Hshow, andb_false_r. reflexivity.
Qed.

Lemma clickSubmit_hidden (w : World) (s : State) :
  showResults s = true -> dispatch w ClickSubmit s = s.
Proof.
  intros Hshow. unfold dispatch, enabled, control. rewrite Hshow. simpl.
  rewrite !andb_false_r. reflexivity.
Qed.

(** An accepted submission puts the result on display. *)
Lemma handleAnswerSubmit_shows_result (w : World) (s : State) :
  enabled ClickSubmit s = true ->
  showResults (after (handleAnswerSubmit w) s) = true.
Proof.
  intros Hen.
  apply enabled_control in Hen. unfold control, sessionView in Hen.
  destruct (activeSession s) as [act|] eqn:Ha; [|discriminate].
  destruct (currentQuestion s) as [cq|] eqn:Hq; [|discriminate].
  simpl in Hen. apply andb_true_iff in Hen. destruct Hen as [_ Hen].
  apply negb_true_iff in Hen.
  assert (Hsel : selectedAnswer s <> "").
  { unfold falsyString in Hen. now apply String.eqb_neq. }
  unfold after. rewrite (handleAnswerSubmit_accepted w s act cq Ha Hq Hsel).
  destruct (logInteraction w _ _) as [[]|e]; reflexivity.
Qed.

(** In the second component the handler either finds no question and does
    nothing, in whatever world, or puts the result on display. *)
Lemma simple_handleAnswerSubmit_shows_result
      (w : LearningSessionSimple.World) (s : LearningSessionSimple.State) :
  LearningSessionSimple.submitEnabled s = true ->
  (forall w', LearningSessionSimple.after (LearningSessionSimple.handleAnswerSubmit w') s = s) \/
  LearningSessionSimple.showResults
    (LearningSessionSimple.after (LearningSessionSimple.handleAnswerSubmit w) s) = true.
Proof.
  intros Hen. unfold LearningSessionSimple.submitEnabled in Hen.
  apply andb_true_iff in Hen. destruct Hen as [_ Hen]. apply negb_true_iff in Hen.
  unfold LearningSessionSimple.handleAnswerSubmit. run_simple.
  destruct (LearningSessionSimple.currentQuestion s) as [cq|]; [|now left].
  destruct (LearningSessionSimple.activeSession s) as [act|]; [|now left].
  rewrite Hen. cbv beta iota zeta. right.
  destruct (LearningSessionSimple.hasAttemptId _);
    [destruct (LearningSessionSimple.submitQuiz w) as [[]|e1]|];
    cbv beta iota zeta;
    (destruct (LearningSessionSimple.hasNumericId w act);
     [destruct (LearningSessionSimple.logInteraction w) as [[]|e2]|]);
    reflexivity.
Qed.

(** C4.  While the result of a question is on display the view renders the
    result card in place of the answer form, so that Submit Answer cannot be
    clicked: the event changes no cell, the two counters included.  A
    submission that the view lets through puts the result on display (closing
    a snackbar does not take it off), so that a second submission, before
    Next Question, changes nothing, whatever the back end answers.  Both
    components. *)
Theorem submit_not_offered_while_showing_result
        (w w' : World) (s : State)
        (w2 w2' : LearningSessionSimple.World) (s2 : LearningSessionSimple.State) :
  (showResults s = true -> dispatch w ClickSubmit s = s) /\
  (LearningSessionSimple.showResults s2 = true ->
   LearningSessionSimple.clickSubmit w2 s2 = s2) /\
  (enabled ClickSubmit s = true ->
   let s1 := after (handleAnswerSubmit w) s in
   showResults s1 = true /\
   showResults (setSuccessMessage "" s1) = true /\
   showResults (setError "" s1) = true /\
   dispatch w' ClickSubmit s1 = s1) /\
  (LearningSessionSimple.submitEnabled s2 = true ->
   let s1 := LearningSessionSimple.after (LearningSessionSimple.handleAnswerSubmit w2) s2 in
   LearningSessionSimple.clickSubmit w2' s1 = s1).
Proof.
  split; [apply clickSubmit_hidden|]. split; [apply simple_clickSubmit_hidden|]. split.
  - intros Hen s1.
    pose proof (handleAnswerSubmit_shows_result w s Hen) as Hshow. fold s1 in Hshow.
    split; [exact Hshow|]. split; [exact Hshow|]. split; [exact Hshow|].
    now apply clickSubmit_hidden.
  - intros Hen s1. unfold s1.
    destruct (simple_handleAnswerSubmit_shows_result w2 s2 Hen) as [E | Hshow].
    + rewrite E. unfold LearningSessionSimple.clickSubmit. rewrite Hen. apply E.
    + now apply simple_clickSubmit_hidden.
Qed.

(** The first answer to the Algebra quiz is counted once, however often
    Submit is tried before Next. *)
Lemma submit_not_offered_while_showing_result_witness :
  option_map questions_attempted (activeSession Scenario.showingResult) = Some 1 /\
  dispatch Scenario.laterWorld ClickSubmit Scenario.showingResult = Scenario.showingResult /\
  LearningSessionSimple.clickSubmit (Scenario.Simple.world [ Scenario.Simple.rawParis ] "2")
    Scenario.Simple.showingResult = Scenario.Simple.showingResult.
Proof.
  destruct (submit_not_offered_while_showing_result
              Scenario.laterWorld Scenario.laterWorld Scenario.showingResult
              (Scenario.Simple.world [ Scenario.Simple.rawParis ] "2")
              (Scenario.Simple.world [ Scenario.Simple.rawParis ] "2")
              Scenario.Simple.showingResult)
    as (H1 & H2 & _).
  split; [vm_compute; reflexivity|].
  split; [apply H1 | apply H2]; vm_compute; reflexivity.
Defined.

(** ** Completing a session *)

Lemma handleNextQuestion_inactive (s : State) :
  activeSession s = None -> handleNextQuestion s = (Ok tt, s).
Proof.
  intros Ha. run_handler. rewrite Ha. reflexivity.
Qed.

(** Advancing from the last question clears the running session and leaves
    the collection, and with it the status of the session, as it is. *)
Lemma handleNextQuestion_last (s : State) act :
  activeSession s = Some act ->
  currentQuestions s <> [] ->
  Scenario.currentIndex s = len (currentQuestions s) - 1 ->
  let s' := after handleNextQuestion s in
  sessions s' = sessions s /\
  activeSession s' = None /\
  currentQuestion s' = None /\
  currentQuestions s' = [] /\
  successMessage s' = "Session completed! Great job!".
Proof.
  intros Ha Hne Hidx. run_handler. rewrite Ha.
  destruct (len (currentQuestions s) =? 0) eqn:E.
  { apply Z.eqb_eq in E. destruct (currentQuestions s); [congruence|].
    unfold len in E. simpl in E. lia. }
  unfold Scenario.currentIndex in Hidx. rewrite Hidx, Z.ltb_irrefl.
  simpl. repeat split.
Qed.

(** [handleNextQuestion] never writes to the collection. *)
Lemma handleNextQuestion_keeps_sessions (s : State) :
  sessions (after handleNextQuestion s) = sessions s.
Proof.
  run_handler. destruct (activeSession s); [|reflexivity].
  destruct (len (currentQuestions s) =? 0); [reflexivity|].
  match goal with
  | |- context [if ?c then _ else _] => destruct c
  end; reflexivity.
Qed.

(** Nor does it in the second component, whatever the back end answers. *)
Lemma simple_handleNextQuestion_keeps_sessions
      (w : LearningSessionSimple.World) (s : LearningSessionSimple.State) :
  LearningSessionSimple.sessions
    (LearningSessionSimple.after (LearningSessionSimple.handleNextQuestion w) s)
  = LearningSessionSimple.sessions s.
Proof.
  unfold LearningSessionSimple.handleNextQuestion. run_simple.
  destruct (LearningSessionSimple.activeSession s); [|reflexivity].
  destruct (len (LearningSessionSimple.currentQuestions s) =? 0); [reflexivity|].
  match goal with
  | |- context [if ?c <? ?d then _ else _] => destruct (c <? d)
  end; [reflexivity|].
  destruct (LearningSessionSimple.hasAttemptId _); [|reflexivity].
  destruct (LearningSessionSimple.submitQuiz w) as [[]|e]; reflexivity.
Qed.

(** Without a running session neither handler does anything. *)
Lemma no_transition_without_session (w : World) (s : State) :
  activeSession s = None ->
  handleAnswerSubmit w s = (Ok tt, s) /\ handleNextQuestion s = (Ok tt, s).
Proof.
  intros Ha. split.
  - apply handleAnswerSubmit_rejected. now left.
  - now apply handleNextQuestion_inactive.
Qed.

(** The scenario of two questions, the first answered correctly and the
    second not: two attempts, one correct answer, an accuracy of 50, and a
    session that is listed as "active" after its last question. *)
Lemma two_questions_one_correct :
  activeSession Scenario.twoQuestionsAnswered = None /\
  map (fun x => (questions_attempted x, questions_correct x, accuracy_rate x, status x))
      (sessions Scenario.twoQuestionsAnswered)
  = [ (2, 1, ofZ 50, "active") ].
Proof.
  vm_compute. split; reflexivity.
Qed.

(** C5.  The Algebra quiz answered to the end and Complete Session clicked:
    no session is running any more and further calls of the submit and
    advance handlers change nothing, but the session is still listed with
    status "active" and its card still offers Continue; the unused handler
    [completeSession] is the one that writes "completed". *)
Theorem completed_session_stays_active :
  let s := Scenario.finished in
  activeSession s = None /\
  successMessage s = "Session completed! Great job!" /\
  option_map status (findSession 1762041600000 (sessions s)) = Some "active" /\
  option_map questions_attempted (findSession 1762041600000 (sessions s)) = Some 4 /\
  enabled (ClickResume 0) s = true /\
  handleAnswerSubmit Scenario.world s = (Ok tt, s) /\
  handleNextQuestion s = (Ok tt, s) /\
  (let s4 := dispatchAll (Scenario.answer 0 ++ Scenario.answer 1 ++ Scenario.answer 2
                          ++ [ (Scenario.world, SelectAnswer 3); (Scenario.world, ClickSubmit) ])
                         Scenario.started in
   dispatch Scenario.world ClickNext s4 = s /\
   option_map status (findSession 1762041600000 (sessions (after completeSession s4)))
   = Some "completed").
Proof.
  vm_compute. repeat split.
Qed.

(** ** Pausing and resuming *)

Lemma pauseSession_active (s : State) act :
  activeSession s = Some act ->
  pauseSession s = (Ok tt, paused act s).
Proof.
  intros Ha. run_handler. rewrite Ha. reflexivity.
Qed.

Lemma startSession_generated (w : World) (s : State) session ai :
  generateQuiz w (quizRequestFor (subject_area session) (topic session)) = Ok ai ->
  startSession w session s = (Ok tt, resumed session ai s).
Proof.
  intros Hgen. run_handler. rewrite Hgen. reflexivity.
Qed.

(** The first question of a list is found at position 0. *)
Lemma findIndex_head (q : Question) (qs : list Question) :
  findIndex (fun x => strictEq (qid x) (qid q)) (q :: qs) = 0.
Proof.
  unfold findIndex, strictEq. simpl. now rewrite String.eqb_refl.
Qed.

(** The paused and resumed Algebra quiz: the third question was on display,
    two attempts were counted; after resuming, the two attempts are still
    counted but the first question of a new list is on display. *)
Lemma resume_restarts_at_first_question :
  len (currentQuestions Scenario.twoAnswered) = 4 /\
  option_map questions_attempted (activeSession Scenario.twoAnswered) = Some 2 /\
  Scenario.currentIndex Scenario.twoAnswered = 2 /\
  option_map questions_attempted (activeSession Scenario.pausedAndResumed) = Some 2 /\
  Scenario.currentIndex Scenario.pausedAndResumed = 0 /\
  Scenario.currentIndex Scenario.pausedAndResumed <> 2 /\
  option_map qid (index (currentQuestions Scenario.twoAnswered) 2) = Some "q_1762041600000_2" /\
  option_map qid (currentQuestion Scenario.pausedAndResumed) = Some "q_1762041660000_0".
Proof.
  vm_compute. repeat split. discriminate.
Qed.

(** C8, as the code has it.  Pausing a running session and resuming it from
    its card keeps [questions_attempted] and [questions_correct] (and leaves
    the status at "paused"), but asks the generator for a new list of
    questions and puts its first question, at index 0, on display, whatever
    the index was before. *)
Theorem pause_resume_keeps_counters_restarts_quiz
        (w1 w2 : World) (s : State) act cq (k : nat) x ai :
  activeSession s = Some act ->
  currentQuestion s = Some cq ->
  showResults s = false ->
  loading s = false ->
  nth_error (sessions s) k = Some x ->
  sid x = sid act ->
  generateQuiz w2 (quizRequestFor (subject_area act) (topic act)) = Ok ai ->
  ai <> [] ->
  let s' := dispatch w2 (ClickResume k) (dispatch w1 ClickPause s) in
  activeSession s' = Some (withStatus "paused" act) /\
  option_map questions_attempted (activeSession s') = Some (questions_attempted act) /\
  option_map questions_correct (activeSession s') = Some (questions_correct act) /\
  currentQuestions s' = map convertQuestion ai /\
  currentQuestion s' = index (currentQuestions s') 0 /\
  Scenario.currentIndex s' = 0 /\
  selectedAnswer s' = "" /\
  showResults s' = false.
Proof.
  intros Ha Hq Hshow Hload Hk Hid Hgen Hne s'.
  assert (Hpause : dispatch w1 ClickPause s = paused act s).
  { unfold dispatch, enabled, spinner, control, sessionView. rewrite Ha, Hq, Hshow, Hload. simpl.
    unfold after. now rewrite (pauseSession_active s act Ha). }
  assert (Hcard : nth_error (sessions (paused act s)) k = Some (withStatus "paused" act)).
  { simpl. rewrite nth_error_map, Hk. simpl. rewrite Hid, Z.eqb_refl. reflexivity. }
  assert (Hs' : s' = resumed (withStatus "paused" act) ai (paused act s)).
  { unfold s'. rewrite Hpause. unfold dispatch.
    assert (Hen : enabled (ClickResume k) (paused act s) = true).
    { unfold enabled, spinner, control. rewrite Hcard. simpl. rewrite Hload. reflexivity. }
    rewrite Hen. unfold after, handler, bind, snapshot. rewrite Hcard.
    now rewrite (startSession_generated w2 _ (withStatus "paused" act) ai Hgen). }
  rewrite Hs'. destruct ai as [|q ai]; [congruence|].
  simpl. repeat split.
  unfold Scenario.currentIndex. simpl. apply findIndex_head.
Qed.

Lemma pause_resume_keeps_counters_restarts_quiz_witness :
  option_map questions_attempted (activeSession Scenario.pausedAndResumed) = Some 2 /\
  Scenario.currentIndex Scenario.pausedAndResumed = 0.
Proof.
  destruct (pause_resume_keeps_counters_restarts_quiz
              Scenario.world Scenario.laterWorld Scenario.twoAnswered
              (Scenario.newSessionAfter 2) (Scenario.questionAt 2) 0
              (Scenario.newSessionAfter 2)
              (Scenario.generated Scenario.laterRuntime)
              ltac:(vm_compute; reflexivity) ltac:(vm_compute; reflexivity)
              ltac:(vm_compute; reflexivity) ltac:(vm_compute; reflexivity)
              ltac:(vm_compute; reflexivity) ltac:(vm_compute; reflexivity)
              ltac:(vm_compute; reflexivity) ltac:(vm_compute; discriminate))
    as (_ & Hqa & _ & _ & _ & Hidx & _).
  split; [exact Hqa | exact Hidx].
Defined.

(** ** The collection of sessions *)

Lemma len_zero_iff {A : Type} (l : list A) : (len l =? 0) = true <-> l = [].
Proof.
  unfold len. destruct l; simpl; split; intros H; try reflexivity; try discriminate.
Qed.

(** The second component, quiz branch, with questions delivered. *)
Lemma simple_create_quiz
      (w : LearningSessionSimple.World) (s : LearningSessionSimple.State)
      (d : LearningSessionSimple.QuizData) :
  strictEq (LearningSessionSimple.new_session_type (LearningSessionSimple.newSessionData s))
           "lesson" = false ->
  LearningSessionSimple.generateQuiz w = Ok d ->
  LearningSessionSimple.questionsDataOf d <> [] ->
  let out := LearningSessionSimple.createNewSession w s in
  fst out = Ok tt /\
  exists new,
    LearningSessionSimple.sessions (snd out) = new :: LearningSessionSimple.sessions s /\
    LearningSessionSimple.activeSession (snd out) = Some new /\
    LearningSessionSimple.sid new = simpleQuizId w /\
    LearningSessionSimple.status new = "active" /\
    LearningSessionSimple.questions_attempted new = Some 0 /\
    LearningSessionSimple.error (snd out) = LearningSessionSimple.error s.
Proof.
  intros Htype Hgen Hne. run_simple. rewrite Htype, Hgen. cbv beta iota zeta.
  destruct (len (LearningSessionSimple.questionsDataOf d) =? 0) eqn:E.
  { apply len_zero_iff in E. contradiction. }
  unfold simpleQuizId.
  destruct (LearningSessionSimple.createSession w) as [responseId|e]; cbv beta iota zeta;
    destruct (0 <? len (LearningSessionSimple.convertQuestions
                          (LearningSessionSimple.questionsDataOf d)));
    simpl; (split; [reflexivity|]); eexists; repeat split.
Qed.

(** The second component when content generation fails. *)
Lemma simple_create_fails
      (w : LearningSessionSimple.World) (s : LearningSessionSimple.State) :
  simpleGenerationFails w s ->
  let out := LearningSessionSimple.createNewSession w s in
  fst out = Ok tt /\
  LearningSessionSimple.sessions (snd out) = LearningSessionSimple.sessions s /\
  LearningSessionSimple.activeSession (snd out) = LearningSessionSimple.activeSession s /\
  LearningSessionSimple.currentQuestions (snd out) = LearningSessionSimple.currentQuestions s /\
  LearningSessionSimple.currentQuestion (snd out) = LearningSessionSimple.currentQuestion s /\
  LearningSessionSimple.error (snd out) = "Failed to create AI-powered learning session".
Proof.
  unfold simpleGenerationFails. intros Hfail. run_simple.
  destruct (strictEq _ "lesson").
  - destruct Hfail as [e He]. rewrite He. simpl. repeat split.
  - destruct Hfail as [[e He] | (d & Hd & Hempty)].
    + rewrite He. simpl. repeat split.
    + rewrite Hd. cbv beta iota zeta. rewrite Hempty. simpl. repeat split.
Qed.

(** A new session whose id is already in the collection is added all the
    same: in the second component the back end names the new session "1",
    the id of the demo session; in the first one two sessions are created
    at the same reading of the clock. *)
Lemma same_id_is_added_twice :
  (let s' := LearningSessionSimple.after
               (LearningSessionSimple.createNewSession
                  (Scenario.Simple.world [ Scenario.Simple.rawParis ] "1"))
               Scenario.Simple.mounted in
   map LearningSessionSimple.sid (LearningSessionSimple.sessions Scenario.Simple.mounted)
   = [ "1" ] /\
   map LearningSessionSimple.sid (LearningSessionSimple.sessions s') = [ "1"; "1" ] /\
   LearningSessionSimple.sessions s' <> LearningSessionSimple.sessions Scenario.Simple.mounted) /\
  map sid (sessions Scenario.started) = [ 1762041600000; 1 ] /\
  map sid (sessions Scenario.createdTwice) = [ 1762041600000; 1762041600000; 1 ] /\
  sessions Scenario.createdTwice <> sessions Scenario.started.
Proof.
  vm_compute. repeat split; discriminate.
Qed.

(** C9, as the code has it.  A successfully created session is put at the
    head of the collection, in front of the sessions that were there, and is
    the session found under its id; this is so whether or not its id is
    already in use, the collection growing by one in every case.  Both
    components. *)
Theorem addSession_always_prepends
        (w : World) (s : State) (ai : list AI.Question)
        (w2 : LearningSessionSimple.World) (s2 : LearningSessionSimple.State)
        (d : LearningSessionSimple.QuizData) :
  generateQuiz w (requestOf s) = Ok ai ->
  createSession w (mkCreateSessionRequest 1 (new_session_type (newSessionData s))) = Ok tt ->
  strictEq (LearningSessionSimple.new_session_type (LearningSessionSimple.newSessionData s2))
           "lesson" = false ->
  LearningSessionSimple.generateQuiz w2 = Ok d ->
  LearningSessionSimple.questionsDataOf d <> [] ->
  let s' := after (createNewSession w) s in
  let s2' := LearningSessionSimple.after (LearningSessionSimple.createNewSession w2) s2 in
  sessions s' = newSessionOf w s :: sessions s /\
  sid (newSessionOf w s) = dateNow w /\
  findSession (dateNow w) (sessions s') = Some (newSessionOf w s) /\
  length (sessions s') = S (length (sessions s)) /\
  exists new,
    LearningSessionSimple.sessions s2' = new :: LearningSessionSimple.sessions s2 /\
    LearningSessionSimple.sid new = simpleQuizId w2 /\
    find (fun x => strictEq (LearningSessionSimple.sid x) (simpleQuizId w2))
         (LearningSessionSimple.sessions s2') = Some new /\
    length (LearningSessionSimple.sessions s2') = S (length (LearningSessionSimple.sessions s2)).
Proof.
  intros Hgen Hcreate Htype Hgen2 Hne s' s2'.
  assert (Hs : sessions s' = newSessionOf w s :: sessions s).
  { unfold s', after. rewrite (createNewSession_created w s ai Hgen Hcreate).
    unfold created. cbv zeta. destruct (0 <? len (map convertQuestion ai)); reflexivity. }
  rewrite Hs. split; [reflexivity|]. split; [reflexivity|]. split.
  { unfold findSession. simpl. now rewrite Z.eqb_refl. }
  split; [reflexivity|].
  destruct (simple_create_quiz w2 s2 d Htype Hgen2 Hne) as (_ & new & Hsess & _ & Hsid & _).
  exists new. unfold s2', LearningSessionSimple.after. rewrite Hsess.
  split; [reflexivity|]. split; [exact Hsid|]. split; [|reflexivity].
  simpl. rewrite Hsid. unfold strictEq. now rewrite String.eqb_refl.
Qed.

Lemma addSession_always_prepends_witness :
  map sid (sessions (after (createNewSession Scenario.world) Scenario.dialogFilled))
  = [ 1762041600000; 1 ] /\
  length (LearningSessionSimple.sessions
            (LearningSessionSimple.after
               (LearningSessionSimple.createNewSession
                  (Scenario.Simple.world [ Scenario.Simple.rawParis ] "1"))
               Scenario.Simple.mounted)) = 2%nat.
Proof.
  destruct (addSession_always_prepends
              Scenario.world Scenario.dialogFilled (Scenario.generated Scenario.runtime)
              (Scenario.Simple.world [ Scenario.Simple.rawParis ] "1") Scenario.Simple.mounted
              (LearningSessionSimple.mkQuizData
                 (Some (LearningSessionSimple.mkQuizPayload (Some [ Scenario.Simple.rawParis ])))
                 None)
              ltac:(vm_compute; reflexivity) ltac:(reflexivity) ltac:(reflexivity)
              ltac:(reflexivity) ltac:(discriminate))
    as (Hs & _ & _ & _ & new & _ & _ & _ & Hlen).
  split.
  - rewrite Hs. reflexivity.
  - exact Hlen.
Defined.

(** ** Failing content generation *)

(** C6.  In the second component, whose content comes from the back end:
    when the request for the lesson or the quiz is rejected, or the quiz
    arrives without a question, [createNewSession] completes normally, the
    collection, the running session and the questions are what they were,
    and the failure is reported in the [error] cell.  In the first component
    the content comes from [aiQuizGenerator], whose promise is never
    rejected and never delivers an empty list: its [createNewSession] meets
    no failing content generation. *)
Theorem failed_generation_adds_no_session
        (w2 : LearningSessionSimple.World) (s2 : LearningSessionSimple.State)
        (w : World) (s : State) :
  simpleGenerationFails w2 s2 ->
  usesAiQuizGenerator w ->
  let out2 := LearningSessionSimple.createNewSession w2 s2 in
  (fst out2 = Ok tt /\
   LearningSessionSimple.sessions (snd out2) = LearningSessionSimple.sessions s2 /\
   LearningSessionSimple.activeSession (snd out2) = LearningSessionSimple.activeSession s2 /\
   LearningSessionSimple.currentQuestions (snd out2) = LearningSessionSimple.currentQuestions s2 /\
   LearningSessionSimple.currentQuestion (snd out2) = LearningSessionSimple.currentQuestion s2 /\
   LearningSessionSimple.error (snd out2) = "Failed to create AI-powered learning session") /\
  (exists ai, generateQuiz w (requestOf s) = Ok ai /\ ai <> []).
Proof.
  intros Hfail Hw out2. split.
  - apply simple_create_fails. exact Hfail.
  - exact (real_generator_answers w s Hw).
Qed.

(** The back end delivers a quiz without questions; the generator of the
    first component delivers its four. *)
Lemma failed_generation_adds_no_session_witness :
  LearningSessionSimple.sessions
    (snd (LearningSessionSimple.createNewSession (Scenario.Simple.world [] "2")
            Scenario.Simple.mounted))
  = [ Scenario.Simple.demoSession ] /\
  LearningSessionSimple.error
    (snd (LearningSessionSimple.createNewSession (Scenario.Simple.world [] "2")
            Scenario.Simple.mounted))
  = "Failed to create AI-powered learning session" /\
  exists ai, generateQuiz Scenario.world (requestOf Scenario.dialogFilled) = Ok ai /\ ai <> [].
Proof.
  destruct (failed_generation_adds_no_session
              (Scenario.Simple.world [] "2") Scenario.Simple.mounted
              Scenario.world Scenario.dialogFilled
              ltac:(right; eexists; split; reflexivity)
              ltac:(exists Scenario.runtime; reflexivity))
    as ((_ & Hs2 & _ & _ & _ & Herr) & Hgen).
  split; [rewrite Hs2; reflexivity|]. split; [exact Herr | exact Hgen].
Defined.

(** ** The ids of a generated quiz *)

Lemma hasUnderscore_digits (d : Decimal.uint) :
  hasUnderscore (NilEmpty.string_of_uint d) = false.
Proof.
  induction d; simpl; auto.
Qed.

Lemma hasUnderscore_showZ (z : Z) : hasUnderscore (AI.showZ z) = false.
Proof.
  unfold AI.showZ, NilZero.string_of_int, NilZero.string_of_uint.
  destruct (Z.to_int z) as [d|d]; destruct d; simpl; auto using hasUnderscore_digits.
Qed.

Lemma hasUnderscore_append (prefix v : string) :
  hasUnderscore (prefix ++ String "_"%char v) = true.
Proof.
  induction prefix as [|c prefix IH]; simpl; [reflexivity|].
  rewrite IH. apply orb_true_r.
Qed.

Lemma lastSegment_append (prefix v : string) :
  hasUnderscore v = false ->
  lastSegment (prefix ++ String "_"%char v) = v.
Proof.
  intros Hv. induction prefix as [|c prefix IH]; simpl.
  - now rewrite Hv.
  - now rewrite hasUnderscore_append.
Qed.

Lemma to_int_not_nil (z : Z) : Z.to_int z <> Decimal.Pos Decimal.Nil /\ Z.to_int z <> Decimal.Neg Decimal.Nil.
Proof.
  destruct z as [|p|p]; simpl; split; try discriminate;
    intros [= H]; now apply (DecimalPos.Unsigned.to_uint_nonnil p).
Qed.

Lemma showZ_inj (a b : Z) : AI.showZ a = AI.showZ b -> a = b.
Proof.
  unfold AI.showZ. intros E.
  apply DecimalZ.to_int_inj.
  destruct (to_int_not_nil a) as [Ha1 Ha2], (to_int_not_nil b) as [Hb1 Hb2].
  pose proof (NilZero.isi _ Ha1 Ha2) as Ia.
  pose proof (NilZero.isi _ Hb1 Hb2) as Ib.
  rewrite E in Ia. congruence.
Qed.

(** The id of a generated question determines the index of its iteration. *)
Lemma makeQuestion_id_inj (rt : AI.Runtime) (request : AI.QuizGenerationRequest) (i j : Z) :
  AI.id (AI.makeQuestion rt request i) = AI.id (AI.makeQuestion rt request j) -> i = j.
Proof.
  simpl. intros [= E].
  apply showZ_inj.
  rewrite <- (lastSegment_append (AI.showZ (AI.dateNow rt i)) (AI.showZ i))
    by apply hasUnderscore_showZ.
  rewrite <- (lastSegment_append (AI.showZ (AI.dateNow rt j)) (AI.showZ j))
    by apply hasUnderscore_showZ.
  now rewrite E.
Qed.

Lemma quizLoop_shape (rt : AI.Runtime) (request : AI.QuizGenerationRequest)
      (fuel : nat) (i : Z) (acc qs : list AI.Question) :
  AI.quizLoop rt request fuel i acc = Ok qs ->
  exists m : nat,
    qs = (acc ++ map (fun k => AI.makeQuestion rt request (i + Z.of_nat k)) (seq 0 m))%list.
Proof.
  revert i acc.
  induction fuel as [|fuel IH]; intros i acc Hrun; simpl in Hrun.
  - injection Hrun as <-. exists 0%nat. simpl. now rewrite app_nil_r.
  - destruct (i <? AI.req_numQuestions request).
    + destruct (AI.throwsAt rt i); [discriminate|].
      destruct (IH _ _ Hrun) as [m ->]. exists (S m).
      rewrite <- app_assoc. f_equal. simpl. rewrite Z.add_0_r. f_equal.
      rewrite <- seq_shift, map_map.
      apply map_ext. intros k. f_equal. lia.
    + injection Hrun as <-. exists 0%nat. simpl. now rewrite app_nil_r.
Qed.

(** The ids of one generated quiz are pairwise distinct, whatever the clock
    shows from one iteration to the next. *)
Lemma generateQuiz_distinct_ids (rt : AI.Runtime) (request : AI.QuizGenerationRequest)
      (qs : list AI.Question) :
  AI.generateQuiz rt request = Ok qs -> NoDup (map AI.id qs).
Proof.
  unfold AI.generateQuiz.
  destruct (AI.tryBody rt request) as [qs'|e] eqn:Hbody; intros [= <-].
  - unfold AI.tryBody in Hbody. apply quizLoop_shape in Hbody. destruct Hbody as [m ->].
    simpl. rewrite map_map.
    apply Finite.Injective_map_NoDup; [|apply seq_NoDup].
    intros a b E. apply makeQuestion_id_inj in E. lia.
  - simpl. constructor; [intros []|constructor].
Qed.

Lemma real_generator_distinctIds (rt : AI.Runtime) (w : World) :
  (forall r, generateQuiz w r = AI.generateQuiz rt r) -> distinctIds w.
Proof.
  intros Hw r qs Hqs. rewrite Hw in Hqs. now apply generateQuiz_distinct_ids in Hqs.
Qed.

(** ** The invariant of the progression *)

(** With distinct ids, [findIndex] by id finds the position of the question
    on display. *)
Lemma findIndexFrom_nth (qs : list Question) (i : nat) (cq : Question) (k : Z) :
  NoDup (map qid qs) ->
  nth_error qs i = Some cq ->
  findIndexFrom (fun q => strictEq (qid q) (qid cq)) qs k = k + Z.of_nat i.
Proof.
  revert i k. induction qs as [|x qs IH]; intros i k Hnd Hi.
  - destruct i; discriminate.
  - simpl in Hnd. inversion Hnd as [|? ? Hnotin Hnd']; subst.
    destruct i as [|i]; simpl in Hi |- *.
    + injection Hi as ->. unfold strictEq. rewrite String.eqb_refl. lia.
    + assert (Hne : strictEq (qid x) (qid cq) = false).
      { unfold strictEq. apply String.eqb_neq. intros E. apply Hnotin. rewrite E.
        apply in_map. eapply nth_error_In. exact Hi. }
      rewrite Hne, (IH i (k + 1) Hnd' Hi). lia.
Qed.

Lemma index_nth_error {A : Type} (l : list A) (i : nat) :
  index l (Z.of_nat i) = nth_error l i.
Proof.
  unfold index. destruct (Z.of_nat i <? 0) eqn:E; [apply Z.ltb_lt in E; lia|].
  now rewrite Nat2Z.id.
Qed.

Lemma progressInv_bound (s : State) act :
  progressInv s ->
  activeSession s = Some act ->
  0 <= questions_correct act <= questions_attempted act /\
  questions_attempted act <= len (currentQuestions s).
Proof.
  intros (_ & _ & Hinv) Ha. rewrite Ha in Hinv. destruct Hinv as [Hc Hpos].
  split; [exact Hc|].
  destruct (currentQuestion s) as [cq|]; [|exact Hpos].
  destruct Hpos as (i & Hi & Hle).
  assert (Hlt : (i < length (currentQuestions s))%nat).
  { apply nth_error_Some. congruence. }
  unfold len. destruct (showResults s); lia.
Qed.

Lemma progressInv_handleNextQuestion (s : State) :
  progressInv s ->
  enabled ClickNext s = true ->
  progressInv (after handleNextQuestion s).
Proof.
  intros (Hnd & Hdlg & Hinv) Hen.
  apply enabled_control in Hen. unfold control, sessionView in Hen.
  destruct (activeSession s) as [act|] eqn:Ha; [|discriminate].
  destruct (currentQuestion s) as [cq|] eqn:Hq; [|discriminate].
  simpl in Hen. destruct (showResults s) eqn:Hshow; [|discriminate].
  destruct Hinv as (Hc & i & Hi & Hle).
  run_handler. rewrite Ha, Hq.
  destruct (len (currentQuestions s) =? 0) eqn:E.
  { apply len_zero_iff in E. rewrite E in Hi. destruct i; discriminate. }
  unfold findIndex. rewrite (findIndexFrom_nth _ i cq 0 Hnd Hi). rewrite Z.add_0_l.
  destruct (Z.of_nat i <? len (currentQuestions s) - 1) eqn:Hlast.
  - apply Z.ltb_lt in Hlast. unfold len in Hlast.
    replace (Z.of_nat i + 1) with (Z.of_nat (S i)) by lia.
    rewrite index_nth_error.
    destruct (nth_error (currentQuestions s) (S i)) as [next|] eqn:Hnext.
    2:{ apply nth_error_None in Hnext. lia. }
    unfold progressInv, sessionView. simpl. rewrite Ha. simpl.
    split; [exact Hnd|]. split.
    { intros Hopen. specialize (Hdlg Hopen). unfold sessionView in Hdlg.
      rewrite Ha, Hq in Hdlg. discriminate. }
    split; [exact Hc|]. exists (S i). split; [exact Hnext | lia].
  - unfold progressInv, sessionView. simpl.
    split; [constructor|]. split; [reflexivity|reflexivity].
Qed.

Lemma progressInv_handleAnswerSubmit (w : World) (s : State) :
  progressInv s ->
  enabled ClickSubmit s = true ->
  progressInv (after (handleAnswerSubmit w) s).
Proof.
  intros (Hnd & Hdlg & Hinv) Hen.
  apply enabled_control in Hen. unfold control, sessionView in Hen.
  destruct (activeSession s) as [act|] eqn:Ha; [|discriminate].
  destruct (currentQuestion s) as [cq|] eqn:Hq; [|discriminate].
  simpl in Hen. destruct (showResults s) eqn:Hshow; [discriminate|].
  simpl in Hen. apply negb_true_iff in Hen.
  assert (Hsel : selectedAnswer s <> "").
  { unfold falsyString in Hen. now apply String.eqb_neq. }
  destruct Hinv as (Hc & i & Hi & Hle).
  unfold after. rewrite (handleAnswerSubmit_accepted w s act cq Ha Hq Hsel).
  assert (Hscored : progressInv (scored act cq s)).
  { unfold progressInv, sessionView, countersOk in *. simpl. rewrite Hq.
    split; [exact Hnd|]. split.
    { intros Hopen. specialize (Hdlg Hopen). rewrite Ha, Hq in Hdlg. discriminate. }
    split.
    - destruct (strictEq (selectedAnswer s) (correct_answer cq)); lia.
    - exists i. split; [exact Hi | lia]. }
  destruct (logInteraction w _ _) as [[]|e]; exact Hscored.
Qed.

Lemma progressInv_createNewSession (w : World) (s : State) :
  distinctIds w ->
  progressInv s ->
  enabled ClickCreate s = true ->
  progressInv (after (createNewSession w) s).
Proof.
  intros Hw (Hnd & Hdlg & Hinv) Hen.
  assert (Hopen : createDialogOpen s = true).
  { apply enabled_control in Hen. unfold control in Hen. now destruct (createDialogOpen s). }
  specialize (Hdlg Hopen).
  assert (Hfailed : progressInv (creationFailed s)).
  { unfold progressInv, sessionView in *. simpl. auto. }
  unfold after.
  destruct (generateQuiz w (requestOf s)) as [ai|e] eqn:Hgen.
  2:{ now rewrite (createNewSession_generation_failed w s e Hgen). }
  destruct (createSession w (mkCreateSessionRequest 1 (new_session_type (newSessionData s))))
    as [[]|e] eqn:Hcreate.
  2:{ now rewrite (createNewSession_backend_failed w s ai e Hgen Hcreate). }
  rewrite (createNewSession_created w s ai Hgen Hcreate). simpl.
  assert (Hids : NoDup (map qid (map convertQuestion ai))).
  { rewrite map_map. simpl. exact (Hw _ _ Hgen). }
  unfold created. cbv zeta.
  destruct ai as [|q ai]; unfold progressInv, sessionView, countersOk; simpl.
  - split; [constructor|]. split; [discriminate|].
    split; [lia|].
    unfold sessionView in Hdlg.
    destruct (activeSession s) as [act|].
    + destruct (currentQuestion s); [discriminate | unfold len; simpl; lia].
    + rewrite Hinv. unfold len. simpl. lia.
  - split; [exact Hids|]. split; [discriminate|].
    split; [lia|]. exists 0%nat. split; [reflexivity|].
    destruct (showResults s); lia.
Qed.

(** Every event but Resume keeps the invariant. *)
Lemma progressInv_dispatch (w : World) (ev : Event) (s : State) :
  distinctIds w ->
  isResume ev = false ->
  progressInv s ->
  progressInv (dispatch w ev s).
Proof.
  intros Hw Hev Hinv. unfold dispatch.
  destruct (enabled ev s) eqn:Hen; [|exact Hinv].
  destruct ev; try discriminate.
  - (* SelectAnswer *)
    unfold after, handler, bind, snapshot.
    destruct (currentQuestion s) as [cq|] eqn:Hq; [|exact Hinv].
    destruct (nth_error (options cq) k); [|exact Hinv].
    destruct Hinv as (Hnd & Hdlg & Hpos).
    unfold progressInv, sessionView in *. simpl. rewrite Hq. rewrite Hq in Hpos, Hdlg. auto.
  - now apply progressInv_handleAnswerSubmit.
  - (* ClickPause *)
    apply enabled_control in Hen. unfold control, sessionView in Hen.
    destruct (activeSession s) as [act|] eqn:Ha; [|discriminate].
    simpl handler. unfold after. rewrite (pauseSession_active s act Ha).
    destruct Hinv as (Hnd & _ & _).
    unfold progressInv, sessionView. simpl. auto.
  - now apply progressInv_handleNextQuestion.
  - (* ClickNewSession *)
    destruct Hinv as (Hnd & Hdlg & Hpos).
    apply enabled_control in Hen. unfold control in Hen. apply negb_true_iff in Hen.
    unfold progressInv, sessionView in *. simpl. auto.
  - destruct Hinv as (Hnd & Hdlg & Hpos). unfold progressInv, sessionView in *. simpl. auto.
  - destruct Hinv as (Hnd & Hdlg & Hpos). unfold progressInv, sessionView in *. simpl. auto.
  - destruct Hinv as (Hnd & Hdlg & Hpos). unfold progressInv, sessionView in *. simpl. auto.
  - destruct Hinv as (Hnd & Hdlg & Hpos). unfold progressInv, sessionView in *. simpl.
    split; [exact Hnd|]. split; [discriminate|exact Hpos].
  - now apply progressInv_createNewSession.
  - destruct Hinv as (Hnd & Hdlg & Hpos). unfold progressInv, sessionView in *. simpl. auto.
  - destruct Hinv as (Hnd & Hdlg & Hpos). unfold progressInv, sessionView in *. simpl. auto.
Qed.

Lemma progressInv_dispatchAll (trace : list (World * Event)) (s : State) :
  Forall (fun step => distinctIds (fst step) /\ isResume (snd step) = false) trace ->
  progressInv s ->
  progressInv (dispatchAll trace s).
Proof.
  revert s. induction trace as [|[w ev] trace IH]; intros s Htrace Hinv; simpl.
  - exact Hinv.
  - inversion Htrace as [|? ? [Hw Hev] Htrace']; subst. simpl in Hw, Hev.
    apply IH; [exact Htrace'|]. now apply progressInv_dispatch.
Qed.

(** ** The counters of every session *)

Lemma startSession_failed (w : World) (s : State) session e :
  generateQuiz w (quizRequestFor (subject_area session) (topic session)) = Throw e ->
  startSession w session s = (Ok tt, resumeFailed e s).
Proof.
  intros Hgen. run_handler. rewrite Hgen. reflexivity.
Qed.

Lemma Forall_map_replace (f : LearningSessionData -> bool) (new : LearningSessionData)
      (l : list LearningSessionData) :
  countersOk new ->
  Forall countersOk l ->
  Forall countersOk (map (fun x => if f x then new else x) l).
Proof.
  intros Hnew Hl. induction Hl as [|x l Hx Hl IH]; simpl; constructor; auto.
  destruct (f x); assumption.
Qed.

(** No event, Resume included, lets [questions_correct] overtake
    [questions_attempted]. *)
Lemma allCountersOk_dispatch (w : World) (ev : Event) (s : State) :
  allCountersOk s -> allCountersOk (dispatch w ev s).
Proof.
  intros [Hsess Hact]. unfold dispatch.
  destruct (enabled ev s) eqn:Hen; [|split; assumption].
  destruct ev; simpl handler;
    try (split; [exact Hsess | exact Hact]).
  - (* SelectAnswer *)
    unfold after, bind, snapshot.
    destruct (currentQuestion s) as [cq|]; [|split; assumption].
    destruct (nth_error (options cq) k); split; assumption.
  - (* ClickSubmit *)
    apply enabled_control in Hen. unfold control, sessionView in Hen.
    destruct (activeSession s) as [act|] eqn:Ha; [|discriminate].
    destruct (currentQuestion s) as [cq|] eqn:Hq; [|discriminate].
    simpl in Hen. destruct (showResults s); [discriminate|]. simpl in Hen.
    apply negb_true_iff in Hen.
    assert (Hsel : selectedAnswer s <> "").
    { unfold falsyString in Hen. now apply String.eqb_neq. }
    unfold after. rewrite (handleAnswerSubmit_accepted w s act cq Ha Hq Hsel).
    pose proof (Hact act eq_refl) as Hc. unfold countersOk in Hc.
    assert (Hnew : allCountersOk (scored act cq s)).
    { unfold allCountersOk, scored. cbv zeta. simpl. split.
      - apply Forall_map_replace; [|exact Hsess].
        unfold countersOk. simpl.
        destruct (strictEq (selectedAnswer s) (correct_answer cq)); lia.
      - intros act' [= <-]. unfold countersOk. simpl.
        destruct (strictEq (selectedAnswer s) (correct_answer cq)); lia. }
    destruct (logInteraction w _ _) as [[]|e]; exact Hnew.
  - (* ClickPause *)
    apply enabled_control in Hen. unfold control, sessionView in Hen.
    destruct (activeSession s) as [act|] eqn:Ha; [|discriminate].
    unfold after. rewrite (pauseSession_active s act Ha).
    unfold allCountersOk, paused. simpl. split; [|discriminate].
    apply Forall_map_replace; [|exact Hsess].
    exact (Hact act eq_refl).
  - (* ClickNext *)
    unfold after. run_handler.
    destruct (activeSession s) as [act|] eqn:Ha; [|split; [exact Hsess | now rewrite Ha]].
    destruct (len (currentQuestions s) =? 0); [split; [exact Hsess | now rewrite Ha]|].
    match goal with
    | |- context [if ?c then _ else _] => destruct c
    end; unfold allCountersOk; simpl; (split; [exact Hsess|]);
      [rewrite Ha; exact Hact | discriminate].
  - (* ClickResume *)
    unfold after, bind, snapshot.
    destruct (nth_error (sessions s) k) as [session|] eqn:Hk; [|split; assumption].
    assert (Hsession : countersOk session).
    { rewrite Forall_forall in Hsess. apply Hsess. eapply nth_error_In. exact Hk. }
    destruct (generateQuiz w (quizRequestFor (subject_area session) (topic session)))
      as [ai|e] eqn:Hgen.
    + rewrite (startSession_generated w s session ai Hgen).
      unfold allCountersOk, resumed. simpl. split; [exact Hsess|].
      now intros act' [= <-].
    + rewrite (startSession_failed w s session e Hgen).
      unfold allCountersOk, resumeFailed. simpl. split; assumption.
  - (* ClickCreate *)
    unfold after.
    destruct (generateQuiz w (requestOf s)) as [ai|e] eqn:Hgen.
    2:{ rewrite (createNewSession_generation_failed w s e Hgen). split; assumption. }
    destruct (createSession w (mkCreateSessionRequest 1 (new_session_type (newSessionData s))))
      as [[]|e] eqn:Hcreate.
    2:{ rewrite (createNewSession_backend_failed w s ai e Hgen Hcreate). split; assumption. }
    rewrite (createNewSession_created w s ai Hgen Hcreate).
    assert (Hnew : countersOk (newSessionOf w s)) by (unfold countersOk; simpl; lia).
    unfold allCountersOk, created. cbv zeta.
    destruct (0 <? len (map convertQuestion ai)); simpl;
      (split; [constructor; assumption | now intros act' [= <-]]).
Qed.

Lemma allCountersOk_dispatchAll (trace : list (World * Event)) (s : State) :
  allCountersOk s -> allCountersOk (dispatchAll trace s).
Proof.
  revert s. induction trace as [|[w ev] trace IH]; intros s Hs; simpl; [exact Hs|].
  apply IH. now apply allCountersOk_dispatch.
Qed.

(** After three answers, a pause and a resume, the second answer to the new
    list is the fifth attempt of a quiz of four questions. *)
Lemma attempts_exceed_questions :
  exists act,
    activeSession Scenario.overrun = Some act /\
    questions_attempted act = 5 /\
    len (currentQuestions Scenario.overrun) = 4 /\
    ~ questions_attempted act <= len (currentQuestions Scenario.overrun).
Proof.
  eexists. split; [vm_compute; reflexivity|].
  split; [reflexivity|]. split; [reflexivity|].
  vm_compute. intros H. apply H. reflexivity.
Qed.

(** The component after [fetchSessions]: no session runs, no question is on
    display, the dialog is closed, and the collection holds what the back
    end delivered, or the demo session. *)
Lemma fetchSessions_mounted (response : result SessionsData) (isoNow : string) :
  let s := after (fetchSessions response isoNow) initialState in
  fst (fetchSessions response isoNow initialState) = Ok tt /\
  activeSession s = None /\
  currentQuestion s = None /\
  currentQuestions s = [] /\
  createDialogOpen s = false /\
  loading s = false /\
  (fetchedCountersOk response -> Forall countersOk (sessions s)).
Proof.
  run_handler. destruct response as [[l|x|]|e]; simpl; repeat split; intros H.
  - now apply Forall_map.
  - now constructor.
  - constructor; [unfold countersOk; simpl; lia | constructor].
  - constructor; [unfold countersOk; simpl; lia | constructor].
Qed.

Lemma dispatchAll_app (before since : list (World * Event)) (s : State) :
  dispatchAll (before ++ since) s = dispatchAll since (dispatchAll before s).
Proof.
  revert s. induction before as [|[w ev] before IH]; intros s; simpl; [reflexivity|].
  apply IH.
Qed.

(** A session created from a quiz of the generator starts the progression,
    whatever the component held before. *)
Lemma progressInv_created (w : World) (ai : list AI.Question) (s : State) :
  ai <> [] ->
  NoDup (map AI.id ai) ->
  progressInv (created w ai s).
Proof.
  intros Hne Hids.
  assert (Hqids : NoDup (map qid (map convertQuestion ai))).
  { rewrite map_map. exact Hids. }
  destruct ai as [|q ai]; [congruence|].
  unfold created, progressInv, sessionView, countersOk. cbv zeta. simpl.
  split; [exact Hqids|]. split; [discriminate|].
  split; [lia|]. exists 0%nat. split; [reflexivity|].
  destruct (showResults s); lia.
Qed.

(** C1, as the code has it.  From the mounted component, with the counters
    of the fetched sessions in order, after every sequence of user events
    [0 <= questions_correct <= questions_attempted] holds for every session
    of the collection and for the running one.  And whatever happened
    before, once a session has been created by [createNewSession] (the quiz
    coming from [aiQuizGenerator], the back end accepting the session), the
    running session has [questions_attempted <= length(currentQuestions)]
    for as long as no session is resumed. *)
Theorem counters_bounded_until_resume
        (response : result SessionsData) (isoNow : string) (trace : list (World * Event)) :
  fetchedCountersOk response ->
  let mounted := after (fetchSessions response isoNow) initialState in
  let s := dispatchAll trace mounted in
  (Forall countersOk (sessions s) /\
   forall act, activeSession s = Some act ->
               0 <= questions_correct act <= questions_attempted act) /\
  (forall (before since : list (World * Event)) (w : World),
     trace = (before ++ (w, ClickCreate) :: since)%list ->
     let s0 := dispatchAll before mounted in
     enabled ClickCreate s0 = true ->
     usesAiQuizGenerator w ->
     createSession w (mkCreateSessionRequest 1 (new_session_type (newSessionData s0))) = Ok tt ->
     Forall (fun step => usesAiQuizGenerator (fst step) /\ isResume (snd step) = false) since ->
     forall act, activeSession s = Some act ->
                 0 <= questions_correct act <= questions_attempted act /\
                 questions_attempted act <= len (currentQuestions s)).
Proof.
  intros Hfetched mounted s.
  destruct (fetchSessions_mounted response isoNow) as (_ & Ha & _ & _ & _ & _ & Hsess).
  cbv zeta in Ha, Hsess. fold mounted in Ha, Hsess.
  split.
  - apply allCountersOk_dispatchAll. split; [now apply Hsess|].
    intros act Hact. rewrite Ha in Hact. discriminate.
  - intros before since w Htrace s0 Hen Hw Hcreate Hsince act Hact.
    apply (progressInv_bound s act); [|exact Hact].
    unfold s. rewrite Htrace, dispatchAll_app. simpl. fold s0.
    apply progressInv_dispatchAll.
    { eapply Forall_impl; [|exact Hsince].
      intros [w' ev] [[rt Hrt] Hev]. simpl in *. split; [|exact Hev].
      now apply (real_generator_distinctIds rt). }
    destruct (real_generator_answers w s0 Hw) as (ai & Hai & Hne).
    unfold dispatch. rewrite Hen. simpl handler. unfold after.
    rewrite (createNewSession_created w s0 ai Hai Hcreate). simpl.
    apply progressInv_created; [exact Hne|].
    destruct Hw as [rt Hrt]. rewrite Hrt in Hai.
    now apply generateQuiz_distinct_ids in Hai.
Qed.

(** The back end delivers one session with three attempts, two of them
    correct; the user resumes it, answers a question and pauses, then opens
    the Algebra quiz of the generator and answers two questions. *)
Lemma counters_bounded_until_resume_witness :
  let s := dispatchAll ([ (Scenario.world, ClickResume 0);
                          (Scenario.world, SelectAnswer 0);
                          (Scenario.world, ClickSubmit);
                          (Scenario.world, ClickNext);
                          (Scenario.world, ClickPause) ]
                        ++ Scenario.openQuiz ++ Scenario.answer 0 ++ Scenario.answer 1)
             (after (fetchSessions (Ok (OneSession Scenario.fetchedSession))
                                   "2025-11-02T00:00:00.000Z") initialState) in
  map questions_attempted (sessions s) = [ 2; 4 ] /\
  activeSession s = Some (Scenario.newSessionAfter 2) /\
  0 <= questions_correct (Scenario.newSessionAfter 2)
    <= questions_attempted (Scenario.newSessionAfter 2) /\
  questions_attempted (Scenario.newSessionAfter 2) <= 4.
Proof.
  cbv zeta.
  set (before := ([ (Scenario.world, ClickResume 0%nat);
                    (Scenario.world, SelectAnswer 0%nat);
                    (Scenario.world, ClickSubmit);
                    (Scenario.world, ClickNext);
                    (Scenario.world, ClickPause);
                    (Scenario.world, ClickNewSession);
                    (Scenario.world, TypeSubject "Mathematics");
                    (Scenario.world, TypeTopic "Algebra");
                    (Scenario.world, ChooseType "quiz") ])).
  set (since := (Scenario.answer 0 ++ Scenario.answer 1)%list).
  set (s := dispatchAll _ _).
  assert (Hsessions : map questions_attempted (sessions s) = [ 2; 4 ])
    by (vm_compute; reflexivity).
  assert (Hactive : activeSession s = Some (Scenario.newSessionAfter 2))
    by (vm_compute; reflexivity).
  split; [exact Hsessions|]. split; [exact Hactive|].
  revert Hactive. generalize (Scenario.newSessionAfter 2) as act.
  assert (Hworld : usesAiQuizGenerator Scenario.world).
  { exists Scenario.runtime. reflexivity. }
  assert (Hfetched : fetchedCountersOk (Ok (OneSession Scenario.fetchedSession))).
  { unfold fetchedCountersOk, countersOk. simpl. lia. }
  pose proof (counters_bounded_until_resume (Ok (OneSession Scenario.fetchedSession))
                "2025-11-02T00:00:00.000Z"
                (before ++ (Scenario.world, ClickCreate) :: since)
                Hfetched) as H.
  cbv zeta in H. destruct H as [_ H].
  specialize (H before since Scenario.world eq_refl
                ltac:(vm_compute; reflexivity) Hworld ltac:(reflexivity)).
  assert (Hsince : Forall (fun step => usesAiQuizGenerator (fst step)
                                       /\ isResume (snd step) = false) since).
  { repeat (apply Forall_cons; [split; [exact Hworld | reflexivity]|]). apply Forall_nil. }
  specialize (H Hsince).
  assert (E4 : len (currentQuestions s) = 4) by (vm_compute; reflexivity).
  intros act Hact. rewrite <- E4. apply H. exact Hact.
Defined.

(** * Further properties of the code *)

Import Further.

(** ** [generateQuiz]: what the loop delivers *)

Lemma quizLoop_no_throw (rt : AI.Runtime) (request : AI.QuizGenerationRequest)
      (fuel : nat) (i : Z) (acc : list AI.Question) :
  (forall j, i <= j < AI.req_numQuestions request -> AI.throwsAt rt j = false) ->
  Z.of_nat fuel = Z.max 0 (AI.req_numQuestions request - i) ->
  AI.quizLoop rt request fuel i acc
  = Ok (acc ++ map (AI.makeQuestion rt request)
                   (map (fun k => i + Z.of_nat k) (seq 0 fuel)))%list.
Proof.
  revert i acc. induction fuel as [|fuel IH]; intros i acc Hno Hfuel; simpl.
  - now rewrite app_nil_r.
  - assert (Hi : i < AI.req_numQuestions request) by lia.
    apply Z.ltb_lt in Hi. rewrite Hi. apply Z.ltb_lt in Hi.
    rewrite (Hno i) by lia.
    rewrite IH; [|intros j Hj; apply Hno; lia | lia].
    rewrite <- app_assoc. f_equal. simpl. rewrite Z.add_0_r.
    rewrite <- seq_shift, !map_map. f_equal. f_equal.
    apply map_ext. intros k. f_equal. lia.
Qed.

Lemma quizLoop_throws (rt : AI.Runtime) (request : AI.QuizGenerationRequest)
      (fuel : nat) (i j : Z) (acc : list AI.Question) :
  i <= j < AI.req_numQuestions request ->
  AI.throwsAt rt j = true ->
  AI.req_numQuestions request - i <= Z.of_nat fuel ->
  AI.quizLoop rt request fuel i acc = Throw "exception in generateQuiz".
Proof.
  revert i acc. induction fuel as [|fuel IH]; intros i acc Hj Hthrow Hfuel; simpl.
  - lia.
  - assert (Hi : i < AI.req_numQuestions request) by lia.
    apply Z.ltb_lt in Hi. rewrite Hi.
    destruct (AI.throwsAt rt i) eqn:Hti; [reflexivity|].
    apply IH; [|exact Hthrow | lia].
    assert (i <> j) by (intros ->; congruence). lia.
Qed.

(** X1.  When no iteration throws, [generateQuiz] delivers exactly the
    questions of the iterations 0, 1, ..., numQuestions - 1, in this order;
    for [numQuestions <= 0] it delivers the empty list. *)
Theorem generateQuiz_in_order (rt : AI.Runtime) (request : AI.QuizGenerationRequest) :
  (forall j, 0 <= j < AI.req_numQuestions request -> AI.throwsAt rt j = false) ->
  AI.generateQuiz rt request
  = Ok (map (AI.makeQuestion rt request) (loopIndexes (AI.req_numQuestions request))) /\
  len (map (AI.makeQuestion rt request) (loopIndexes (AI.req_numQuestions request)))
  = Z.max 0 (AI.req_numQuestions request) /\
  (AI.req_numQuestions request <= 0 -> AI.generateQuiz rt request = Ok []).
Proof.
  intros Hno.
  assert (E : AI.generateQuiz rt request
              = Ok (map (AI.makeQuestion rt request)
                        (loopIndexes (AI.req_numQuestions request)))).
  { unfold AI.generateQuiz, AI.tryBody.
    rewrite (quizLoop_no_throw rt request _ 0 [] Hno) by lia.
    simpl. unfold loopIndexes. do 2 f_equal. }
  split; [exact E|]. split.
  - unfold len, loopIndexes. rewrite !length_map, length_seq. lia.
  - intros Hn. rewrite E. unfold loopIndexes.
    replace (Z.to_nat (AI.req_numQuestions request)) with 0%nat by lia. reflexivity.
Qed.

Lemma generateQuiz_in_order_witness :
  map AI.id (Scenario.generated Scenario.runtime)
  = [ "q_1762041600000_0"; "q_1762041600000_1"; "q_1762041600000_2"; "q_1762041600000_3" ].
Proof.
  unfold Scenario.generated.
  destruct (generateQuiz_in_order Scenario.runtime (AI.mkRequest "Mathematics" "Algebra" half 4)
              ltac:(reflexivity)) as (E & _ & _).
  rewrite E. reflexivity.
Defined.

(** X2.  One throwing iteration discards the questions built before it: the
    result is the fallback list, a single question with id "fallback_1". *)
Theorem generateQuiz_throw_discards_partial_quiz
        (rt : AI.Runtime) (request : AI.QuizGenerationRequest) (j : Z) :
  0 <= j < AI.req_numQuestions request ->
  AI.throwsAt rt j = true ->
  AI.generateQuiz rt request = Ok (AI.getFallbackQuestions request) /\
  map AI.id (AI.getFallbackQuestions request) = [ "fallback_1" ].
Proof.
  intros Hj Hthrow. split; [|reflexivity].
  unfold AI.generateQuiz, AI.tryBody.
  rewrite (quizLoop_throws rt request _ 0 j [] Hj Hthrow) by lia. reflexivity.
Qed.

Lemma generateQuiz_throw_discards_partial_quiz_witness :
  option_map (map AI.id)
    (match AI.generateQuiz
             {| AI.dateNow := fun _ => 1762041600000;
                AI.floorRandom4 := fun _ => AI.P1;
                AI.throwsAt := fun i => i =? 3 |}
             (AI.mkRequest "Science" "Physics" half 4) with
     | Ok qs => Some qs
     | Throw _ => None
     end) = Some [ "fallback_1" ].
Proof.
  destruct (generateQuiz_throw_discards_partial_quiz
              {| AI.dateNow := fun _ => 1762041600000;
                 AI.floorRandom4 := fun _ => AI.P1;
                 AI.throwsAt := fun i => i =? 3 |}
              (AI.mkRequest "Science" "Physics" half 4) 3
              ltac:(simpl; lia) ltac:(reflexivity)) as [E _].
  rewrite E. reflexivity.
Defined.

(** X3.  Two questions of one generated quiz never share an id, even when
    the clock does not advance between iterations. *)
Theorem generateQuiz_ids_differ
        (rt : AI.Runtime) (request : AI.QuizGenerationRequest)
        (qs : list AI.Question) (i j : nat) (q q' : AI.Question) :
  AI.generateQuiz rt request = Ok qs ->
  nth_error qs i = Some q ->
  nth_error qs j = Some q' ->
  i <> j ->
  AI.id q <> AI.id q'.
Proof.
  intros Hqs Hi Hj Hne Hid. apply Hne.
  pose proof (generateQuiz_distinct_ids rt request qs Hqs) as Hnd.
  rewrite NoDup_nth_error in Hnd. apply Hnd.
  - rewrite length_map. apply nth_error_Some. congruence.
  - rewrite !nth_error_map, Hi, Hj. simpl. now rewrite Hid.
Qed.

Lemma generateQuiz_ids_differ_witness :
  String.eqb
    (AI.id (AI.makeQuestion Scenario.runtime (AI.mkRequest "Mathematics" "Algebra" half 4) 0))
    (AI.id (AI.makeQuestion Scenario.runtime (AI.mkRequest "Mathematics" "Algebra" half 4) 3))
  = false.
Proof.
  apply String.eqb_neq.
  apply (generateQuiz_ids_differ Scenario.runtime (AI.mkRequest "Mathematics" "Algebra" half 4)
           (Scenario.generated Scenario.runtime) 0 3).
  - reflexivity.
  - reflexivity.
  - reflexivity.
  - discriminate.
Defined.

(** The four option texts of the generator are pairwise distinct. *)
Lemma generateOptions_distinct (subject topic : string) (questionNumber : Z) :
  let o := AI.generateOptions subject topic questionNumber in
  NoDup [ AI.optA o; AI.optB o; AI.optC o; AI.optD o ].
Proof.
  assert (Hcheck : forall a b c d : string,
             (negb (String.eqb a b) && negb (String.eqb a c) && negb (String.eqb a d)
              && negb (String.eqb b c) && negb (String.eqb b d) && negb (String.eqb c d))%bool
             = true ->
             NoDup [ a; b; c; d ]).
  { intros a b c d H.
    repeat (apply andb_true_iff in H; destruct H as [H ?]).
    repeat match goal with
           | E : negb (String.eqb _ _) = true |- _ =>
               apply negb_true_iff in E; apply String.eqb_neq in E
           end.
    repeat constructor; simpl; intuition congruence. }
  unfold AI.generateOptions, AI.optionSets.
  repeat match goal with
         | |- context [String.eqb subject ?c] => destruct (String.eqb subject c)
         end;
    match goal with
    | |- context [Z.to_nat ?z] => destruct (Z.to_nat z) as [|[|[|m]]]
    end; apply Hcheck; reflexivity.
Qed.

(** X4.  Every question [generateQuiz] delivers, the fallback question
    included, names one of the letters A to D as its correct answer, offers
    four pairwise distinct option texts, and carries the subject and the
    difficulty of the request.  The subject is not the name of a member of
    [Object.prototype] (for such a subject the lookup in [optionSets] finds
    the inherited member, which the model of the generator leaves out). *)
Theorem generated_question_wellformed
        (rt : AI.Runtime) (request : AI.QuizGenerationRequest)
        (qs : list AI.Question) (q : AI.Question) :
  JSObject.inherited (AI.req_subject request) = false ->
  AI.generateQuiz rt request = Ok qs ->
  In q qs ->
  In (AI.correct_answer q) [ "A"; "B"; "C"; "D" ] /\
  length (options (convertQuestion q)) = 4%nat /\
  NoDup (options (convertQuestion q)) /\
  AI.subject q = Some (AI.req_subject request) /\
  AI.difficulty q = Some (AI.req_difficulty request).
Proof.
  intros _. unfold AI.generateQuiz.
  destruct (AI.tryBody rt request) as [qs'|e] eqn:Hbody; intros [= <-] Hq.
  - unfold AI.tryBody in Hbody.
    destruct (quizLoop_In rt request _ _ _ _ q Hbody Hq) as [[] | [j ->]].
    split.
    { simpl. destruct (AI.floorRandom4 rt j); simpl; auto. }
    split; [reflexivity|]. split; [|split; reflexivity].
    apply (generateOptions_distinct (AI.req_subject request) (AI.req_topic request) (j + 1)).
  - destruct Hq as [<- | []]. simpl.
    split; [auto|]. split; [reflexivity|]. split; [|split; reflexivity].
    repeat constructor; simpl; intuition discriminate.
Qed.

Lemma generated_question_wellformed_witness :
  In (AI.correct_answer
        (AI.makeQuestion Scenario.runtime (AI.mkRequest "Mathematics" "Algebra" half 4) 2))
     [ "A"; "B"; "C"; "D" ].
Proof.
  apply (generated_question_wellformed Scenario.runtime
           (AI.mkRequest "Mathematics" "Algebra" half 4)
           (Scenario.generated Scenario.runtime)).
  - reflexivity.
  - reflexivity.
  - vm_compute. right. right. left. reflexivity.
Defined.

(** ** [fetchSessions] *)

Lemma orString_nonempty (a : option string) (d : string) :
  d <> "" -> orString a d <> "".
Proof.
  intros Hd. unfold orString. destruct a as [v|]; [|exact Hd].
  unfold falsyString. destruct (String.eqb_spec v ""); assumption.
Qed.

(** X5.  [fetchSessions] never rejects and ends with [loading] off.  The
    collection then holds the sessions of the answer, one for one and in
    their order (a single session object as a list of one), and the demo
    session with id 1 when the call rejects or delivers no data; every
    session in it has a non-empty subject and topic.  The running session
    and its questions are not touched. *)
Theorem fetchSessions_outcome (response : result SessionsData) (isoNow : string) (s : State) :
  let out := fetchSessions response isoNow s in
  fst out = Ok tt /\
  loading (snd out) = false /\
  map sid (sessions (snd out)) = fetchedIds response /\
  Forall (fun x => subject_area x <> "" /\ topic x <> "") (sessions (snd out)) /\
  activeSession (snd out) = activeSession s /\
  currentQuestion (snd out) = currentQuestion s /\
  currentQuestions (snd out) = currentQuestions s.
Proof.
  run_handler. destruct response as [[l|x|]|e]; simpl; repeat split.
  - now rewrite map_map.
  - apply Forall_map, Forall_forall. intros x _. simpl.
    split; apply orString_nonempty; discriminate.
  - constructor; [|constructor]. simpl. split; apply orString_nonempty; discriminate.
  - constructor; [|constructor]. simpl. split; discriminate.
  - constructor; [|constructor]. simpl. split; discriminate.
Qed.

(** ** [handleAnswerSubmit] and the collection *)

(** X6.  An accepted submission keeps the length of the collection, puts the
    new record of the running session in the place of every session with its
    id, and leaves the sessions with another id as they are: the collection
    and the running session agree after the call. *)
Theorem submit_updates_only_matching_sessions (w : World) (s : State) act cq :
  activeSession s = Some act ->
  currentQuestion s = Some cq ->
  selectedAnswer s <> "" ->
  let s' := after (handleAnswerSubmit w) s in
  exists act',
    activeSession s' = Some act' /\
    sid act' = sid act /\
    length (sessions s') = length (sessions s) /\
    forall k x, nth_error (sessions s) k = Some x ->
                nth_error (sessions s') k = Some (if sid x =? sid act then act' else x).
Proof.
  intros Ha Hq Hsel s'.
  assert (Hcells : cells s' = cells (scored act cq s)).
  { unfold s', after. rewrite (handleAnswerSubmit_accepted w s act cq Ha Hq Hsel).
    destruct (logInteraction w _ _) as [[]|e]; reflexivity. }
  pose proof (f_equal activeSession Hcells) as Eact.
  pose proof (f_equal sessions Hcells) as Esess.
  simpl in Eact, Esess.
  eexists. split; [exact Eact|]. split; [reflexivity|].
  rewrite Esess. split; [apply length_map|].
  intros k x Hk. rewrite nth_error_map, Hk. reflexivity.
Qed.

Lemma submit_updates_only_matching_sessions_witness :
  length (sessions (after (handleAnswerSubmit Scenario.world) Scenario.showingResult))
  = length (sessions Scenario.showingResult).
Proof.
  destruct (submit_updates_only_matching_sessions Scenario.world Scenario.showingResult
              (Scenario.newSessionAfter 1) (Scenario.questionAt 0)
              ltac:(vm_compute; reflexivity) ltac:(vm_compute; reflexivity)
              ltac:(vm_compute; discriminate))
    as (act' & _ & _ & Hlen & _).
  exact Hlen.
Defined.

(** X7.  [handleAnswerSubmit] never rejects.  It leaves the component
    exactly as it is when there is no question on display, no selection, or
    no running session; and with the counters of the running session within
    the range in which binary64 counts in steps of one, these are the only
    cases in which it does. *)
Theorem handleAnswerSubmit_noop_iff (w : World) (s : State) :
  fst (handleAnswerSubmit w s) = Ok tt /\
  (activeSession s = None \/ currentQuestion s = None \/ selectedAnswer s = "" ->
   after (handleAnswerSubmit w) s = s) /\
  ((forall act, activeSession s = Some act -> countsExactly 1 act) ->
   after (handleAnswerSubmit w) s = s ->
   activeSession s = None \/ currentQuestion s = None \/ selectedAnswer s = "").
Proof.
  split; [|split].
  - destruct (activeSession s) as [act|] eqn:Ha;
      [|rewrite handleAnswerSubmit_rejected; auto].
    destruct (currentQuestion s) as [cq|] eqn:Hq;
      [|rewrite handleAnswerSubmit_rejected; auto].
    destruct (String.eqb_spec (selectedAnswer s) "") as [Hsel|Hsel];
      [rewrite handleAnswerSubmit_rejected; auto|].
    rewrite (handleAnswerSubmit_accepted w s act cq Ha Hq Hsel).
    destruct (logInteraction w _ _) as [[]|e]; reflexivity.
  - intros H. unfold after. now rewrite handleAnswerSubmit_rejected.
  - intros _ Hsame.
    destruct (activeSession s) as [act|] eqn:Ha; [|now left].
    destruct (currentQuestion s) as [cq|] eqn:Hq; [|now right; left].
    destruct (String.eqb_spec (selectedAnswer s) "") as [Hsel|Hsel]; [now right; right|].
    exfalso.
    assert (Hcells : cells (after (handleAnswerSubmit w) s) = cells (scored act cq s)).
    { unfold after. rewrite (handleAnswerSubmit_accepted w s act cq Ha Hq Hsel).
      destruct (logInteraction w _ _) as [[]|e]; reflexivity. }
    rewrite Hsame in Hcells. apply (f_equal activeSession) in Hcells.
    simpl in Hcells. rewrite Ha in Hcells. injection Hcells as Hact.
    apply (f_equal questions_attempted) in Hact. simpl in Hact. lia.
Qed.

(** ** Answering a whole quiz *)

Lemma nth_error_skipn_cons {A : Type} (l : list A) (i : nat) (x : A) :
  nth_error l i = Some x -> skipn i l = x :: skipn (S i) l.
Proof.
  revert i. induction l as [|y l IH]; intros [|i] H; simpl in *; try discriminate.
  - now injection H as ->.
  - now apply IH.
Qed.

(** One answer: the record of the running session replaces its entries in
    the collection, and the next question comes up, or the session ends
    after the last one. *)
Lemma answerOne_step (w : World) (a : string) (s : State) act cq (i : nat) :
  activeSession s = Some act ->
  currentQuestion s = Some cq ->
  nth_error (currentQuestions s) i = Some cq ->
  NoDup (map qid (currentQuestions s)) ->
  a <> "" ->
  let b := if strictEq a (correct_answer cq) then 1 else 0 in
  let s' := answerOne w a s in
  sessions s' = map (fun x => if sid x =? sid act then tally act 1 b else x) (sessions s) /\
  if (S i <? length (currentQuestions s))%nat
  then activeSession s' = Some (tally act 1 b) /\
       currentQuestion s' = nth_error (currentQuestions s) (S i) /\
       currentQuestions s' = currentQuestions s
  else activeSession s' = None /\ currentQuestion s' = None /\ currentQuestions s' = [].
Proof.
  intros Ha Hq Hi Hnd Hsel b s'.
  assert (Hlen : (i < length (currentQuestions s))%nat).
  { apply nth_error_Some. congruence. }
  set (s1 := setSelectedAnswer a s).
  assert (Hsub : cells (after (handleAnswerSubmit w) s1) = cells (scored act cq s1)).
  { unfold after. rewrite (handleAnswerSubmit_accepted w s1 act cq Ha Hq Hsel).
    destruct (logInteraction w _ _) as [[]|e]; reflexivity. }
  set (s2 := after (handleAnswerSubmit w) s1) in *.
  pose proof (f_equal activeSession Hsub) as E2a.
  pose proof (f_equal currentQuestion Hsub) as E2q.
  pose proof (f_equal currentQuestions Hsub) as E2qs.
  pose proof (f_equal sessions Hsub) as E2s.
  simpl in E2a, E2q, E2qs, E2s. fold b in E2a, E2s.
  change (answerOne w a s) with (after handleNextQuestion s2) in s'.
  unfold s'. run_handler. rewrite E2a, E2q, E2qs.
  destruct (len (currentQuestions s) =? 0) eqn:E0.
  { apply len_zero_iff in E0. rewrite E0 in Hlen. simpl in Hlen. lia. }
  rewrite Hq. unfold findIndex. rewrite (findIndexFrom_nth _ i cq 0 Hnd Hi), Z.add_0_l.
  unfold len.
  destruct (S i <? length (currentQuestions s))%nat eqn:Hmore.
  - apply Nat.ltb_lt in Hmore.
    destruct (Z.of_nat i <? Z.of_nat (length (currentQuestions s)) - 1) eqn:Hz;
      [|apply Z.ltb_ge in Hz; lia].
    replace (Z.of_nat i + 1) with (Z.of_nat (S i)) by lia.
    rewrite index_nth_error.
    cbn [sessions activeSession currentQuestion currentQuestions
         setCurrentQuestion setSelectedAnswer setShowResults setExplanation].
    rewrite E2s, E2a, E2qs. repeat split.
  - apply Nat.ltb_ge in Hmore.
    destruct (Z.of_nat i <? Z.of_nat (length (currentQuestions s)) - 1) eqn:Hz;
      [apply Z.ltb_lt in Hz; lia|].
    cbn [sessions activeSession currentQuestion currentQuestions
         setCurrentQuestion setActiveSession setCurrentQuestions setSuccessMessage].
    rewrite E2s. repeat split.
Qed.

Lemma tally_tally (act : LearningSessionData) (n m n' m' : Z) :
  tally (tally act n m) n' m' = tally act (n + n') (m + m').
Proof.
  unfold tally. simpl. f_equal; try lia.
  f_equal; lia.
Qed.

Lemma answerAll_from (w : World) (answers : list string) :
  forall (s : State) act (i : nat),
    answers <> [] ->
    Forall (fun a => a <> "") answers ->
    activeSession s = Some act ->
    currentQuestion s = nth_error (currentQuestions s) i ->
    NoDup (map qid (currentQuestions s)) ->
    (i + length answers = length (currentQuestions s))%nat ->
    let s' := answerAll w answers s in
    activeSession s' = None /\
    currentQuestion s' = None /\
    currentQuestions s' = [] /\
    sessions s'
    = map (fun x => if sid x =? sid act
                    then tally act (len answers) (matches answers (skipn i (currentQuestions s)))
                    else x)
          (sessions s).
Proof.
  induction answers as [|a rest IH]; intros s act i Hne Hall Ha Hq Hnd Hlen; [congruence|].
  inversion Hall as [|? ? Hsel Hrest]; subst.
  simpl in Hlen.
  destruct (nth_error (currentQuestions s) i) as [cq|] eqn:Hi.
  2:{ apply nth_error_None in Hi. lia. }
  pose proof (answerOne_step w a s act cq i Ha Hq Hi Hnd Hsel) as Hstep.
  cbv zeta in Hstep. destruct Hstep as [Hsess Hnext].
  rewrite (nth_error_skipn_cons _ _ _ Hi).
  cbn [answerAll matches].
  set (b := if strictEq a (correct_answer cq) then 1 else 0) in *.
  destruct rest as [|a' rest'].
  - (* the last question *)
    assert (Hlast : (S i <? length (currentQuestions s))%nat = false)
      by (apply Nat.ltb_ge; simpl in Hlen; lia).
    rewrite Hlast in Hnext. destruct Hnext as (Hn1 & Hn2 & Hn3).
    cbn [answerAll]. repeat split; try assumption.
    rewrite Hsess. unfold len. simpl length.
    destruct (skipn (S i) (currentQuestions s)); simpl; now rewrite Z.add_0_r.
  - assert (Hmore : (S i <? length (currentQuestions s))%nat = true)
      by (apply Nat.ltb_lt; simpl in Hlen; lia).
    rewrite Hmore in Hnext. destruct Hnext as (Hn1 & Hn2 & Hn3).
    specialize (IH (answerOne w a s) (tally act 1 b) (S i)
                   ltac:(discriminate) Hrest Hn1).
    rewrite Hn3 in IH. specialize (IH Hn2 Hnd ltac:(simpl in *; lia)).
    cbv zeta in IH. destruct IH as (I1 & I2 & I3 & I4).
    repeat split; try assumption.
    rewrite I4, Hsess, map_map. apply map_ext. intros x.
    change (sid (tally act 1 b)) with (sid act).
    destruct (sid x =? sid act) eqn:Ex.
    + change (sid (tally act 1 b)) with (sid act). rewrite Z.eqb_refl.
      rewrite tally_tally. f_equal. unfold len. simpl length. lia.
    + now rewrite Ex.
Qed.

(** X8.  A quiz with distinct question ids, the first question on display,
    for a session whose counters leave room, within the range in which
    binary64 counts in steps of one, for one attempt per question: after
    one non-empty answer per question, each submitted and followed by Next,
    no session runs any more, the questions are cleared, and every entry of
    the running session in the collection counts one attempt per question
    and one correct answer per answer that equals the [correct_answer] of
    its question. *)
Theorem answering_every_question_counts_each_once
        (w : World) (s : State) act (answers : list string) :
  activeSession s = Some act ->
  currentQuestions s <> [] ->
  currentQuestion s = nth_error (currentQuestions s) 0 ->
  NoDup (map qid (currentQuestions s)) ->
  length answers = length (currentQuestions s) ->
  Forall (fun a => a <> "") answers ->
  countsExactly (len (currentQuestions s)) act ->
  let s' := answerAll w answers s in
  activeSession s' = None /\
  currentQuestion s' = None /\
  currentQuestions s' = [] /\
  sessions s'
  = map (fun x => if sid x =? sid act
                  then tally act (len (currentQuestions s)) (matches answers (currentQuestions s))
                  else x)
        (sessions s) /\
  0 <= matches answers (currentQuestions s) <= len (currentQuestions s).
Proof.
  intros Ha Hne Hq Hnd Hlen Hall _ s'.
  assert (Hans : answers <> []).
  { intros ->. destruct (currentQuestions s); [congruence | discriminate]. }
  pose proof (answerAll_from w answers s act 0 Hans Hall Ha Hq Hnd ltac:(simpl; lia)) as H.
  cbv zeta in H. simpl skipn in H. destruct H as (H1 & H2 & H3 & H4).
  unfold s'. repeat split; try assumption.
  - rewrite H4. unfold len. now rewrite Hlen.
  - clear. revert answers. induction (currentQuestions s) as [|q qs IH]; intros [|a answers];
      simpl; try lia.
    specialize (IH answers). destruct (strictEq a (correct_answer q)); lia.
  - clear - Hlen. revert answers Hlen.
    induction (currentQuestions s) as [|q qs IH]; intros [|a answers] Hlen;
      simpl in *; try discriminate; unfold len in *; simpl length; try lia.
    specialize (IH answers ltac:(lia)). destruct (strictEq a (correct_answer q)); lia.
Qed.

(** The quiz about Paris and 2 + 2, answered "Paris" and "5". *)
Lemma answering_every_question_counts_each_once_witness :
  map (fun x => (questions_attempted x, questions_correct x))
      (sessions (answerAll Scenario.world [ "Paris"; "5" ] (Scenario.parisState "")))
  = [ (2, 1) ].
Proof.
  destruct (answering_every_question_counts_each_once
              Scenario.world (Scenario.parisState "") Scenario.demoSession [ "Paris"; "5" ]
              ltac:(reflexivity) ltac:(discriminate) ltac:(reflexivity)
              ltac:(repeat constructor; simpl; intuition discriminate)
              ltac:(reflexivity)
              ltac:(repeat constructor; discriminate)
              ltac:(split; apply Z.leb_le; reflexivity))
    as (_ & _ & _ & Hsess & _).
  rewrite Hsess. reflexivity.
Defined.

(** ** Handlers and failures *)

(** X9.  No handler bound to a control of the view rejects its promise, and
    neither does [completeSession]: every failure of the generator or of the
    back end is caught inside the handler. *)
Theorem no_handler_rejects (w : World) (ev : Event) (s : State) :
  fst (handler w ev s) = Ok tt /\ fst (completeSession s) = Ok tt.
Proof.
  split.
  - destruct ev; run_handler; try reflexivity.
    + destruct (currentQuestion s) as [cq|]; [|reflexivity].
      destruct (nth_error (options cq) k); reflexivity.
    + destruct (currentQuestion s) as [cq|], (activeSession s) as [act|]; try reflexivity.
      destruct (falsyString (selectedAnswer s)); [reflexivity|].
      cbv beta iota zeta.
      destruct (logInteraction w _ _) as [[]|e]; reflexivity.
    + destruct (activeSession s); reflexivity.
    + destruct (activeSession s); [|reflexivity].
      destruct (len (currentQuestions s) =? 0); [reflexivity|].
      match goal with
      | |- context [if ?c then _ else _] => destruct c
      end; reflexivity.
    + destruct (nth_error (sessions s) k) as [session|]; [|reflexivity].
      run_handler.
      destruct (generateQuiz w _) as [ai|e]; reflexivity.
    + destruct (generateQuiz w _) as [ai|e]; [|reflexivity].
      cbv beta iota zeta.
      destruct (createSession w _) as [[]|e]; [|reflexivity].
      cbv beta iota zeta.
      destruct (0 <? len (map convertQuestion ai)); reflexivity.
  - run_handler. destruct (activeSession s); reflexivity.
Qed.

Lemma dispatch_loading (w : World) (ev : Event) (s : State) :
  loading s = false -> loading (dispatch w ev s) = false.
Proof.
  intros Hl. unfold dispatch. destruct (enabled ev s); [|exact Hl].
  destruct ev; run_handler; try exact Hl.
  - destruct (currentQuestion s) as [cq|]; [|exact Hl].
    destruct (nth_error (options cq) k); exact Hl.
  - destruct (currentQuestion s) as [cq|], (activeSession s) as [act|]; try exact Hl.
    destruct (falsyString (selectedAnswer s)); [exact Hl|].
    cbv beta iota zeta.
    destruct (logInteraction w _ _) as [[]|e]; exact Hl.
  - destruct (activeSession s); exact Hl.
  - destruct (activeSession s); [|exact Hl].
    destruct (len (currentQuestions s) =? 0); [exact Hl|].
    match goal with
    | |- context [if ?c then _ else _] => destruct c
    end; exact Hl.
  - destruct (nth_error (sessions s) k) as [session|]; [|exact Hl].
    run_handler.
    destruct (generateQuiz w _) as [ai|e]; reflexivity.
  - destruct (generateQuiz w _) as [ai|e]; [|reflexivity].
    cbv beta iota zeta.
    destruct (createSession w _) as [[]|e]; [|reflexivity].
    cbv beta iota zeta.
    destruct (0 <? len (map convertQuestion ai)); reflexivity.
Qed.

(** X10.  Between two events the [loading] cell is off: the handlers that
    turn it on turn it off again in their [finally] clause, whatever the
    generator and the back end answer.  Once the component is mounted the
    spinner therefore never replaces the view again. *)
Theorem loading_is_off_between_events (trace : list (World * Event)) (s : State) :
  loading s = false ->
  loading (dispatchAll trace s) = false /\ spinner (dispatchAll trace s) = false.
Proof.
  revert s. induction trace as [|[w ev] trace IH]; intros s Hl; simpl.
  - split; [exact Hl|]. unfold spinner. now rewrite Hl.
  - apply IH. now apply dispatch_loading.
Qed.

Lemma loading_is_off_between_events_witness :
  spinner (dispatchAll (Scenario.openQuiz ++ Scenario.answer 0) Scenario.mounted) = false.
Proof.
  apply (loading_is_off_between_events
           (Scenario.openQuiz ++ Scenario.answer 0) Scenario.mounted).
  reflexivity.
Defined.

(** ** The creation dialog *)

(** The dialog opened over the session list, both fields typed, a type chosen
    and Start Session clicked: [createNewSession] runs with these values. *)
Lemma dialog_trace (w : World) (a b t : string) (s : State) :
  loading s = false ->
  sessionView s = false ->
  a <> "" -> b <> "" ->
  existsb (strictEq t) sessionTypeItems = true ->
  dispatchAll [ (w, ClickNewSession); (w, TypeSubject a); (w, TypeTopic b);
                (w, ChooseType t); (w, ClickCreate) ] s
  = after (createNewSession w)
      (updNewSessionData (fun _ => mkNewSessionData a b t) (setCreateDialogOpen true s)).
Proof.
  intros Hl Hv Ha Hb Ht.
  assert (Hsp : forall s0, loading s0 = false -> spinner s0 = false)
    by (intros s0 H0; unfold spinner; now rewrite H0).
  cbn [dispatchAll].
  assert (E1 : dispatch w ClickNewSession s = setCreateDialogOpen true s).
  { unfold dispatch. rewrite (enabled_rendered _ _ (Hsp _ Hl)).
    cbn [control]. rewrite Hv. reflexivity. }
  rewrite E1. clear E1.
  set (s1 := setCreateDialogOpen true s).
  assert (E2 : dispatch w (TypeSubject a) s1
               = updNewSessionData
                   (fun prev => mkNewSessionData a (new_topic prev) (new_session_type prev)) s1).
  { unfold dispatch. rewrite (enabled_rendered _ s1 (Hsp s1 Hl)). reflexivity. }
  rewrite E2. clear E2.
  match goal with |- context [dispatch w (TypeTopic b) ?x] => set (s2 := x) end.
  assert (E3 : dispatch w (TypeTopic b) s2
               = updNewSessionData
                   (fun prev => mkNewSessionData (new_subject_area prev) b (new_session_type prev))
                   s2).
  { unfold dispatch. rewrite (enabled_rendered _ s2 (Hsp s2 Hl)). reflexivity. }
  rewrite E3. clear E3.
  match goal with |- context [dispatch w (ChooseType t) ?x] => set (s3 := x) end.
  assert (E4 : dispatch w (ChooseType t) s3
               = updNewSessionData
                   (fun prev => mkNewSessionData (new_subject_area prev) (new_topic prev) t) s3).
  { unfold dispatch. rewrite (enabled_rendered _ s3 (Hsp s3 Hl)).
    cbn [control]. rewrite Ht. reflexivity. }
  rewrite E4. clear E4.
  match goal with |- context [dispatch w ClickCreate ?x] => set (s4 := x) end.
  unfold dispatch. rewrite (enabled_rendered _ s4 (Hsp s4 Hl)).
  assert (E5 : control ClickCreate s4 = true).
  { unfold s4, s3, s2, s1.
    cbn [control createDialogOpen newSessionData new_subject_area new_topic
         updNewSessionData setCreateDialogOpen].
    now rewrite (falsyString_false _ Ha), (falsyString_false _ Hb). }
  rewrite E5. reflexivity.
Qed.

(** X11.  What the user enters in the dialog is what the session is made of.
    For a subject that is not the name of a member of [Object.prototype],
    with the quiz coming from [aiQuizGenerator] and the back end accepting
    the session: the generator is asked for a quiz on the subject and the
    topic typed, and the new session, first of the collection and the
    running one, carries the subject, the topic and the type chosen, with
    both counters at 0.  The dialog is closed and emptied for the next
    session. *)
Theorem dialog_values_reach_the_session
        (w : World) (a b t : string) (s : State) :
  loading s = false ->
  sessionView s = false ->
  a <> "" -> b <> "" ->
  JSObject.inherited a = false ->
  existsb (strictEq t) sessionTypeItems = true ->
  usesAiQuizGenerator w ->
  createSession w (mkCreateSessionRequest 1 t) = Ok tt ->
  let s' := dispatchAll [ (w, ClickNewSession); (w, TypeSubject a); (w, TypeTopic b);
                          (w, ChooseType t); (w, ClickCreate) ] s in
  exists new ai,
    generateQuiz w (quizRequestFor a b) = Ok ai /\
    ai <> [] /\
    sessions s' = new :: sessions s /\
    activeSession s' = Some new /\
    subject_area new = a /\ topic new = b /\ session_type new = t /\
    status new = "active" /\
    questions_attempted new = 0 /\ questions_correct new = 0 /\
    currentQuestions s' = map convertQuestion ai /\
    createDialogOpen s' = false /\
    newSessionData s' = mkNewSessionData "" "" "practice" /\
    successMessage s' = "AI-powered quiz created for " ++ b ++ "!".
Proof.
  intros Hl Hv Ha Hb _ Ht Hw Hcreate s'. unfold s'.
  rewrite (dialog_trace w a b t s Hl Hv Ha Hb Ht).
  set (s0 := updNewSessionData (fun _ => mkNewSessionData a b t) (setCreateDialogOpen true s)).
  destruct (real_generator_answers w s0 Hw) as (ai & Hgen & Hne).
  unfold after.
  rewrite (createNewSession_created w s0 ai Hgen Hcreate).
  unfold created. cbv zeta.
  eexists. exists ai. split; [exact Hgen|]. split; [exact Hne|].
  destruct (0 <? len (map convertQuestion ai)); cbn; repeat split.
Qed.

Lemma dialog_values_reach_the_session_witness :
  map (fun x => (subject_area x, topic x, session_type x))
      (sessions (dispatchAll [ (Scenario.world, ClickNewSession);
                               (Scenario.world, TypeSubject "Mathematics");
                               (Scenario.world, TypeTopic "Algebra");
                               (Scenario.world, ChooseType "review");
                               (Scenario.world, ClickCreate) ] Scenario.mounted))
  = [ ("Mathematics", "Algebra", "review"); ("General Knowledge", "Mixed Topics", "practice") ].
Proof.
  destruct (dialog_values_reach_the_session
              Scenario.world "Mathematics" "Algebra" "review" Scenario.mounted
              ltac:(reflexivity) ltac:(reflexivity) ltac:(discriminate) ltac:(discriminate)
              ltac:(reflexivity) ltac:(reflexivity)
              ltac:(exists Scenario.runtime; reflexivity) ltac:(reflexivity))
    as (new & ai & _ & _ & Hs & _ & Hsub & Htop & Hty & _).
  rewrite Hs. cbn [map]. rewrite Hsub, Htop, Hty. reflexivity.
Defined.

(** X12.  [handleNextQuestion] on the last question and [createNewSession]
    both leave [showResults], [isCorrect], [explanation] and
    [selectedAnswer] as they are.  So a quiz created after another one was
    completed opens on the result card of the last answer of the old quiz:
    over the first question of the new quiz neither the options nor Submit
    are offered, only Next, which passes the question by. *)
Theorem new_quiz_opens_on_the_old_result_card
        (w : World) (a b t : string) (s : State) act cq (ai : list AI.Question) :
  loading s = false ->
  activeSession s = Some act ->
  currentQuestion s = Some cq ->
  currentQuestions s <> [] ->
  Scenario.currentIndex s = len (currentQuestions s) - 1 ->
  showResults s = true ->
  a <> "" -> b <> "" ->
  existsb (strictEq t) sessionTypeItems = true ->
  generateQuiz w (quizRequestFor a b) = Ok ai ->
  ai <> [] ->
  createSession w (mkCreateSessionRequest 1 t) = Ok tt ->
  let s' := dispatchAll [ (w, ClickNext);
                          (w, ClickNewSession); (w, TypeSubject a); (w, TypeTopic b);
                          (w, ChooseType t); (w, ClickCreate) ] s in
  currentQuestion s' = option_map convertQuestion (head ai) /\
  sessionView s' = true /\
  showResults s' = true /\
  selectedAnswer s' = selectedAnswer s /\
  isCorrect s' = isCorrect s /\
  explanationText s' = explanationText s /\
  enabled ClickSubmit s' = false /\
  (forall k, enabled (SelectAnswer k) s' = false) /\
  enabled ClickNext s' = true.
Proof.
  intros Hl Ha Hq Hqs Hidx Hres Hna Hnb Ht Hgen Hne Hcreate s'.
  assert (E1 : dispatch w ClickNext s = after handleNextQuestion s).
  { unfold dispatch, enabled, spinner. rewrite Hl. cbn [andb negb control].
    unfold sessionView. now rewrite Ha, Hq, Hres. }
  destruct (handleNextQuestion_last s act Ha Hqs Hidx) as (N1 & N2 & N3 & N4 & N5).
  assert (Hkeep : showResults (after handleNextQuestion s) = true /\
                  selectedAnswer (after handleNextQuestion s) = selectedAnswer s /\
                  isCorrect (after handleNextQuestion s) = isCorrect s /\
                  explanationText (after handleNextQuestion s) = explanationText s /\
                  loading (after handleNextQuestion s) = false).
  { run_handler. rewrite Ha.
    destruct (len (currentQuestions s) =? 0) eqn:E.
    { apply len_zero_iff in E. contradiction. }
    unfold Scenario.currentIndex in Hidx. rewrite Hidx, Z.ltb_irrefl.
    cbn. now rewrite Hres, Hl. }
  destruct Hkeep as (K1 & K2 & K3 & K4 & K5).
  unfold s'.
  change (dispatchAll [ (w, ClickNext);
                        (w, ClickNewSession); (w, TypeSubject a); (w, TypeTopic b);
                        (w, ChooseType t); (w, ClickCreate) ] s)
    with (dispatchAll [ (w, ClickNewSession); (w, TypeSubject a); (w, TypeTopic b);
                        (w, ChooseType t); (w, ClickCreate) ] (dispatch w ClickNext s)).
  rewrite E1.
  cbv zeta in N1, N2, N3, N4, N5.
  remember (after handleNextQuestion s) as s1 eqn:Es1.
  assert (Hv1 : sessionView s1 = false) by (unfold sessionView; now rewrite N2).
  rewrite (dialog_trace w a b t s1 K5 Hv1 Hna Hnb Ht).
  set (s0 := updNewSessionData (fun _ => mkNewSessionData a b t) (setCreateDialogOpen true s1)).
  assert (Ec : after (createNewSession w) s0 = created w ai s0)
    by (unfold after; now rewrite (createNewSession_created w s0 ai Hgen Hcreate)).
  rewrite Ec. clear Ec.
  unfold created. cbv zeta.
  destruct ai as [|q0 ai']; [congruence|].
  change (0 <? len (map convertQuestion (q0 :: ai'))) with true.
  cbv beta iota.
  unfold enabled, spinner, sessionView.
  cbn. rewrite K1, K2, K3, K4.
  repeat split.
Qed.

(** The Algebra quiz answered to its last question, completed, and a second
    Algebra quiz created. *)
Lemma new_quiz_opens_on_the_old_result_card_witness :
  let s := dispatchAll (Scenario.answer 0 ++ Scenario.answer 1 ++ Scenario.answer 2
                        ++ [ (Scenario.world, SelectAnswer 3); (Scenario.world, ClickSubmit) ])
                       Scenario.started in
  let s' := dispatchAll ((Scenario.world, ClickNext) :: Scenario.openQuiz) s in
  sessionView s' = true /\ showResults s' = true /\ enabled ClickSubmit s' = false.
Proof.
  intros s s'.
  destruct (new_quiz_opens_on_the_old_result_card
              Scenario.world "Mathematics" "Algebra" "quiz" s
              (match activeSession s with Some x => x | None => Scenario.demoSession end)
              (Scenario.questionAt 3)
              (Scenario.generated Scenario.runtime)
              ltac:(vm_compute; reflexivity) ltac:(vm_compute; reflexivity)
              ltac:(vm_compute; reflexivity) ltac:(vm_compute; discriminate)
              ltac:(vm_compute; reflexivity) ltac:(vm_compute; reflexivity)
              ltac:(discriminate) ltac:(discriminate) ltac:(reflexivity)
              ltac:(vm_compute; reflexivity) ltac:(vm_compute; discriminate)
              ltac:(reflexivity))
    as (_ & Hv & Hr & _ & _ & _ & Hsub & _).
  repeat split; assumption.
Defined.

(** [createNewSession] behind the axios instance: the quiz of the generator,
    then the request for the session, whose rejection passes the response
    interceptor on its way to the [catch] clause. *)
Lemma page_createNewSession (be : Page.Backend) (p : Page.State) :
  let s := Page.component p in
  let w := Page.worldAt be (Page.browser p) in
  exists ai,
    generateQuiz w (requestOf s) = Ok ai /\
    Page.createNewSession be p
    = match Page.createSessionEndpoint be
              (mkCreateSessionRequest 1 (new_session_type (newSessionData s)))
              (Api.authorization (Page.browser p)) with
      | Api.Fulfilled _ => (Ok tt, Page.mkState (created w ai s) (Page.browser p))
      | Api.Rejected e =>
          (Ok tt, Page.mkState (creationFailed s) (Api.onRejected e (Page.browser p)))
      end.
Proof.
  destruct p as [s b]. cbv zeta. cbn [Page.component Page.browser].
  destruct (generateQuiz_fulfilled (Page.runtime be) (requestOf s)) as [ai Hai].
  exists ai. split; [exact Hai|].
  run_page. unfold requestOf in Hai. rewrite Hai. cbv beta iota zeta.
  destruct (Page.createSessionEndpoint be _ _) as [[]|e]; cbv beta iota zeta; [|reflexivity].
  unfold created. cbv zeta.
  destruct (0 <? len (map convertQuestion ai)); reflexivity.
Qed.

(** On the cells of the component this is [createNewSession] in the world
    whose calls are answered through the instance. *)
Lemma page_createNewSession_component (be : Page.Backend) (p : Page.State) :
  let out := Page.createNewSession be p in
  let seen := createNewSession (Page.worldAt be (Page.browser p)) (Page.component p) in
  fst out = fst seen /\ Page.component (snd out) = snd seen.
Proof.
  cbv zeta.
  destruct (page_createNewSession be p) as (ai & Hgen & Hrun). cbv zeta in Hrun.
  rewrite Hrun.
  destruct (Page.createSessionEndpoint be _ _) as [[]|e] eqn:Hcreate.
  - rewrite (createNewSession_created _ _ ai Hgen).
    + split; reflexivity.
    + cbn [Page.worldAt createSession]. now rewrite Hcreate.
  - rewrite (createNewSession_backend_failed _ _ ai (Page.textOf e) Hgen).
    + split; reflexivity.
    + cbn [Page.worldAt createSession]. now rewrite Hcreate.
Qed.

(** X13.  When the request of [learningAPI.createSession] is rejected, the
    quiz the generator has already delivered is dropped: no session is
    added, no session runs, the questions and the dialog with what was typed
    stay as they were; of the cells of the component only [error] and
    [loading] are written (the reason is not even logged), and the promise
    is fulfilled all the same.  The browser is what the response interceptor
    leaves: as it was, unless the rejection is a 401, on which the token is
    removed and the window is sent to [/login].  (For a subject that is not
    the name of a member of [Object.prototype]; for such a name the
    conversion throws before the request is sent.) *)
Theorem rejected_createSession_drops_the_quiz
        (be : Page.Backend) (p : Page.State) (err : Api.Error) :
  let s := Page.component p in
  JSObject.inherited (new_subject_area (newSessionData s)) = false ->
  Page.createSessionEndpoint be
    (mkCreateSessionRequest 1 (new_session_type (newSessionData s)))
    (Api.authorization (Page.browser p)) = Api.Rejected err ->
  let out := Page.createNewSession be p in
  let s' := Page.component (snd out) in
  fst out = Ok tt /\
  sessions s' = sessions s /\
  activeSession s' = activeSession s /\
  currentQuestions s' = currentQuestions s /\
  currentQuestion s' = currentQuestion s /\
  createDialogOpen s' = createDialogOpen s /\
  newSessionData s' = newSessionData s /\
  successMessage s' = successMessage s /\
  console s' = console s /\
  error s' = "Failed to create AI-powered learning session" /\
  loading s' = false /\
  Page.browser (snd out) = Api.onRejected err (Page.browser p) /\
  (Api.status err <> Some 401 -> Page.browser (snd out) = Page.browser p) /\
  (Api.status err = Some 401 ->
   Api.storedToken (Page.browser (snd out)) = None /\
   Api.location (Page.browser (snd out)) = "/login").
Proof.
  cbv zeta. intros _ Hcreate.
  destruct (page_createNewSession be p) as (ai & _ & Hrun). cbv zeta in Hrun.
  rewrite Hrun, Hcreate. cbn [fst snd Page.component Page.browser].
  repeat (split; [reflexivity|]).
  unfold Api.onRejected. split.
  - intros Hne. destruct (Api.status err) as [code|]; [|reflexivity].
    destruct (code =? 401) eqn:E; [|reflexivity].
    apply Z.eqb_eq in E. subst code. now contradiction Hne.
  - intros ->. split; reflexivity.
Qed.

(** The back end answers the new session with an internal error: the
    collection and the browser are what they were. *)
Lemma rejected_createSession_drops_the_quiz_witness :
  let be := Scenario.backend (Api.Rejected serverError) (Api.Fulfilled tt) in
  let out := Page.createNewSession be (Page.mkState Scenario.dialogFilled Scenario.signedIn) in
  sessions (Page.component (snd out)) = sessions Scenario.dialogFilled /\
  Page.browser (snd out) = Scenario.signedIn.
Proof.
  cbv zeta.
  pose proof (rejected_createSession_drops_the_quiz
                (Scenario.backend (Api.Rejected serverError) (Api.Fulfilled tt))
                (Page.mkState Scenario.dialogFilled Scenario.signedIn) serverError
                ltac:(reflexivity) ltac:(reflexivity)) as H.
  cbv zeta in H.
  destruct H as (_ & Hs & _ & _ & _ & _ & _ & _ & _ & _ & _ & _ & Hb & _).
  split; [exact Hs | apply Hb; discriminate].
Defined.

(** ** Pausing *)

(** X14.  Pausing never loses the way back.  Every entry of the collection
    with the id of the running session becomes that session with status
    ['paused'], every other entry stays as it is, the view returns to the
    session list, and the card of a paused entry offers Resume. *)
Theorem paused_session_can_be_resumed (s : State) act (k : nat) x :
  loading s = false ->
  activeSession s = Some act ->
  nth_error (sessions s) k = Some x ->
  let s' := after pauseSession s in
  sessionView s' = false /\
  length (sessions s') = length (sessions s) /\
  nth_error (sessions s') k
  = Some (if sid x =? sid act then withStatus "paused" act else x) /\
  (sid x = sid act -> enabled (ClickResume k) s' = true).
Proof.
  intros Hl Ha Hk s'. unfold s', after.
  rewrite (pauseSession_active s act Ha). unfold paused.
  cbn [snd sessionView activeSession currentQuestion sessions setSuccessMessage
       setCurrentQuestion setActiveSession updSessions isSome andb].
  split; [reflexivity|]. split; [apply length_map|].
  assert (Hn : nth_error (map (fun x0 => if sid x0 =? sid act then withStatus "paused" act else x0)
                              (sessions s)) k
               = Some (if sid x =? sid act then withStatus "paused" act else x)).
  { rewrite nth_error_map, Hk. reflexivity. }
  split; [exact Hn|].
  intros Hid. unfold enabled, spinner.
  cbn [loading setSuccessMessage setCurrentQuestion setActiveSession updSessions
       control sessionView activeSession currentQuestion sessions isSome andb negb].
  rewrite Hl, Hn, Hid, Z.eqb_refl. reflexivity.
Qed.

Lemma paused_session_can_be_resumed_witness :
  enabled (ClickResume 0) (after pauseSession Scenario.twoAnswered) = true.
Proof.
  destruct (paused_session_can_be_resumed
              Scenario.twoAnswered
              (match activeSession Scenario.twoAnswered with
               | Some x => x | None => Scenario.demoSession end)
              0%nat
              (nth 0 (sessions Scenario.twoAnswered) Scenario.demoSession)
              ltac:(vm_compute; reflexivity) ltac:(vm_compute; reflexivity)
              ltac:(vm_compute; reflexivity))
    as (_ & _ & _ & Hres).
  apply Hres. vm_compute. reflexivity.
Defined.

(** ** Question ids *)

Lemma answerOne_shared_id (w : World) (a : string) (s : State) act q0 q1 rest :
  activeSession s = Some act ->
  currentQuestions s = q0 :: q1 :: rest ->
  qid q1 = qid q0 ->
  currentQuestion s = Some q1 ->
  a <> "" ->
  let s' := answerOne w a s in
  activeSession s' = Some (tally act 1 (if strictEq a (correct_answer q1) then 1 else 0)) /\
  currentQuestions s' = q0 :: q1 :: rest /\
  currentQuestion s' = Some q1.
Proof.
  intros Ha Hqs Hid Hq Hsel s'. unfold s', answerOne.
  set (s0 := setSelectedAnswer a s).
  assert (E : exists c, after (handleAnswerSubmit w) s0
                        = mkState (sessions (scored act q1 s0))
                                  (activeSession (scored act q1 s0))
                                  (currentQuestion s) (currentQuestions s)
                                  (selectedAnswer (scored act q1 s0))
                                  (showResults (scored act q1 s0))
                                  (isCorrect (scored act q1 s0))
                                  (explanationText (scored act q1 s0))
                                  (loading s) (error s) (successMessage s)
                                  (createDialogOpen s) (newSessionData s) c).
  { unfold after. rewrite (handleAnswerSubmit_accepted w s0 act q1 Ha Hq Hsel).
    destruct (logInteraction w _ _) as [[]|e]; eexists; reflexivity. }
  destruct E as [c E]. rewrite E. clear E.
  run_handler.
  cbn [activeSession currentQuestions currentQuestion scored setActiveSession updSessions
       selectedAnswer s0 setSelectedAnswer].
  rewrite Hqs, Hq. cbv beta iota.
  assert (Hidx : findIndex (fun q => strictEq (qid q) (qid q1)) (q0 :: q1 :: rest) = 0).
  { rewrite Hid. apply findIndex_head. }
  rewrite Hidx.
  assert (Hlen : (len (q0 :: q1 :: rest) =? 0) = false).
  { apply Z.eqb_neq. unfold len. simpl length. lia. }
  assert (Hlt : (0 <? len (q0 :: q1 :: rest) - 1) = true).
  { apply Z.ltb_lt. unfold len. simpl length. lia. }
  rewrite Hlen, Hlt. cbn. repeat split.
Qed.

(** X15.  [handleNextQuestion] finds the question on display by its id.  When
    the second question of a list has the id of the first one, Next on the
    second question shows the second question again: however often the user
    answers and moves on, the quiz stays there and never completes; and
    every answer counts as a further attempt, as long as the counters stay
    within the range in which binary64 counts in steps of one. *)
Theorem shared_id_stalls_the_quiz
        (w : World) (a : string) (n : nat) (s : State) act q0 q1 rest :
  activeSession s = Some act ->
  currentQuestions s = q0 :: q1 :: rest ->
  qid q1 = qid q0 ->
  currentQuestion s = Some q1 ->
  a <> "" ->
  let s' := repeatedly n (answerOne w a) s in
  currentQuestion s' = Some q1 /\
  currentQuestions s' = q0 :: q1 :: rest /\
  exists act',
    activeSession s' = Some act' /\
    sid act' = sid act /\
    (countsExactly (Z.of_nat n) act ->
     questions_attempted act' = questions_attempted act + Z.of_nat n).
Proof.
  intros Ha Hqs Hid Hq Hsel. revert s act Ha Hqs Hq.
  induction n as [|n IH]; intros s act Ha Hqs Hq.
  - cbn. repeat split; try assumption. exists act. repeat split; [assumption | lia].
  - destruct (answerOne_shared_id w a s act q0 q1 rest Ha Hqs Hid Hq Hsel) as (S1 & S2 & S3).
    specialize (IH (answerOne w a s) _ S1 S2 S3).
    cbv zeta in IH |- *. cbn [repeatedly].
    destruct IH as (I1 & I2 & act' & I3 & I4 & I5).
    repeat split; try assumption.
    exists act'. repeat split; try assumption.
    intros [Hroom Hroom'].
    rewrite I5; [cbn [questions_attempted tally]; lia|].
    unfold countsExactly. cbn [questions_attempted questions_correct tally].
    destruct (strictEq a (correct_answer q1)); lia.
Qed.

Lemma shared_id_stalls_the_quiz_witness :
  let s := setCurrentQuestion (Some Scenario.parisQuestion)
             (setCurrentQuestions [ Scenario.parisQuestion; Scenario.parisQuestion;
                                    Scenario.twoPlusTwoQuestion ]
                (setActiveSession (Some Scenario.demoSession) Scenario.mounted)) in
  currentQuestion (repeatedly 7 (answerOne Scenario.world "Paris") s)
  = Some Scenario.parisQuestion.
Proof.
  intros s.
  apply (shared_id_stalls_the_quiz
           Scenario.world "Paris" 7 s Scenario.demoSession
           Scenario.parisQuestion Scenario.parisQuestion [ Scenario.twoPlusTwoQuestion ]
           ltac:(reflexivity) ltac:(reflexivity) ltac:(reflexivity) ltac:(reflexivity)
           ltac:(discriminate)).
Defined.

(** ** Resuming *)

(** X16.  A Resume whose quiz generation is rejected changes nothing the
    user has: the collection, the running session, the questions and the
    answer selected stay as they were, the session list stays on display,
    and the failure shows as the error snackbar and as a line on the
    console. *)
Theorem failed_resume_changes_nothing (w : World) (k : nat) (s : State) session (e : string) :
  enabled (ClickResume k) s = true ->
  nth_error (sessions s) k = Some session ->
  generateQuiz w (quizRequestFor (subject_area session) (topic session)) = Throw e ->
  let s' := dispatch w (ClickResume k) s in
  sessions s' = sessions s /\
  activeSession s' = activeSession s /\
  currentQuestions s' = currentQuestions s /\
  currentQuestion s' = currentQuestion s /\
  selectedAnswer s' = selectedAnswer s /\
  showResults s' = showResults s /\
  sessionView s' = false /\
  loading s' = false /\
  error s' = "Failed to generate quiz questions" /\
  enabled CloseError s' = true /\
  console s' = (console s ++ [ ("Error generating questions for session: " ++ e)%string ])%list.
Proof.
  intros Hen Hk Hgen s'. unfold s', dispatch. rewrite Hen.
  pose proof (enabled_control _ _ Hen) as Hc. cbn [control] in Hc.
  apply andb_true_iff in Hc. destruct Hc as [Hv _]. apply negb_true_iff in Hv.
  assert (E : after (handler w (ClickResume k)) s = resumeFailed e s).
  { unfold after. cbn [handler]. unfold bind, snapshot. rewrite Hk.
    now rewrite (startSession_failed w s session e Hgen). }
  rewrite E. clear E.
  change (sessionView (resumeFailed e s)) with (sessionView s). rewrite Hv.
  repeat split.
Qed.

Lemma failed_resume_changes_nothing_witness :
  let w := Scenario.withGenerator (Throw "out of memory") Scenario.world in
  sessions (dispatch w (ClickResume 0) Scenario.mounted) = sessions Scenario.mounted.
Proof.
  intros w.
  apply (failed_resume_changes_nothing
           w 0%nat Scenario.mounted Scenario.demoSession "out of memory"
           ltac:(reflexivity) ltac:(reflexivity) ltac:(reflexivity)).
Defined.

(** ** The second component *)

Lemma simple_bind_snapshot {B : Type}
      (k : LearningSessionSimple.State -> LearningSessionSimple.M B)
      (s : LearningSessionSimple.State) :
  LearningSessionSimple.bind LearningSessionSimple.snapshot k s = k s s.
Proof. reflexivity. Qed.

Lemma simple_bind_set {B : Type}
      (f : LearningSessionSimple.State -> LearningSessionSimple.State)
      (k : unit -> LearningSessionSimple.M B) (s : LearningSessionSimple.State) :
  LearningSessionSimple.bind (LearningSessionSimple.set f) k s = k tt (f s).
Proof. reflexivity. Qed.

(** The calls to the back end at the end of [handleAnswerSubmit] write to
    the console only. *)
Lemma simple_report_console (b1 b2 : bool) (r1 r2 : result unit)
      (s0 : LearningSessionSimple.State) :
  let m :=
    LearningSessionSimple.tryCatch
      (LearningSessionSimple.bind
         (if b1 then
            LearningSessionSimple.tryCatch (LearningSessionSimple.await r1)
              (fun quizError =>
                 LearningSessionSimple.set
                   (LearningSessionSimple.consoleLog
                      ("Quiz submission failed, continuing: " ++ quizError)))
          else LearningSessionSimple.ret tt)
         (fun _ =>
            if b2 then
              LearningSessionSimple.tryCatch (LearningSessionSimple.await r2)
                (fun interactionError =>
                   LearningSessionSimple.set
                     (LearningSessionSimple.consoleLog
                        ("Interaction logging failed, continuing: " ++ interactionError)))
            else LearningSessionSimple.ret tt))
      (fun error =>
         LearningSessionSimple.set
           (LearningSessionSimple.consoleLog ("Error in answer submission: " ++ error))) in
  fst (m s0) = Ok tt /\ simpleCells (snd (m s0)) = simpleCells s0.
Proof.
  destruct b1, b2, r1 as [[]|e1], r2 as [[]|e2]; split; reflexivity.
Qed.

(** The cells the handler leaves, the console trace aside, are the same
    whatever [submitQuiz] and [logInteraction] answer, and whether or not
    they are called. *)
Lemma simple_submit_cells
      (w w' : LearningSessionSimple.World) (s : LearningSessionSimple.State) :
  fst (LearningSessionSimple.handleAnswerSubmit w s) = Ok tt /\
  simpleCells (LearningSessionSimple.after (LearningSessionSimple.handleAnswerSubmit w) s)
  = simpleCells (LearningSessionSimple.after (LearningSessionSimple.handleAnswerSubmit w') s).
Proof.
  unfold LearningSessionSimple.after, LearningSessionSimple.handleAnswerSubmit.
  rewrite !simple_bind_snapshot.
  destruct (LearningSessionSimple.currentQuestion s) as [cq|],
           (LearningSessionSimple.activeSession s) as [act|]; try (split; reflexivity).
  destruct (falsyString (LearningSessionSimple.selectedAnswer s)); [split; reflexivity|].
  cbv zeta. rewrite !simple_bind_set.
  match goal with
  | |- fst (?m ?s0) = _ /\ _ = simpleCells (snd (?m' ?s0)) => 
      generalize s0; intros s0'
  end.
  pose proof (simple_report_console
                (LearningSessionSimple.hasAttemptId (LearningSessionSimple.activeQuizAttempt s))
                (LearningSessionSimple.hasNumericId w act)
                (LearningSessionSimple.submitQuiz w) (LearningSessionSimple.logInteraction w)
                s0') as [H1 H2].
  pose proof (simple_report_console
                (LearningSessionSimple.hasAttemptId (LearningSessionSimple.activeQuizAttempt s))
                (LearningSessionSimple.hasNumericId w' act)
                (LearningSessionSimple.submitQuiz w') (LearningSessionSimple.logInteraction w')
                s0') as [H1' H2'].
  split; [exact H1|]. rewrite H2'. exact H2.
Qed.

Ltac run_simple_page :=
  cbv beta iota zeta delta
    [SimplePage.after SimplePage.bind SimplePage.ret SimplePage.tryCatch SimplePage.tryFinally
     SimplePage.throw SimplePage.cell SimplePage.call Page.seen
     SimplePage.handleAnswerSubmit SimplePage.createNewSession
     SimplePage.component SimplePage.browser
     LearningSessionSimple.snapshot LearningSessionSimple.set fst snd].

(** A request through the instance leaves the browser as it is or signed
    out. *)
Lemma request_browser {A : Type} (server : option string -> Api.Response A) (b : Api.Browser) :
  snd (Api.request server b) = b \/ snd (Api.request server b) = SimplePage.signedOut.
Proof.
  unfold Api.request.
  destruct (server (Api.authorization b)) as [data|e]; [now left|].
  cbn [snd]. unfold Api.onRejected.
  destruct (Api.status e) as [code|]; [|now left].
  destruct (code =? 401); [now right | now left].
Qed.

Lemma request_seen {A : Type} (server : option string -> Api.Response A) (b : Api.Browser) :
  fst (Api.request server b) = server (Api.authorization b).
Proof.
  unfold Api.request. now destruct (server (Api.authorization b)).
Qed.

(** The submit handler of the second component behind the axios instance:
    on the cells of the component it is the handler in the world of the
    answers the two requests get, the second one sent from the browser the
    first one leaves; the browser is what the two responses make of it. *)
Lemma simple_page_handleAnswerSubmit (be : SimplePage.Backend) (p : SimplePage.State) :
  let s := SimplePage.component p in
  let b1 := if simpleSubmits s
               && LearningSessionSimple.hasAttemptId (LearningSessionSimple.activeQuizAttempt s)
            then snd (Api.request (SimplePage.submitQuizEndpoint be) (SimplePage.browser p))
            else SimplePage.browser p in
  let b2 := if simpleSubmits s && simpleLogs be s
            then snd (Api.request (SimplePage.logInteractionEndpoint be) b1)
            else b1 in
  let out := SimplePage.handleAnswerSubmit be p in
  let seen := LearningSessionSimple.handleAnswerSubmit
                (SimplePage.worldAt be (SimplePage.browser p) b1) s in
  fst out = fst seen /\ SimplePage.component (snd out) = snd seen /\
  SimplePage.browser (snd out) = b2.
Proof.
  destruct p as [s b]. cbv zeta. cbn [SimplePage.component SimplePage.browser].
  unfold simpleSubmits, simpleLogs, LearningSessionSimple.handleAnswerSubmit.
  run_simple_page. run_simple.
  destruct (LearningSessionSimple.currentQuestion s) as [cq|];
    [|repeat split; destruct (LearningSessionSimple.activeSession s); reflexivity].
  destruct (LearningSessionSimple.activeSession s) as [act|]; [|repeat split].
  destruct (falsyString (LearningSessionSimple.selectedAnswer s)); [repeat split|].
  cbn [negb andb].
  change (LearningSessionSimple.hasNumericId (SimplePage.worldAt be b ?x) act)
    with (SimplePage.hasNumericId be act).
  cbn [SimplePage.worldAt LearningSessionSimple.submitQuiz LearningSessionSimple.logInteraction].
  destruct (LearningSessionSimple.hasAttemptId (LearningSessionSimple.activeQuizAttempt s));
    destruct (SimplePage.hasNumericId be act); cbn [andb];
    unfold Api.request;
    repeat match goal with
           | |- context [SimplePage.submitQuizEndpoint be ?h] =>
               destruct (SimplePage.submitQuizEndpoint be h) as [[]|?]
           | |- context [SimplePage.logInteractionEndpoint be ?h] =>
               destruct (SimplePage.logInteractionEndpoint be h) as [[]|?]
           end;
    repeat split.
Qed.

(** The creation handler of the second component behind the axios instance:
    on the cells of the component it is the handler in the world of the
    answers its requests get.  ([createSession] is requested only after
    [generateQuiz] was fulfilled, hence from the same browser.) *)
Lemma simple_page_createNewSession (be : SimplePage.Backend) (p : SimplePage.State) :
  let out := SimplePage.createNewSession be p in
  let seen := LearningSessionSimple.createNewSession
                (SimplePage.worldAt be (SimplePage.browser p) (SimplePage.browser p))
                (SimplePage.component p) in
  fst out = fst seen /\ SimplePage.component (snd out) = snd seen.
Proof.
  destruct p as [s b]. cbv zeta. cbn [SimplePage.component SimplePage.browser].
  run_simple_page. run_simple. unfold Api.request.
  cbn [SimplePage.worldAt LearningSessionSimple.generateLesson LearningSessionSimple.generateQuiz
       LearningSessionSimple.createSession LearningSessionSimple.dateNow
       LearningSessionSimple.isoNow].
  unfold Page.seen.
  destruct (strictEq _ "lesson").
  - destruct (SimplePage.generateLessonEndpoint be (Api.authorization b)) as [l|e];
      split; reflexivity.
  - destruct (SimplePage.generateQuizEndpoint be (Api.authorization b)) as [d|e];
      [|split; reflexivity].
    cbv beta iota zeta.
    destruct (len (LearningSessionSimple.questionsDataOf d) =? 0); [split; reflexivity|].
    destruct (SimplePage.createSessionEndpoint be (Api.authorization b)) as [i|e];
      cbv beta iota zeta;
      destruct (0 <? len (LearningSessionSimple.convertQuestions
                            (LearningSessionSimple.questionsDataOf d)));
      split; reflexivity.
Qed.

(** X17.  In the second component, behind the axios instance,
    [handleAnswerSubmit] never rejects, and the cells of the component it
    leaves, the console trace aside, do not depend on the back end nor on
    the browser: they are the same whatever [quizAPI.submitQuiz] and
    [learningAPI.logInteraction] answer, and whether or not they are called.
    The browser is what the response interceptor of [api.ts] makes of the
    answers to the requests that are sent ([submitQuiz] when there is a quiz
    attempt with an id, then [logInteraction] when the id of the session
    reads as a number other than 0): unchanged, or, after a 401, without the
    token and at [/login]. *)
Theorem simple_submit_ignores_the_back_end
        (be be' : SimplePage.Backend) (p : SimplePage.State) (b' : Api.Browser) :
  let s := SimplePage.component p in
  let out := SimplePage.handleAnswerSubmit be p in
  let out' := SimplePage.handleAnswerSubmit be' (SimplePage.mkState s b') in
  let b1 := if simpleSubmits s
               && LearningSessionSimple.hasAttemptId (LearningSessionSimple.activeQuizAttempt s)
            then snd (Api.request (SimplePage.submitQuizEndpoint be) (SimplePage.browser p))
            else SimplePage.browser p in
  let b2 := if simpleSubmits s && simpleLogs be s
            then snd (Api.request (SimplePage.logInteractionEndpoint be) b1)
            else b1 in
  fst out = Ok tt /\
  simpleCells (SimplePage.component (snd out)) = simpleCells (SimplePage.component (snd out')) /\
  SimplePage.browser (snd out) = b2 /\
  (SimplePage.browser (snd out) = SimplePage.browser p \/
   SimplePage.browser (snd out) = SimplePage.signedOut).
Proof.
  cbv zeta.
  destruct (simple_page_handleAnswerSubmit be p) as (Hr & Hc & Hb).
  destruct (simple_page_handleAnswerSubmit be' (SimplePage.mkState (SimplePage.component p) b'))
    as (_ & Hc' & _).
  cbn [SimplePage.component SimplePage.browser] in Hc'.
  rewrite Hr, Hc, Hc'.
  match goal with
  | |- fst (LearningSessionSimple.handleAnswerSubmit ?w ?s) = _ /\
       _ = simpleCells (snd (LearningSessionSimple.handleAnswerSubmit ?w' ?s)) /\ _ =>
      destruct (simple_submit_cells w w' s) as [H1 H2]
  end.
  split; [exact H1|]. split; [exact H2|]. split; [exact Hb|].
  rewrite Hb.
  destruct (simpleSubmits (SimplePage.component p)
            && LearningSessionSimple.hasAttemptId
                 (LearningSessionSimple.activeQuizAttempt (SimplePage.component p))).
  - destruct (request_browser (SimplePage.submitQuizEndpoint be) (SimplePage.browser p))
      as [E|E]; rewrite E;
      (destruct (simpleSubmits (SimplePage.component p) && simpleLogs be (SimplePage.component p));
       [|first [now left | now right]]).
    + apply request_browser.
    + destruct (request_browser (SimplePage.logInteractionEndpoint be) SimplePage.signedOut)
        as [E'|E']; rewrite E'; now right.
  - destruct (simpleSubmits (SimplePage.component p) && simpleLogs be (SimplePage.component p));
      [apply request_browser | now left].
Qed.

(** The one question is submitted in a signed-in browser and the logging
    request is answered with 401: the answer is scored and no error is
    shown, and the browser is signed out. *)
Lemma simple_unauthorized_logging :
  let be := Scenario.Simple.backend (Api.Fulfilled (Some "2"))
              (Api.Fulfilled tt) (Api.Rejected Scenario.expired) in
  let s := Scenario.Simple.optionSelected in
  let out := SimplePage.handleAnswerSubmit be (SimplePage.mkState s Scenario.signedIn) in
  LearningSessionSimple.submitEnabled s = true /\
  LearningSessionSimple.showResults (SimplePage.component (snd out)) = true /\
  LearningSessionSimple.error (SimplePage.component (snd out)) = "" /\
  SimplePage.browser (snd out) = SimplePage.signedOut.
Proof.
  vm_compute. repeat split.
Qed.

Lemma simple_showZ_nonempty (z : Z) : LearningSessionSimple.showZ z <> "".
Proof.
  unfold LearningSessionSimple.showZ, NilZero.string_of_int, NilZero.string_of_uint.
  destruct (Z.to_int z) as [d|d]; destruct d; discriminate.
Qed.

Lemma append_nonempty_r (a b : string) : b <> "" -> (a ++ b)%string <> "".
Proof.
  intros Hb. destruct a; simpl; [exact Hb | discriminate].
Qed.

(** The content of a lesson has a title, a text and an introduction, whatever
    the back end left out of its answer. *)
Lemma lessonContentOf_filled
      (d : LearningSessionSimple.NewSessionData) (lessonData : LearningSessionSimple.LessonData) :
  let c := LearningSessionSimple.lessonContentOf d lessonData in
  LearningSessionSimple.title c <> "" /\
  (exists text, LearningSessionSimple.full_content c = Some text /\ text <> "") /\
  LearningSessionSimple.introduction c <> "".
Proof.
  assert (Ht : (LearningSessionSimple.new_topic d ++ " - "
                ++ LearningSessionSimple.new_subject_area d)%string <> "").
  { apply append_nonempty_r. discriminate. }
  assert (Hw : LearningSessionSimple.welcomeText (LearningSessionSimple.new_topic d) <> "")
    by discriminate.
  unfold LearningSessionSimple.lessonContentOf. cbv zeta.
  destruct (LearningSessionSimple.lesson lessonData) as [l|].
  2:{ cbn. repeat split; try assumption. eexists; split; [reflexivity | assumption]. }
  destruct (LearningSessionSimple.lesson_content l) as [[text|o]|].
  - destruct (falsyString text) eqn:E.
    + cbn. repeat split; try assumption. eexists; split; [reflexivity | assumption].
    + cbn [LearningSessionSimple.title LearningSessionSimple.full_content
           LearningSessionSimple.introduction].
      split; [now apply orString_nonempty|]. split.
      * exists text. split; [reflexivity|]. unfold falsyString in E.
        now apply String.eqb_neq in E.
      * apply append_nonempty_r. discriminate.
  - cbn [LearningSessionSimple.title LearningSessionSimple.full_content
         LearningSessionSimple.introduction].
    split; [now apply orString_nonempty|]. split.
    + eexists. split; [reflexivity|].
      apply orString_nonempty. now apply orString_nonempty.
    + now apply orString_nonempty.
  - cbn. repeat split; try assumption. eexists; split; [reflexivity | assumption].
Qed.

(** X18.  A lesson session is created whenever [generateLesson] is
    fulfilled, however little the answer holds: it is put first in the
    collection and made the running session, with a non-empty id, type
    ['lesson'], an estimated duration that is not 0, and a content whose
    title, text and introduction are not empty.  The questions of the
    component are not touched. *)
Theorem lesson_session_always_has_content
        (w : LearningSessionSimple.World) (s : LearningSessionSimple.State)
        (lessonData : LearningSessionSimple.LessonData) :
  strictEq (LearningSessionSimple.new_session_type (LearningSessionSimple.newSessionData s))
           "lesson" = true ->
  LearningSessionSimple.generateLesson w = Ok lessonData ->
  let out := LearningSessionSimple.createNewSession w s in
  fst out = Ok tt /\
  LearningSessionSimple.currentQuestions (snd out) = LearningSessionSimple.currentQuestions s /\
  LearningSessionSimple.currentQuestion (snd out) = LearningSessionSimple.currentQuestion s /\
  exists new c text n,
    LearningSessionSimple.sessions (snd out) = new :: LearningSessionSimple.sessions s /\
    LearningSessionSimple.activeSession (snd out) = Some new /\
    LearningSessionSimple.sid new <> "" /\
    LearningSessionSimple.session_type new = "lesson" /\
    LearningSessionSimple.duration_estimate new = Some n /\ n <> 0 /\
    LearningSessionSimple.content new = Some c /\
    LearningSessionSimple.title c <> "" /\
    LearningSessionSimple.full_content c = Some text /\ text <> "" /\
    LearningSessionSimple.introduction c <> "".
Proof.
  intros Htype Hgen. run_simple. rewrite Htype, Hgen. cbn.
  destruct (lessonContentOf_filled (LearningSessionSimple.newSessionData s) lessonData)
    as (C1 & (text & C2 & C3) & C4).
  repeat split.
  eexists. exists (LearningSessionSimple.lessonContentOf
                     (LearningSessionSimple.newSessionData s) lessonData), text.
  eexists. repeat split; try eassumption.
  - apply orString_nonempty, simple_showZ_nonempty.
  - unfold orZ. destruct (LearningSessionSimple.lesson lessonData) as [l|]; [|discriminate].
    destruct (LearningSessionSimple.lesson_estimated_duration l) as [v|]; [|discriminate].
    destruct (v =? 0) eqn:E; [discriminate|]. now apply Z.eqb_neq in E.
Qed.

Lemma lesson_session_always_has_content_witness :
  let s := LearningSessionSimple.setNewSessionData
             (LearningSessionSimple.mkNewSessionData "Mathematics" "Algebra" "lesson")
             Scenario.Simple.mounted in
  length (LearningSessionSimple.sessions
            (snd (LearningSessionSimple.createNewSession (Scenario.Simple.world [] "2") s)))
  = 2%nat.
Proof.
  intros s.
  destruct (lesson_session_always_has_content
              (Scenario.Simple.world [] "2") s (LearningSessionSimple.mkLessonData None)
              ltac:(reflexivity) ltac:(reflexivity))
    as (_ & _ & _ & new & c & text & n & Hs & _).
  rewrite Hs. reflexivity.
Defined.

Lemma simple_showZ_inj (a b : Z) :
  LearningSessionSimple.showZ a = LearningSessionSimple.showZ b -> a = b.
Proof.
  exact (showZ_inj a b).
Qed.

Lemma convertQuestionsFrom_nth (l : list LearningSessionSimple.RawQuestion) :
  forall (k : Z) (i : nat) q,
    nth_error (LearningSessionSimple.convertQuestionsFrom k l) i = Some q ->
    LearningSessionSimple.qid q = ("q_" ++ LearningSessionSimple.showZ (k + Z.of_nat i))%string /\
    LearningSessionSimple.explanation q <> "" /\
    falsyNumber (LearningSessionSimple.difficulty q) = false /\
    exists r,
      nth_error l i = Some r /\
      LearningSessionSimple.question q = LearningSessionSimple.raw_question r /\
      LearningSessionSimple.correct_answer q = LearningSessionSimple.raw_correct_answer r /\
      LearningSessionSimple.options q
      = orList (LearningSessionSimple.raw_options r)
               [ LearningSessionSimple.raw_option_a r; LearningSessionSimple.raw_option_b r;
                 LearningSessionSimple.raw_option_c r; LearningSessionSimple.raw_option_d r ].
Proof.
  induction l as [|r l IH]; intros k i q Hq.
  - destruct i; discriminate.
  - destruct i as [|i]; cbn [LearningSessionSimple.convertQuestionsFrom nth_error] in Hq.
    + injection Hq as <-. cbn [LearningSessionSimple.qid LearningSessionSimple.explanation
                               LearningSessionSimple.difficulty LearningSessionSimple.question
                               LearningSessionSimple.correct_answer
                               LearningSessionSimple.options Z.of_nat].
      rewrite Z.add_0_r. split; [reflexivity|].
      split; [apply orString_nonempty; discriminate|].
      split.
      * unfold orNumber. destruct (LearningSessionSimple.raw_difficulty_level r) as [v|].
        -- destruct (falsyNumber v) eqn:E; [reflexivity | exact E].
        -- reflexivity.
      * exists r. repeat split.
    + destruct (IH (k + 1) i q Hq) as (H1 & H2 & H3 & r' & H4 & H5).
      split; [rewrite H1; do 2 f_equal; lia|].
      split; [exact H2|]. split; [exact H3|].
      exists r'. split; [exact H4 | exact H5].
Qed.

Lemma convertQuestionsFrom_length (l : list LearningSessionSimple.RawQuestion) (k : Z) :
  length (LearningSessionSimple.convertQuestionsFrom k l) = length l.
Proof.
  revert k. induction l as [|r l IH]; intros k; simpl; [reflexivity | now rewrite IH].
Qed.

(** X19.  The questions the second component makes of a back-end answer: as
    many as delivered and in the same order; the one at position [i] has
    the id [q_i], so no two share an id and [handleNextQuestion] always
    finds the question on display; text and correct answer are taken as
    delivered; the explanation is never empty and the difficulty never 0. *)
Theorem convertQuestions_numbers_the_questions
        (questionsData : list LearningSessionSimple.RawQuestion) :
  let questions := LearningSessionSimple.convertQuestions questionsData in
  length questions = length questionsData /\
  NoDup (map LearningSessionSimple.qid questions) /\
  forall (i : nat) q,
    nth_error questions i = Some q ->
    LearningSessionSimple.qid q = ("q_" ++ LearningSessionSimple.showZ (Z.of_nat i))%string /\
    findIndex (fun x => strictEq (LearningSessionSimple.qid x) (LearningSessionSimple.qid q))
              questions = Z.of_nat i /\
    LearningSessionSimple.explanation q <> "" /\
    falsyNumber (LearningSessionSimple.difficulty q) = false /\
    exists r,
      nth_error questionsData i = Some r /\
      LearningSessionSimple.question q = LearningSessionSimple.raw_question r /\
      LearningSessionSimple.correct_answer q = LearningSessionSimple.raw_correct_answer r.
Proof.
  intros questions.
  assert (Hnd : NoDup (map LearningSessionSimple.qid questions)).
  { apply (proj2 (NoDup_nth_error _)). intros i j Hi E.
    rewrite length_map in Hi.
    rewrite !nth_error_map in E.
    destruct (nth_error questions i) as [qi|] eqn:Ei.
    2:{ apply nth_error_None in Ei. lia. }
    destruct (nth_error questions j) as [qj|] eqn:Ej; [|discriminate].
    destruct (convertQuestionsFrom_nth _ 0 i qi Ei) as (Hi1 & _).
    destruct (convertQuestionsFrom_nth _ 0 j qj Ej) as (Hj1 & _).
    cbn in E. injection E as E. rewrite Hi1, Hj1 in E.
    injection E as E. apply simple_showZ_inj in E. lia. }
  split; [apply convertQuestionsFrom_length|]. split; [exact Hnd|].
  intros i q Hq.
  destruct (convertQuestionsFrom_nth _ 0 i q Hq) as (H1 & H2 & H3 & r & H4 & H5 & H6 & _).
  split; [exact H1|]. split.
  - clear - Hnd Hq. unfold findIndex.
    assert (G : forall (qs : list LearningSessionSimple.Question) (i : nat) (k : Z),
               NoDup (map LearningSessionSimple.qid qs) ->
               nth_error qs i = Some q ->
               findIndexFrom (fun x => strictEq (LearningSessionSimple.qid x)
                                                (LearningSessionSimple.qid q)) qs k
               = k + Z.of_nat i).
    { induction qs as [|x qs IH]; intros j k Hnd' Hj.
      - destruct j; discriminate.
      - simpl in Hnd'. inversion Hnd' as [|? ? Hnotin Hnd'']; subst.
        destruct j as [|j]; simpl in Hj |- *.
        + injection Hj as ->. unfold strictEq. rewrite String.eqb_refl. lia.
        + assert (Hne : strictEq (LearningSessionSimple.qid x) (LearningSessionSimple.qid q)
                        = false).
          { unfold strictEq. apply String.eqb_neq. intros E. apply Hnotin. rewrite E.
            apply in_map. eapply nth_error_In. exact Hj. }
          rewrite Hne, (IH j (k + 1) Hnd'' Hj). lia. }
    now rewrite (G _ i 0 Hnd Hq).
  - split; [exact H2|]. split; [exact H3|]. exists r. repeat split; assumption.
Qed.

(** X20.  In the second component, behind the axios instance, the session
    does not depend on [learningAPI.createSession]: when that request is
    rejected the quiz session is created all the same, under the reading of
    the clock as its id, with the converted questions and the first of them
    on display; the handler writes the rejection to the console and leaves
    the [error] cell as it is.  The browser is what the response interceptor
    of [api.ts] makes of the rejection: unchanged, unless the status is 401,
    in which case the token is removed and the window sent to [/login]. *)
Theorem simple_rejected_createSession_keeps_the_quiz
        (be : SimplePage.Backend) (p : SimplePage.State)
        (d : LearningSessionSimple.QuizData) (err : Api.Error) :
  let s := SimplePage.component p in
  let b := SimplePage.browser p in
  strictEq (LearningSessionSimple.new_session_type (LearningSessionSimple.newSessionData s))
           "lesson" = false ->
  SimplePage.generateQuizEndpoint be (Api.authorization b) = Api.Fulfilled d ->
  LearningSessionSimple.questionsDataOf d <> [] ->
  SimplePage.createSessionEndpoint be (Api.authorization b) = Api.Rejected err ->
  let out := SimplePage.createNewSession be p in
  let s' := SimplePage.component (snd out) in
  let questions := LearningSessionSimple.convertQuestions (LearningSessionSimple.questionsDataOf d) in
  fst out = Ok tt /\
  LearningSessionSimple.currentQuestions s' = questions /\
  LearningSessionSimple.currentQuestion s' = head questions /\
  LearningSessionSimple.error s' = LearningSessionSimple.error s /\
  LearningSessionSimple.loading s' = false /\
  LearningSessionSimple.console s'
  = (LearningSessionSimple.console s
     ++ [ ("Learning session creation failed, continuing with quiz: "
           ++ Page.textOf err)%string ])%list /\
  (exists new,
    LearningSessionSimple.sessions s' = new :: LearningSessionSimple.sessions s /\
    LearningSessionSimple.activeSession s' = Some new /\
    LearningSessionSimple.sid new = LearningSessionSimple.showZ (SimplePage.dateNow be) /\
    LearningSessionSimple.session_type new
    = LearningSessionSimple.new_session_type (LearningSessionSimple.newSessionData s) /\
    LearningSessionSimple.status new = "active") /\
  SimplePage.browser (snd out) = Api.onRejected err b /\
  (Api.status err <> Some 401 -> SimplePage.browser (snd out) = b) /\
  (Api.status err = Some 401 -> SimplePage.browser (snd out) = SimplePage.signedOut).
Proof.
  destruct p as [s b]. cbv zeta. cbn [SimplePage.component SimplePage.browser].
  intros Htype Hgen Hne Hcreate. run_simple_page.
  unfold Api.request. rewrite Htype. cbv beta iota zeta.
  rewrite Hgen. cbv beta iota zeta.
  destruct (len (LearningSessionSimple.questionsDataOf d) =? 0) eqn:E.
  { apply len_zero_iff in E. contradiction. }
  rewrite Hcreate. cbv beta iota zeta.
  destruct (LearningSessionSimple.questionsDataOf d) as [|r rest]; [congruence|].
  change (0 <? len (LearningSessionSimple.convertQuestions (r :: rest))) with true.
  cbv beta iota zeta.
  repeat match goal with |- _ /\ _ => split end; try reflexivity.
  - eexists. repeat split.
  - intros Hs. unfold Api.onRejected.
    destruct (Api.status err) as [code|]; [|reflexivity].
    destruct (code =? 401) eqn:Ec; [|reflexivity].
    apply Z.eqb_eq in Ec. congruence.
  - intros Hs. unfold Api.onRejected. rewrite Hs. reflexivity.
Qed.

Lemma simple_rejected_createSession_keeps_the_quiz_witness :
  let be := Scenario.Simple.backend (Api.Rejected Scenario.unreachable)
              (Api.Fulfilled tt) (Api.Fulfilled tt) in
  let out := SimplePage.createNewSession be
               (SimplePage.mkState Scenario.Simple.mounted Scenario.signedIn) in
  map LearningSessionSimple.sid (LearningSessionSimple.sessions (SimplePage.component (snd out)))
  = [ "1762041600000"; "1" ] /\
  SimplePage.browser (snd out) = Scenario.signedIn.
Proof.
  intros be.
  destruct (simple_rejected_createSession_keeps_the_quiz
              be (SimplePage.mkState Scenario.Simple.mounted Scenario.signedIn)
              (LearningSessionSimple.mkQuizData None (Some [ Scenario.Simple.rawParis ]))
              Scenario.unreachable
              ltac:(reflexivity) ltac:(reflexivity) ltac:(discriminate) ltac:(reflexivity))
    as (_ & _ & _ & _ & _ & _ & (new & Hs & _ & Hid & _) & _ & Hb & _).
  cbv zeta. split.
  - rewrite Hs. cbn [map]. rewrite Hid. reflexivity.
  - apply Hb. discriminate.
Defined.

(** The same creation with the rejection a 401: the session is created and
    no error is shown, and the browser is signed out. *)
Lemma simple_unauthorized_creation :
  let be := Scenario.Simple.backend (Api.Rejected Scenario.expired)
              (Api.Fulfilled tt) (Api.Fulfilled tt) in
  let out := SimplePage.createNewSession be
               (SimplePage.mkState Scenario.Simple.mounted Scenario.signedIn) in
  map LearningSessionSimple.sid (LearningSessionSimple.sessions (SimplePage.component (snd out)))
  = [ "1762041600000"; "1" ] /\
  LearningSessionSimple.error (SimplePage.component (snd out)) = "" /\
  SimplePage.browser (snd out) = SimplePage.signedOut.
Proof.
  vm_compute. repeat split.
Qed.

(** ** [QuizDisplay] *)

Lemma own_put (k k' v : string) (o : JSObject.t) :
  JSObject.own k (JSObject.put k' v o)
  = if String.eqb k' k then Some v else JSObject.own k o.
Proof.
  induction o as [|[k0 v0] o IH]; simpl.
  - reflexivity.
  - destruct (String.eqb k0 k') eqn:E0; simpl.
    + apply String.eqb_eq in E0. subst k0.
      destruct (String.eqb k' k); reflexivity.
    + destruct (String.eqb k0 k) eqn:E1; [|exact IH].
      apply String.eqb_eq in E1. subst k0. now rewrite String.eqb_sym, E0.
Qed.

Lemma get_put_same (k v : string) (o : JSObject.t) :
  JSObject.get (JSObject.put k v o) k = JSObject.Own v.
Proof.
  unfold JSObject.get. now rewrite own_put, String.eqb_refl.
Qed.

Lemma get_put_other (k k' v : string) (o : JSObject.t) :
  k' <> k -> JSObject.get (JSObject.put k' v o) k = JSObject.get o k.
Proof.
  intros Hne. unfold JSObject.get. rewrite own_put.
  apply String.eqb_neq in Hne. now rewrite Hne.
Qed.

Lemma keys_put (k v : string) (o : JSObject.t) :
  JSObject.keys (JSObject.put k v o)
  = if existsb (String.eqb k) (JSObject.keys o) then JSObject.keys o
    else (JSObject.keys o ++ [ k ])%list.
Proof.
  unfold JSObject.keys. induction o as [|[k0 v0] o IH]; simpl.
  - reflexivity.
  - rewrite (String.eqb_sym k k0). destruct (String.eqb k0 k); simpl.
    + reflexivity.
    + rewrite IH. destruct (existsb _ _); reflexivity.
Qed.

Lemma index_Some {A : Type} (l : list A) (i : Z) (x : A) :
  index l i = Some x -> 0 <= i < len l /\ nth_error l (Z.to_nat i) = Some x.
Proof.
  unfold index, len. destruct (i <? 0) eqn:E; [discriminate|].
  apply Z.ltb_ge in E. intros H. split; [|exact H].
  split; [exact E|].
  assert (Hlt : (Z.to_nat i < length l)%nat) by (apply nth_error_Some; congruence).
  lia.
Qed.

Lemma index_inside {A : Type} (l : list A) (i : Z) :
  0 <= i < len l -> exists x, index l i = Some x.
Proof.
  unfold index, len. intros [H0 H1].
  destruct (i <? 0) eqn:E; [apply Z.ltb_lt in E; lia|].
  destruct (nth_error l (Z.to_nat i)) as [x|] eqn:Hx; [now exists x|].
  apply nth_error_None in Hx. lia.
Qed.

Lemma dispatch_countersInv (rt : QuizDisplay.Runtime) (questions : list QuizDisplay.Question)
      (ev : QuizDisplay.Event) (s : QuizDisplay.State) :
  countersInv questions s ->
  countersInv questions (fst (QuizDisplay.dispatch rt questions ev s)).
Proof.
  intros Hinv. unfold QuizDisplay.dispatch.
  destruct (QuizDisplay.enabled questions ev s) eqn:Hen; [|exact Hinv].
  destruct Hinv as ([H0 H1] & Hnd & Hincl).
  destruct ev; cbn [QuizDisplay.handler].
  - (* ChangeAnswer *)
    destruct (QuizDisplay.currentQuestion questions s) as [cq|] eqn:Hcq;
      [|repeat split; assumption].
    destruct (nth_error (QuizDisplay.options cq) k) as [option|];
      [|repeat split; assumption].
    unfold QuizDisplay.handleAnswerSelect. rewrite Hcq.
    cbn [fst]. unfold countersInv.
    cbn [QuizDisplay.currentQuestionIndex QuizDisplay.selectedAnswers].
    split; [split; assumption|].
    assert (Hin : In (QuizDisplay.id cq) (map QuizDisplay.id questions)).
    { apply in_map. apply index_Some in Hcq. destruct Hcq as [_ Hcq].
      eapply nth_error_In. exact Hcq. }
    rewrite keys_put.
    destruct (existsb (String.eqb (QuizDisplay.id cq))
                      (JSObject.keys (QuizDisplay.selectedAnswers s))) eqn:Eex.
    + split; assumption.
    + split.
      * apply NoDup_app; [exact Hnd | repeat constructor; intros [] |].
        intros x Hx [<- | []].
        assert (Hex : existsb (String.eqb (QuizDisplay.id cq))
                              (JSObject.keys (QuizDisplay.selectedAnswers s)) = true).
        { apply existsb_exists. exists (QuizDisplay.id cq). split; [exact Hx|].
          apply String.eqb_refl. }
        congruence.
      * intros x Hx. apply in_app_or in Hx. destruct Hx as [Hx | [<- | []]]; auto.
  - (* ClickPrevious *)
    unfold QuizDisplay.handlePreviousQuestion.
    destruct (0 <? QuizDisplay.currentQuestionIndex s) eqn:E;
      [|repeat split; assumption].
    apply Z.ltb_lt in E. unfold countersInv.
    cbn [fst QuizDisplay.currentQuestionIndex QuizDisplay.selectedAnswers].
    repeat split; try assumption; lia.
  - (* ClickNext *)
    unfold QuizDisplay.handleNextQuestion.
    destruct (QuizDisplay.currentQuestionIndex s <? len questions - 1) eqn:E;
      [|repeat split; assumption].
    apply Z.ltb_lt in E. unfold countersInv.
    cbn [fst QuizDisplay.currentQuestionIndex QuizDisplay.selectedAnswers].
    repeat split; try assumption; lia.
  - repeat split; assumption.
  - repeat split; assumption.
Qed.

Lemma run_cons (rt : QuizDisplay.Runtime) (questions : list QuizDisplay.Question)
      (ev : QuizDisplay.Event) (trace : list QuizDisplay.Event) (s : QuizDisplay.State) :
  QuizDisplay.run rt questions (ev :: trace) s
  = (fst (QuizDisplay.run rt questions trace (fst (QuizDisplay.dispatch rt questions ev s))),
     (snd (QuizDisplay.dispatch rt questions ev s)
      ++ snd (QuizDisplay.run rt questions trace
                (fst (QuizDisplay.dispatch rt questions ev s))))%list).
Proof.
  cbn [QuizDisplay.run].
  destruct (QuizDisplay.dispatch rt questions ev s) as [s1 out1]. cbn [fst snd].
  destruct (QuizDisplay.run rt questions trace s1) as [s2 out2]. reflexivity.
Qed.

Lemma run_countersInv (rt : QuizDisplay.Runtime) (questions : list QuizDisplay.Question)
      (trace : list QuizDisplay.Event) (s : QuizDisplay.State) :
  countersInv questions s ->
  countersInv questions (fst (QuizDisplay.run rt questions trace s)).
Proof.
  revert s. induction trace as [|ev trace IH]; intros s Hinv; [exact Hinv|].
  rewrite run_cons. cbn [fst]. apply IH. now apply dispatch_countersInv.
Qed.

(** X21.  The counters [QuizDisplay] shows stay in range.  For a quiz of at
    least one question and whatever the user does, a question is on display
    ("Loading quiz..." never returns), "Question i of n" has [1 <= i <= n],
    and "Answered", the number of keys of [selectedAnswers], lies between 0
    and [n], so that "Remaining" is never negative. *)
Theorem quiz_counters_stay_in_range
        (rt : QuizDisplay.Runtime) (questions : list QuizDisplay.Question)
        (trace : list QuizDisplay.Event) :
  questions <> [] ->
  let s := fst (QuizDisplay.run rt questions trace QuizDisplay.initialState) in
  (exists cq, QuizDisplay.currentQuestion questions s = Some cq) /\
  1 <= QuizDisplay.currentQuestionIndex s + 1 <= len questions /\
  0 <= len (JSObject.keys (QuizDisplay.selectedAnswers s)) <= len questions /\
  0 <= len questions - len (JSObject.keys (QuizDisplay.selectedAnswers s)).
Proof.
  intros Hne s.
  assert (Hinit : countersInv questions QuizDisplay.initialState).
  { unfold countersInv. cbn. split.
    - destruct questions; [congruence|]. unfold len. simpl length. lia.
    - split; [constructor | intros x []]. }
  destruct (run_countersInv rt questions trace _ Hinit) as ([H0 H1] & Hnd & Hincl).
  fold s in H0, H1, Hnd, Hincl.
  assert (Hk : (length (JSObject.keys (QuizDisplay.selectedAnswers s)) <= length questions)%nat).
  { rewrite <- (length_map QuizDisplay.id questions). now apply NoDup_incl_length. }
  split; [apply index_inside; lia|].
  unfold len in *. repeat split; lia.
Qed.

Lemma quiz_counters_stay_in_range_witness :
  let s := fst (QuizDisplay.run quizRuntime (QuizOverlay.quizQuestions quizStarted) quizTrace
                  QuizDisplay.initialState) in
  0 <= len (QuizOverlay.quizQuestions quizStarted)
       - len (JSObject.keys (QuizDisplay.selectedAnswers s)).
Proof.
  apply (quiz_counters_stay_in_range quizRuntime (QuizOverlay.quizQuestions quizStarted) quizTrace).
  vm_compute. discriminate.
Defined.

Lemma dispatch_passedInv (rt : QuizDisplay.Runtime) (questions : list QuizDisplay.Question)
      (ev : QuizDisplay.Event) (s : QuizDisplay.State) :
  passedInv questions s ->
  passedInv questions (fst (QuizDisplay.dispatch rt questions ev s)).
Proof.
  intros Hinv. unfold QuizDisplay.dispatch.
  destruct (QuizDisplay.enabled questions ev s) eqn:Hen; [|exact Hinv].
  destruct Hinv as [H0 Hp].
  destruct ev; cbn [QuizDisplay.handler].
  - (* ChangeAnswer *)
    destruct (QuizDisplay.currentQuestion questions s) as [cq|] eqn:Hcq;
      [|split; assumption].
    destruct (nth_error (QuizDisplay.options cq) k) as [option|]; [|split; assumption].
    unfold QuizDisplay.handleAnswerSelect. rewrite Hcq.
    cbn [fst]. unfold passedInv.
    cbn [QuizDisplay.currentQuestionIndex QuizDisplay.selectedAnswers].
    split; [exact H0|]. intros j qj Hj Hqj.
    destruct (String.eqb (QuizDisplay.id cq) (QuizDisplay.id qj)) eqn:E.
    + right. apply String.eqb_eq in E.
      apply index_Some in Hcq. destruct Hcq as [_ Hcq].
      exists (Z.to_nat (QuizDisplay.currentQuestionIndex s)), cq.
      repeat split; [lia | exact Hcq | exact E].
    + apply String.eqb_neq in E.
      destruct (Hp j qj Hj Hqj) as [Ha | Hk]; [left | right; exact Hk].
      unfold answered in *. now rewrite get_put_other.
  - (* ClickPrevious *)
    unfold QuizDisplay.handlePreviousQuestion.
    destruct (0 <? QuizDisplay.currentQuestionIndex s) eqn:E; [|split; assumption].
    apply Z.ltb_lt in E. unfold passedInv.
    cbn [fst QuizDisplay.currentQuestionIndex QuizDisplay.selectedAnswers].
    split; [lia|]. intros j qj Hj Hqj.
    destruct (Hp j qj ltac:(lia) Hqj) as [Ha | (k & qk & Hk1 & Hk2 & Hk3)];
      [left; exact Ha | right].
    exists k, qk. repeat split; [lia | exact Hk2 | exact Hk3].
  - (* ClickNext *)
    unfold QuizDisplay.handleNextQuestion.
    destruct (QuizDisplay.currentQuestionIndex s <? len questions - 1) eqn:E;
      [|split; assumption].
    unfold QuizDisplay.enabled in Hen.
    destruct (QuizDisplay.currentQuestion questions s) as [cq|] eqn:Hcq; [|discriminate].
    apply index_Some in Hcq. destruct Hcq as [_ Hcq].
    unfold passedInv.
    cbn [fst QuizDisplay.currentQuestionIndex QuizDisplay.selectedAnswers].
    split; [lia|]. intros j qj Hj Hqj.
    destruct (Z.eq_dec (Z.of_nat j) (QuizDisplay.currentQuestionIndex s)) as [Ej | Ej].
    + left. rewrite <- Ej, Nat2Z.id in Hcq. rewrite Hqj in Hcq. injection Hcq as ->.
      exact Hen.
    + destruct (Hp j qj ltac:(lia) Hqj) as [Ha | (k & qk & Hk1 & Hk2 & Hk3)];
        [left; exact Ha|].
      destruct (Z.eq_dec (Z.of_nat k) (QuizDisplay.currentQuestionIndex s)) as [Ek | Ek].
      * left. rewrite <- Ek, Nat2Z.id in Hcq. rewrite Hk2 in Hcq. injection Hcq as ->.
        unfold answered. rewrite <- Hk3. exact Hen.
      * right. exists k, qk. repeat split; [lia | exact Hk2 | exact Hk3].
  - split; assumption.
  - split; assumption.
Qed.

(** When [onComplete] is called, every question counts as answered. *)
Lemma dispatch_complete (rt : QuizDisplay.Runtime) (questions : list QuizDisplay.Question)
      (ev : QuizDisplay.Event) (s : QuizDisplay.State) (r : QuizDisplay.Results) :
  passedInv questions s ->
  In (QuizDisplay.OnComplete r) (snd (QuizDisplay.dispatch rt questions ev s)) ->
  ev = QuizDisplay.ClickNext /\
  r = QuizDisplay.resultsOf rt questions s /\
  QuizDisplay.currentQuestionIndex s = len questions - 1 /\
  forall q, In q questions -> answered (QuizDisplay.selectedAnswers s) q = true.
Proof.
  intros [H0 Hp]. unfold QuizDisplay.dispatch.
  destruct (QuizDisplay.enabled questions ev s) eqn:Hen; [|intros []].
  destruct ev; cbn [QuizDisplay.handler].
  - destruct (QuizDisplay.currentQuestion questions s) as [cq|]; [|intros []].
    destruct (nth_error (QuizDisplay.options cq) k); [|intros []].
    destruct (QuizDisplay.handleAnswerSelect questions s0 s); intros [].
  - intros [].
  - unfold QuizDisplay.handleNextQuestion.
    destruct (QuizDisplay.currentQuestionIndex s <? len questions - 1) eqn:E; [intros []|].
    apply Z.ltb_ge in E.
    intros [[= <-] | []]. split; [reflexivity|]. split; [reflexivity|].
    unfold QuizDisplay.enabled in Hen.
    destruct (QuizDisplay.currentQuestion questions s) as [cq|] eqn:Hcq; [|discriminate].
    apply index_Some in Hcq. destruct Hcq as [[_ Hlt] Hcq].
    split; [lia|].
    intros q Hq. apply In_nth_error in Hq. destruct Hq as [j Hj].
    assert (Hjlt : (j < length questions)%nat) by (apply nth_error_Some; congruence).
    unfold len in *.
    destruct (Z.eq_dec (Z.of_nat j) (QuizDisplay.currentQuestionIndex s)) as [Ej | Ej].
    + rewrite <- Ej, Nat2Z.id in Hcq. rewrite Hj in Hcq. injection Hcq as ->. exact Hen.
    + destruct (Hp j q ltac:(lia) Hj) as [Ha | (k & qk & Hk1 & Hk2 & Hk3)]; [exact Ha|].
      assert (Hklt : (k < length questions)%nat) by (apply nth_error_Some; congruence).
      assert (Ek : Z.of_nat k = QuizDisplay.currentQuestionIndex s) by lia.
      rewrite <- Ek, Nat2Z.id in Hcq. rewrite Hk2 in Hcq. injection Hcq as ->.
      unfold answered. rewrite <- Hk3. exact Hen.
  - intros [[=] | []].
  - intros [].
Qed.

Lemma run_complete (rt : QuizDisplay.Runtime) (questions : list QuizDisplay.Question)
      (r : QuizDisplay.Results) (trace : list QuizDisplay.Event) :
  forall s0,
    passedInv questions s0 ->
    In (QuizDisplay.OnComplete r) (snd (QuizDisplay.run rt questions trace s0)) ->
    exists pre post,
      trace = (pre ++ QuizDisplay.ClickNext :: post)%list /\
      r = QuizDisplay.resultsOf rt questions (fst (QuizDisplay.run rt questions pre s0)) /\
      QuizDisplay.currentQuestionIndex (fst (QuizDisplay.run rt questions pre s0))
      = len questions - 1 /\
      forall q, In q questions ->
                answered (QuizDisplay.selectedAnswers
                            (fst (QuizDisplay.run rt questions pre s0))) q = true.
Proof.
  induction trace as [|ev trace IH]; intros s0 Hinv Hin; [destruct Hin|].
  rewrite run_cons in Hin. cbn [snd] in Hin. apply in_app_or in Hin.
  destruct Hin as [Hin | Hin].
  - destruct (dispatch_complete rt questions ev s0 r Hinv Hin) as (-> & Hr & Hi & Hall).
    exists [], trace. repeat split; assumption.
  - destruct (IH _ (dispatch_passedInv rt questions ev s0 Hinv) Hin)
      as (pre & post & -> & Hr & Hi & Hall).
    exists (ev :: pre), post. rewrite run_cons. cbn [fst].
    repeat split; assumption.
Qed.

(** The result passed to [onComplete] counts the questions of the list. *)
Lemma run_complete_results (rt : QuizDisplay.Runtime) (questions : list QuizDisplay.Question)
      (trace : list QuizDisplay.Event) (r : QuizDisplay.Results) :
  In (QuizDisplay.OnComplete r)
     (snd (QuizDisplay.run rt questions trace QuizDisplay.initialState)) ->
  QuizDisplay.totalQuestions r = len questions /\
  0 <= QuizDisplay.correctAnswers r <= QuizDisplay.totalQuestions r.
Proof.
  intros Hin.
  assert (Hinit : passedInv questions QuizDisplay.initialState).
  { split; [cbn; lia|]. cbn. intros j qj Hj. lia. }
  destruct (run_complete rt questions r trace _ Hinit Hin) as (pre & post & _ & -> & _).
  cbn [QuizDisplay.totalQuestions QuizDisplay.correctAnswers QuizDisplay.resultsOf].
  split; [reflexivity|]. unfold len. split; [lia|].
  apply inj_le, filter_length_le.
Qed.

(** X22.  A quiz cannot be completed with a question left open.  Whatever
    the user does, going back and changing answers included, [onComplete] is
    called by a click on Next only, on the last question, and at that moment
    every question of the list counts as answered.  The result it passes
    counts all questions, and between none and all of them as correct. *)
Theorem quiz_completes_only_when_all_answered
        (rt : QuizDisplay.Runtime) (questions : list QuizDisplay.Question)
        (trace : list QuizDisplay.Event) (r : QuizDisplay.Results) :
  In (QuizDisplay.OnComplete r)
     (snd (QuizDisplay.run rt questions trace QuizDisplay.initialState)) ->
  exists pre post,
    trace = (pre ++ QuizDisplay.ClickNext :: post)%list /\
    let s := fst (QuizDisplay.run rt questions pre QuizDisplay.initialState) in
    r = QuizDisplay.resultsOf rt questions s /\
    QuizDisplay.currentQuestionIndex s = len questions - 1 /\
    (forall q, In q questions -> answered (QuizDisplay.selectedAnswers s) q = true) /\
    QuizDisplay.totalQuestions r = len questions /\
    0 < QuizDisplay.totalQuestions r /\
    0 <= QuizDisplay.correctAnswers r <= QuizDisplay.totalQuestions r.
Proof.
  intros Hin.
  assert (Hinit : passedInv questions QuizDisplay.initialState).
  { split; [cbn; lia|]. cbn. intros j qj Hj. lia. }
  destruct (run_complete rt questions r trace _ Hinit Hin)
    as (pre & post & Ht & Hr & Hi & Hall).
  exists pre, post. split; [exact Ht|]. cbv zeta.
  set (s := fst (QuizDisplay.run rt questions pre QuizDisplay.initialState)) in *.
  assert (Hpos : 0 < len questions).
  { assert (G : passedInv questions s).
    { unfold s. clear - Hinit. revert Hinit. generalize QuizDisplay.initialState.
      induction pre as [|ev pre IH]; intros s0 Hinv; [exact Hinv|].
      rewrite run_cons. cbn [fst]. apply IH. now apply dispatch_passedInv. }
    destruct G as [H0 _]. lia. }
  split; [exact Hr|]. split; [exact Hi|]. split; [exact Hall|].
  rewrite Hr.
  cbn [QuizDisplay.totalQuestions QuizDisplay.correctAnswers QuizDisplay.resultsOf].
  split; [reflexivity|]. split; [exact Hpos|].
  unfold len. split; [lia|].
  apply inj_le, filter_length_le.
Qed.

Lemma quiz_completes_only_when_all_answered_witness :
  exists pre post, quizTrace = (pre ++ QuizDisplay.ClickNext :: post)%list /\
    QuizDisplay.currentQuestionIndex
      (fst (QuizDisplay.run quizRuntime (QuizOverlay.quizQuestions quizStarted) pre
              QuizDisplay.initialState)) = 1.
Proof.
  destruct (quiz_completes_only_when_all_answered
              quizRuntime (QuizOverlay.quizQuestions quizStarted) quizTrace
              (QuizDisplay.mkResults 2 1 (mul (div (ofZ 1) (ofZ 2)) (ofZ 100)) 0)
              ltac:(vm_compute; left; reflexivity))
    as (pre & post & Ht & _ & Hi & _).
  exists pre, post. split; [exact Ht | exact Hi].
Defined.

(** X23.  The chip of a question names its difficulty and colours it in step:
    Easy is green ([success]) and Hard is red ([error]), and nothing else is;
    Medium is amber ([warning]), or has the default colour when the
    difficulty is missing, 0 or NaN.  The questions the second component
    passes to [QuizDisplay] always have a difficulty, so that their chip
    never has the default colour. *)
Theorem difficulty_chip_is_consistent (d : option number) :
  (QuizDisplay.getDifficultyLabel d = "Easy" <-> QuizDisplay.getDifficultyColor d = "success") /\
  (QuizDisplay.getDifficultyLabel d = "Hard" <-> QuizDisplay.getDifficultyColor d = "error") /\
  (QuizDisplay.getDifficultyLabel d = "Medium" <->
   QuizDisplay.getDifficultyColor d = "warning" \/ QuizDisplay.getDifficultyColor d = "default") /\
  (QuizDisplay.getDifficultyColor d = "default" <-> QuizDisplay.noDifficulty d = true) /\
  forall questionsData q,
    In q (LearningSessionSimple.convertQuestions questionsData) ->
    QuizDisplay.getDifficultyColor (QuizDisplay.difficulty (QuizOverlay.quizQuestion q))
    <> "default".
Proof.
  unfold QuizDisplay.getDifficultyLabel, QuizDisplay.getDifficultyColor.
  split; [|split; [|split; [|split]]].
  1-4: destruct (QuizDisplay.noDifficulty d), (QuizDisplay.below d 3), (QuizDisplay.below d 7);
    split; intros H; try discriminate; try reflexivity; auto;
    try (destruct H; discriminate).
  intros questionsData q Hq. apply In_nth_error in Hq. destruct Hq as [i Hi].
  destruct (convertQuestionsFrom_nth _ 0 i q Hi) as (_ & _ & Hd & _).
  cbn [QuizOverlay.quizQuestion QuizDisplay.difficulty QuizDisplay.noDifficulty].
  rewrite Hd.
  destruct (QuizDisplay.below (Some (LearningSessionSimple.difficulty q)) 3),
           (QuizDisplay.below (Some (LearningSessionSimple.difficulty q)) 7); discriminate.
Qed.

(** ** The quiz overlays of the second component *)

(** X24.  A quiz taken on the overlay never counts.  However it ends,
    completed or closed, the collection of sessions, and with it the
    attempts and the accuracy of the session, is what it was before; the
    session is over, and so is the overlay.  After a completed quiz the
    result overlay shows a result over exactly the questions of the
    session. *)
Theorem overlay_quiz_never_counts
        (rt : QuizDisplay.Runtime) (trace : list QuizDisplay.Event) (s : QuizOverlay.State) :
  let s' := QuizOverlay.quiz rt trace s in
  LearningSessionSimple.sessions (QuizOverlay.component s')
  = LearningSessionSimple.sessions (QuizOverlay.component s) /\
  (s' = s \/
   (QuizOverlay.quizDisplayed s' = false /\
    LearningSessionSimple.activeSession (QuizOverlay.component s') = None /\
    LearningSessionSimple.currentQuestions (QuizOverlay.component s') = [] /\
    (QuizOverlay.resultsDisplayed s' = false \/
     exists r,
       QuizOverlay.quizResults s' = Some r /\
       QuizDisplay.totalQuestions r
       = len (LearningSessionSimple.currentQuestions (QuizOverlay.component s)) /\
       0 <= QuizDisplay.correctAnswers r <= QuizDisplay.totalQuestions r))).
Proof.
  unfold QuizOverlay.quiz.
  destruct (QuizOverlay.quizDisplayed s); [|split; [reflexivity | now left]].
  destruct (snd (QuizDisplay.run rt (QuizOverlay.quizQuestions s) trace QuizDisplay.initialState))
    as [|out outs] eqn:Hout; [split; [reflexivity | now left]|].
  destruct out as [r|]; cbn [QuizOverlay.callback].
  - split; [reflexivity|]. right. repeat split. right. exists r. split; [reflexivity|].
    destruct (run_complete_results rt (QuizOverlay.quizQuestions s) trace r)
      as (Ht & Hc).
    { rewrite Hout. now left. }
    split; [|exact Hc]. rewrite Ht. unfold QuizOverlay.quizQuestions, len.
    now rewrite length_map.
  - split; [reflexivity|]. right. repeat split. now left.
Qed.

(** X25.  Retake Quiz does not retake.  [handleQuizComplete] has cleared
    [activeQuizAttempt] by the time the result overlay offers the button, so
    that [handleQuizRetake] finds nothing to restart: pressed on the result of
    a completed quiz it leaves exactly the state Close leaves, with no
    session, no question and neither overlay. *)
Theorem retake_after_complete_only_closes
        (asSession : LearningSessionSimple.QuizAttempt -> LearningSessionSimple.LearningSessionData)
        (results : QuizDisplay.Results) (s : QuizOverlay.State) :
  let shown := QuizOverlay.handleQuizComplete results s in
  let s' := QuizOverlay.handleQuizRetake asSession shown in
  QuizOverlay.resultsDisplayed shown = true /\
  s' = QuizOverlay.handleQuizClose s /\
  s' = QuizOverlay.handleQuizClose shown /\
  QuizOverlay.quizDisplayed s' = false /\
  QuizOverlay.resultsDisplayed s' = false /\
  LearningSessionSimple.activeSession (QuizOverlay.component s') = None /\
  LearningSessionSimple.currentQuestions (QuizOverlay.component s') = [].
Proof.
  repeat split.
Qed.

(** ** Signing in *)

Ltac run_auth :=
  cbv beta iota zeta delta
    [AuthContext.login AuthContext.register AuthContext.initAuth AuthContext.logout
     AuthContext.bind AuthContext.tryCatch AuthContext.set AuthContext.ret AuthContext.call
     AuthContext.accessTokenOf Api.request fst snd].

Lemma login_answers (rt : AuthContext.Runtime) (w : AuthContext.World)
      (address password : string) (s : AuthContext.State) :
  fst (AuthContext.login rt w address password s)
  = Api.Fulfilled
      (delivered (AuthContext.loginEndpoint w address password
                    (Api.authorization (AuthContext.browser s)))).
Proof.
  run_auth.
  destruct (AuthContext.loginEndpoint w address password _) as [[t|]|e]; try reflexivity.
  cbn [AuthContext.browser AuthContext.updBrowser AuthContext.setToken].
  destruct (AuthContext.currentUserEndpoint w _) as [current|e]; reflexivity.
Qed.

(** X26.  [login] and [register] never reject: whatever goes wrong comes back
    as [false].  They return [true] exactly when the first request, to
    [/auth/login] or [/auth/register], is fulfilled with a body to take the
    token from (an answer without a body makes the destructuring throw, which
    the outer [catch] turns into [false]); what [/auth/me] answers afterwards
    does not matter.  When they return [false] the user and the token of the
    provider are what they were. *)
Theorem login_and_register_answer_with_a_boolean
        (rt : AuthContext.Runtime) (w : AuthContext.World)
        (address password : string) (userData : AuthContext.RegistrationData)
        (s : AuthContext.State) :
  let header := Api.authorization (AuthContext.browser s) in
  let signedIn := AuthContext.login rt w address password s in
  let registered := AuthContext.register w userData s in
  fst signedIn
  = Api.Fulfilled (delivered (AuthContext.loginEndpoint w address password header)) /\
  fst registered
  = Api.Fulfilled (delivered (AuthContext.registerEndpoint w userData header)) /\
  (AuthContext.loginEndpoint w address password header = Api.Fulfilled AuthContext.nullData ->
   fst signedIn = Api.Fulfilled false) /\
  (fst signedIn = Api.Fulfilled false ->
   AuthContext.user (snd signedIn) = AuthContext.user s /\
   AuthContext.token (snd signedIn) = AuthContext.token s) /\
  (fst registered = Api.Fulfilled false ->
   AuthContext.user (snd registered) = AuthContext.user s /\
   AuthContext.token (snd registered) = AuthContext.token s).
Proof.
  run_auth.
  destruct (AuthContext.loginEndpoint w address password _) as [[t|]|e];
    destruct (AuthContext.registerEndpoint w userData _) as [[t'|]|e'];
    cbn [AuthContext.browser AuthContext.updBrowser AuthContext.setToken delivered];
    repeat match goal with
           | |- context [AuthContext.currentUserEndpoint w ?h] =>
               destruct (AuthContext.currentUserEndpoint w h) as [?u|?e]
           end;
    repeat split; intros; try discriminate; reflexivity.
Qed.

Lemma login_fulfilled (rt : AuthContext.Runtime) (w : AuthContext.World)
      (address password : string) (s : AuthContext.State) (access_token : option string) :
  AuthContext.loginEndpoint w address password (Api.authorization (AuthContext.browser s))
  = Api.Fulfilled (AuthContext.mkTokenData access_token) ->
  let stored := Api.setItem access_token (AuthContext.browser s) in
  snd (AuthContext.login rt w address password s)
  = match AuthContext.currentUserEndpoint w (Api.authorization stored) with
    | Api.Fulfilled current =>
        AuthContext.mkState (Some current) access_token
                            (AuthContext.loading s) stored (AuthContext.console s)
    | Api.Rejected e =>
        AuthContext.mkState (Some (AuthContext.fallbackUser rt address))
                            access_token (AuthContext.loading s)
                            (Api.onRejected e stored)
                            (AuthContext.console s
                             ++ [ "Failed to get user data after login, using fallback:" ])%list
    end.
Proof.
  intros Hlogin. run_auth. rewrite Hlogin.
  cbn [AuthContext.browser AuthContext.updBrowser AuthContext.setToken].
  destruct (AuthContext.currentUserEndpoint w _) as [current|e]; reflexivity.
Qed.

(** X27.  The token is in use from the moment it arrives until [logout].
    When [/auth/login] is fulfilled with a non-empty [access_token] and
    [/auth/me] answers the request that carries it, that request, sent by
    [login] itself, already has the header [Bearer <token>]; the provider
    then holds the token and the user of the answer, and every later request
    carries the header.  After [logout] no request carries an
    [Authorization] header, and user and token are gone. *)
Theorem requests_carry_the_token_until_logout
        (rt : AuthContext.Runtime) (w : AuthContext.World)
        (address password t : string) (s : AuthContext.State) (current : AuthContext.User) :
  AuthContext.loginEndpoint w address password (Api.authorization (AuthContext.browser s))
  = Api.Fulfilled (AuthContext.mkTokenData (Some t)) ->
  t <> "" ->
  AuthContext.currentUserEndpoint w (Some ("Bearer " ++ t)) = Api.Fulfilled current ->
  let s' := snd (AuthContext.login rt w address password s) in
  AuthContext.token s' = Some t /\
  AuthContext.user s' = Some current /\
  Api.storedToken (AuthContext.browser s') = Some t /\
  (forall (A : Type) (server : option string -> Api.Response A),
     fst (Api.request server (AuthContext.browser s')) = server (Some ("Bearer " ++ t))) /\
  (forall (A : Type) (server : option string -> Api.Response A),
     fst (Api.request server (AuthContext.browser (AuthContext.logout s'))) = server None) /\
  AuthContext.user (AuthContext.logout s') = None /\
  AuthContext.token (AuthContext.logout s') = None.
Proof.
  intros Hlogin Ht Hme s'. unfold s'.
  rewrite (login_fulfilled rt w address password s _ Hlogin). cbv zeta.
  assert (Hauth : Api.authorization
                    (Api.setItem (Some t) (AuthContext.browser s)) = Some ("Bearer " ++ t)).
  { unfold Api.authorization, Api.setItem. cbn [Api.storedToken].
    now rewrite (falsyString_false _ Ht). }
  rewrite Hauth, Hme.
  assert (Hreq : forall (A : Type) (server : option string -> Api.Response A) b,
             fst (Api.request server b) = server (Api.authorization b)).
  { intros A server b. unfold Api.request. destruct (server _); reflexivity. }
  cbn [AuthContext.token AuthContext.user AuthContext.browser AuthContext.logout
       AuthContext.setUser AuthContext.setToken AuthContext.updBrowser].
  repeat split.
  - intros A server. now rewrite Hreq, Hauth.
  - intros A server. now rewrite Hreq.
Qed.

Lemma requests_carry_the_token_until_logout_witness :
  let s' := snd (AuthContext.login asciiRuntime (authWorld false) "ada@example.org" "secret"
                   (AuthContext.initialState (Api.mkBrowser None "/login"))) in
  AuthContext.token s' = Some "tok123" /\ AuthContext.user s' = Some ada.
Proof.
  intros s'.
  destruct (requests_carry_the_token_until_logout
              asciiRuntime (authWorld false) "ada@example.org" "secret" "tok123"
              (AuthContext.initialState (Api.mkBrowser None "/login")) ada
              ltac:(reflexivity) ltac:(discriminate) ltac:(reflexivity))
    as (Ht & Hu & _).
  split; [exact Ht | exact Hu].
Defined.

(** X28.  An [/auth/me] that answers 401 to the fresh token leaves [login]
    half done.  [login] still returns [true], and the provider holds a user
    made up from the address (whose first name is never empty); but the
    response interceptor has removed the token from [localStorage] and
    pointed the window at [/login], so that the next request carries no
    [Authorization] header. *)
Theorem unauthorized_profile_leaves_login_half_done
        (rt : AuthContext.Runtime) (w : AuthContext.World)
        (address password t : string) (s : AuthContext.State) (e : Api.Error) :
  AuthContext.loginEndpoint w address password (Api.authorization (AuthContext.browser s))
  = Api.Fulfilled (AuthContext.mkTokenData (Some t)) ->
  t <> "" ->
  AuthContext.currentUserEndpoint w (Some ("Bearer " ++ t)) = Api.Rejected e ->
  Api.status e = Some 401 ->
  let out := AuthContext.login rt w address password s in
  fst out = Api.Fulfilled true /\
  (exists made name,
     AuthContext.user (snd out) = Some made /\
     AuthContext.email made = address /\
     AuthContext.username made = AuthContext.beforeAt address /\
     AuthContext.first_name made = Some name /\ name <> "") /\
  Api.storedToken (AuthContext.browser (snd out)) = None /\
  Api.location (AuthContext.browser (snd out)) = "/login" /\
  Api.authorization (AuthContext.browser (snd out)) = None.
Proof.
  intros Hlogin Ht Hme H401 out.
  assert (Hfst : fst out = Api.Fulfilled true).
  { unfold out. now rewrite login_answers, Hlogin. }
  split; [exact Hfst|].
  unfold out. rewrite (login_fulfilled rt w address password s _ Hlogin). cbv zeta.
  assert (Hauth : Api.authorization
                    (Api.setItem (Some t) (AuthContext.browser s)) = Some ("Bearer " ++ t)).
  { unfold Api.authorization, Api.setItem. cbn [Api.storedToken].
    now rewrite (falsyString_false _ Ht). }
  rewrite Hauth, Hme.
  cbn [AuthContext.token AuthContext.user AuthContext.browser].
  unfold Api.onRejected. rewrite H401. cbn [Z.eqb Pos.eqb Api.storedToken Api.location].
  split; [|repeat split].
  eexists. eexists. split; [reflexivity|].
  cbn [AuthContext.fallbackUser AuthContext.email AuthContext.username AuthContext.first_name].
  repeat split.
  destruct (falsyString _) eqn:E; [discriminate|].
  unfold falsyString in E. now apply String.eqb_neq in E.
Qed.

Lemma unauthorized_profile_leaves_login_half_done_witness :
  let w := {| AuthContext.loginEndpoint := AuthContext.loginEndpoint (authWorld false);
              AuthContext.registerEndpoint := AuthContext.registerEndpoint (authWorld false);
              AuthContext.currentUserEndpoint := fun _ => Api.Rejected unauthorized |} in
  let out := AuthContext.login asciiRuntime w "ada42@example.org" "secret"
               (AuthContext.initialState (Api.mkBrowser None "/")) in
  fst out = Api.Fulfilled true /\
  Api.location (AuthContext.browser (snd out)) = "/login".
Proof.
  intros w out.
  destruct (unauthorized_profile_leaves_login_half_done
              asciiRuntime w "ada42@example.org" "secret" "tok123"
              (AuthContext.initialState (Api.mkBrowser None "/")) unauthorized
              ltac:(reflexivity) ltac:(discriminate) ltac:(reflexivity) ltac:(reflexivity))
    as (H1 & _ & _ & H2 & _).
  split; [exact H1 | exact H2].
Defined.

(** X29.  [initAuth] never rejects and ends with [loading] off.  Without a
    token in the cell it sends nothing.  With a token it asks [/auth/me]:
    the user of the answer is stored and the token kept; on any rejection,
    a server that cannot be reached included, the token is removed from
    [localStorage] and from the cell, and the user is left as it was. *)
Theorem initAuth_drops_a_token_that_fails (w : AuthContext.World) (s : AuthContext.State) :
  let out := AuthContext.initAuth w s in
  let s' := snd out in
  fst out = Api.Fulfilled tt /\
  AuthContext.loading s' = false /\
  if AuthContext.hasToken s then
    match AuthContext.currentUserEndpoint w (Api.authorization (AuthContext.browser s)) with
    | Api.Fulfilled current =>
        AuthContext.user s' = Some current /\
        AuthContext.token s' = AuthContext.token s /\
        AuthContext.browser s' = AuthContext.browser s
    | Api.Rejected e =>
        AuthContext.user s' = AuthContext.user s /\
        AuthContext.token s' = None /\
        Api.storedToken (AuthContext.browser s') = None /\
        Api.authorization (AuthContext.browser s') = None
    end
  else
    AuthContext.user s' = AuthContext.user s /\
    AuthContext.token s' = AuthContext.token s /\
    AuthContext.browser s' = AuthContext.browser s /\
    AuthContext.console s' = AuthContext.console s.
Proof.
  run_auth. destruct (AuthContext.hasToken s); [|repeat split].
  destruct (AuthContext.currentUserEndpoint w _) as [current|e]; [repeat split|].
  cbn [AuthContext.browser AuthContext.updBrowser AuthContext.setToken AuthContext.setLoading
       AuthContext.consoleError AuthContext.user AuthContext.token AuthContext.loading].
  unfold Api.onRejected.
  destruct (Api.status e) as [code|]; [destruct (code =? 401)|]; repeat split.
Qed.

(** ** The login page *)

Ltac run_login :=
  cbv beta iota zeta delta
    [LoginPage.handleSubmit LoginPage.bind LoginPage.tryCatch LoginPage.tryFinally
     LoginPage.set LoginPage.ret LoginPage.useAuth fst snd].

(** X30.  What [handleSubmit] of the login page does, case by case.  With an
    address that is blank or has no "@", or without a password, nothing is
    sent: the provider and the browser stay as they are and the page names
    the missing input.  Otherwise the page moves to [/dashboard] exactly when
    [/auth/login] is fulfilled with a body to take the token from, and every
    failure, a server that cannot be reached or an answer without a body
    included, reads "Invalid email or password": because [login] never
    rejects, the [catch] clause with its other messages never runs.  The
    promise is fulfilled and [loading] is off at the end. *)
Theorem login_page_outcome
        (rt : AuthContext.Runtime) (w : AuthContext.World) (s : LoginPage.State) :
  let out := LoginPage.handleSubmit rt w s in
  let s' := snd out in
  fst out = Api.Fulfilled tt /\
  LoginPage.console s' = LoginPage.console s /\
  if validInput rt s then
    LoginPage.loading s' = false /\
    if delivered (AuthContext.loginEndpoint w (AuthContext.trim rt (LoginPage.email s))
                    (LoginPage.password s)
                    (Api.authorization (AuthContext.browser (LoginPage.auth s))))
    then
      LoginPage.navigatedTo s' = Some "/dashboard" /\ LoginPage.error s' = ""
    else
      LoginPage.navigatedTo s' = LoginPage.navigatedTo s /\
      LoginPage.error s'
      = "Invalid email or password. Please check your credentials and try again."
  else
    LoginPage.auth s' = LoginPage.auth s /\
    LoginPage.loading s' = LoginPage.loading s /\
    LoginPage.navigatedTo s' = LoginPage.navigatedTo s /\
    In (LoginPage.error s')
       [ "Email is required"; "Please enter a valid email address"; "Password is required" ].
Proof.
  cbv zeta. unfold validInput.
  pose proof (login_answers rt w
                (AuthContext.trim rt (LoginPage.email s)) (LoginPage.password s)
                (LoginPage.auth s)) as Hlogin.
  run_login.
  cbn [LoginPage.email LoginPage.password LoginPage.setError LoginPage.auth].
  destruct (falsyString (AuthContext.trim rt (LoginPage.email s)));
    [cbn; repeat split; auto|].
  destruct (LoginPage.includes "@" (LoginPage.email s));
    [|cbn; repeat split; auto].
  destruct (falsyString (LoginPage.password s)); [cbn; repeat split; auto|].
  cbn [negb andb LoginPage.setLoading LoginPage.setError LoginPage.auth LoginPage.email
       LoginPage.password LoginPage.error LoginPage.loading LoginPage.navigatedTo
       LoginPage.console].
  destruct (AuthContext.login rt w (AuthContext.trim rt (LoginPage.email s))
                              (LoginPage.password s) (LoginPage.auth s)) as [r a] eqn:Hl.
  cbn [fst] in Hlogin. subst r.
  destruct (delivered _); cbn; repeat split.
Qed.
